(** * Boutique work orders: a shallow embedding of the application core

    The development follows the Python package [app]: [models.py] (the two
    tables and the derived attributes of a work order), [schemas.py] (the
    request records), [crud.py] (the operations on the store) and the routers
    [status], [clients], [work_orders] and [search].

    Modelling decisions, fixed once for the whole file:
    - a [Float] column holds an exact rational ([Q]); comparisons and
      [max(0, _)] are the only operations whose result the code inspects;
    - a naive [datetime] is a count of microseconds ([Z]); the clock reading
      [datetime.now()] is an explicit argument [now];
    - text is a byte string (UTF-8), as SQLite stores it; case folding is
      that of SQLite's [lower()], which Python's [str.lower] agrees with on
      ASCII text; [LIKE] reads a text up to its first zero byte;
    - the bookkeeping column [updated_at], which the database stamps by
      itself when it writes a row and which no operation reads or tests, is
      left out of both tables, and no statement below is about it;
    - the SQLite session is an explicit [Store.t] threaded through every
      operation, each of which returns the store it leaves behind together
      with a value or the exception it raises. *)

From Stdlib Require Import ZArith QArith Qminmax String Ascii List Bool Lia.
From Stdlib Require Import Sorted Permutation.
From stdpp Require Import gmap strings pretty.
Import ListNotations.

Local Open Scope string_scope.
Local Open Scope Z_scope.

(** ** Python built-ins *)

Module py.

(** [x > y] on numbers. *)
Definition Qgtb (x y : Q) : bool := negb (Qle_bool x y).

(** [max(0, x)]: [max] keeps its first argument unless a later one is
    strictly greater. *)
Definition max0 (x : Q) : Q := if Qgtb x 0 then x else 0%Q.

(** [timedelta(days=n)] in microseconds. *)
Definition timedelta_days (n : Z) : Z := n * 86400000000.

(** A dict literal: the keys are inserted in the order they are written. *)
Definition dict {V : Type} (items : list (string * V)) : gmap string V :=
  fold_left (fun m kv => <[kv.1 := kv.2]> m) items ∅.

(** [d.get(k, default)]. *)
Definition dict_get {V : Type} (d : gmap string V) (k : string) (dflt : V) : V :=
  match d !! k with
  | Some v => v
  | None => dflt
  end.

(** Truthiness, as tested by [if x:], [x and y] and [not x]. *)
Definition truthy_int (x : option Z) : bool :=
  match x with
  | Some n => negb (n =? 0)
  | None => false
  end.

Definition truthy_str (x : option string) : bool :=
  match x with
  | Some s => negb (String.eqb s "")
  | None => false
  end.

Definition truthy_bool (x : option bool) : bool :=
  match x with
  | Some b => b
  | None => false
  end.

(** Exceptions raised by the code under study, identified by their class
    (and, for [HTTPException], the status code); message texts are left out. *)
Inductive exn : Type :=
| ValueError
| ValidationError
| TypeError
| IntegrityError
| OperationalError
| HTTPException (status_code : Z).

Inductive result (A : Type) : Type :=
| Ok (a : A)
| Raise (e : exn).
Arguments Ok {A} a.
Arguments Raise {A} e.


(** [str.lower] on one byte and on a string: the letters [A]..[Z] are the
    only ASCII characters it changes. *)
Definition lower_byte (c : ascii) : ascii :=
  let n := nat_of_ascii c in
  if ((65 <=? n) && (n <=? 90))%nat then ascii_of_nat (n + 32) else c.

Fixpoint lower (s : string) : string :=
  match s with
  | EmptyString => EmptyString
  | String c s' => String (lower_byte c) (lower s')
  end.

(** [str(n)] for a count. *)
Definition str_nat (n : nat) : string := pretty n.

(** [str(n)] for an integer. *)
Definition str_int (n : Z) : string := pretty n.

End py.

(** ** models.py *)

Module models.

Inductive OrderStatus : Type :=
| ORDER_PLACED
| STARTED
| FINISHED
| DELIVERED_FULLY_PAID
| DELIVERED_PAYMENT_PENDING.

#[export] Instance OrderStatus_eq_dec : EqDecision OrderStatus.
Proof. solve_decision. Defined.

(** [OrderStatus.X.value] *)
Definition value (s : OrderStatus) : string :=
  match s with
  | ORDER_PLACED => "Order Placed"
  | STARTED => "Started"
  | FINISHED => "Finished"
  | DELIVERED_FULLY_PAID => "Delivered - Fully Paid"
  | DELIVERED_PAYMENT_PENDING => "Delivered – Payment Pending"
  end.

(** Iteration over the enumeration, in declaration order. *)
Definition all_statuses : list OrderStatus :=
  [ORDER_PLACED; STARTED; FINISHED; DELIVERED_FULLY_PAID; DELIVERED_PAYMENT_PENDING].

(** The list literal that every derived attribute and query tests against. *)
Definition delivered_states : list OrderStatus :=
  [DELIVERED_FULLY_PAID; DELIVERED_PAYMENT_PENDING].

(** [status not in [DELIVERED_FULLY_PAID, DELIVERED_PAYMENT_PENDING]] *)
Definition not_delivered (s : OrderStatus) : bool :=
  negb (bool_decide (s ∈ delivered_states)).

Module Client.
Record t : Type := mk {
  id : Z;
  name : string;
  mobile_number : string;
  email : option string;
  address : option string;
  created_at : Z
}.
End Client.

Module WorkOrder.
Record t : Type := mk {
  id : Z;
  client_id : Z;
  order_date : Z;
  expected_delivery_date : Z;
  actual_delivery_date : option Z;
  description : option string;
  notes : option string;
  status : OrderStatus;
  advance_paid : Q;
  total_estimate : Q;
  actual_amount : Q;
  due_cleared : bool;
  created_at : Z
}.

(** [is_overdue]; [now] is the value of [datetime.now()]. *)
Definition is_overdue (now : Z) (self : t) : bool :=
  (expected_delivery_date self <? now) && not_delivered (status self).

(** [due_in_one_day]: the property reads the clock twice, first for
    [tomorrow] ([now1]) and then for the lower bound ([now2]). *)
Definition due_in_one_day (now1 now2 : Z) (self : t) : bool :=
  let tomorrow := now1 + py.timedelta_days 1 in
  (expected_delivery_date self <=? tomorrow)
  && (expected_delivery_date self >=? now2)
  && not_delivered (status self).

Definition is_active (self : t) : bool := not_delivered (status self).

Definition remaining_amount (self : t) : Q :=
  if py.Qgtb (actual_amount self) 0
  then py.max0 (actual_amount self - advance_paid self)
  else py.max0 (total_estimate self - advance_paid self).

End WorkOrder.

End models.

(** ** routers/status.py *)

Module routers_status.
Import models.

(** One entry of the lists held by [workflow_transitions]. *)
Record option_entry : Type := mk_entry {
  entry_value : string;
  entry_label : string;
  entry_description : string
}.

Definition workflow_transitions : gmap string (list option_entry) :=
  py.dict
    [ ("Order Placed",
        [ mk_entry (value STARTED) "Started" "Begin work on the order" ]);
      ("Started",
        [ mk_entry (value FINISHED) "Finished" "Mark work as completed" ]);
      ("Finished",
        [ mk_entry (value DELIVERED_FULLY_PAID) "Delivered - Fully Paid"
            "Order delivered with full payment";
          mk_entry (value DELIVERED_PAYMENT_PENDING) "Delivered – Payment Pending"
            "Order delivered but payment pending" ]);
      ("Delivered – Payment Pending",
        [ mk_entry (value DELIVERED_FULLY_PAID) "Delivered - Fully Paid"
            "Update to fully paid status" ]);
      ("Delivered - Fully Paid", []) ].

Definition get_next_status_options (current_status : string) : list option_entry :=
  py.dict_get workflow_transitions current_status [].

(** [validate_status]: the membership test [status in valid_statuses]. *)
Definition valid_statuses : list string := map value all_statuses.

Definition is_valid (status : string) : bool :=
  bool_decide (status ∈ valid_statuses).


(** One entry of [get_status_options]. *)
Record status_option : Type := mk_option {
  option_value : string;
  option_label : string;
  option_order : Z;
  option_description : string
}.

Definition get_status_options : list status_option :=
  [ mk_option (value ORDER_PLACED) "Order Placed" 1
      "Initial status when order is first created";
    mk_option (value STARTED) "Started" 2
      "Work has begun on the order";
    mk_option (value FINISHED) "Finished" 3
      "Work is completed, ready for delivery";
    mk_option (value DELIVERED_FULLY_PAID) "Delivered - Fully Paid" 4
      "Order delivered and payment completed";
    mk_option (value DELIVERED_PAYMENT_PENDING) "Delivered – Payment Pending" 4
      "Order delivered but payment still pending" ].

Record stage : Type := mk_stage {
  stage_number : Z;
  stage_name : string;
  stage_statuses : list string;
  stage_description : string
}.

Record workflow : Type := mk_workflow {
  stages : list stage;
  transitions : gmap string (list string);
  final_states : list string;
  active_states : list string
}.

Definition get_status_workflow : workflow :=
  mk_workflow
    [ mk_stage 1 "Order Placement" ["Order Placed"]
        "Initial order creation and confirmation";
      mk_stage 2 "Work in Progress" ["Started"]
        "Active work being performed on the order";
      mk_stage 3 "Work Completed" ["Finished"]
        "Work completed, ready for delivery";
      mk_stage 4 "Delivered" ["Delivered - Fully Paid"; "Delivered – Payment Pending"]
        "Order delivered to customer" ]
    (py.dict
       [ ("Order Placed", ["Started"]);
         ("Started", ["Finished"]);
         ("Finished", ["Delivered - Fully Paid"; "Delivered – Payment Pending"]);
         ("Delivered - Fully Paid", []);
         ("Delivered – Payment Pending", ["Delivered - Fully Paid"]) ])
    ["Delivered - Fully Paid"]
    ["Order Placed"; "Started"; "Finished"; "Delivered – Payment Pending"].

(** The dict returned by [validate_status]; the last three keys are set
    only for a valid status. *)
Record validation : Type := mk_validation {
  validation_status : string;
  validation_is_valid : bool;
  validation_valid_statuses : list string;
  validation_display_name : option string;
  validation_is_final : option bool;
  validation_is_active : option bool
}.

Definition validate_status (status : string) : validation :=
  let valid_statuses := map value all_statuses in
  let is_valid := bool_decide (status ∈ valid_statuses) in
  if is_valid then
    (* [for status_enum in models.OrderStatus: if status_enum.value == status: ..; break] *)
    match List.find (fun status_enum => String.eqb (value status_enum) status) all_statuses with
    | Some status_enum =>
        mk_validation status is_valid valid_statuses
          (Some (value status_enum))
          (Some (bool_decide (status_enum ∈ [DELIVERED_FULLY_PAID])))
          (Some (negb (bool_decide (status_enum ∈ [DELIVERED_FULLY_PAID;
                                                   DELIVERED_PAYMENT_PENDING]))))
    | None => mk_validation status is_valid valid_statuses None None None
    end
  else mk_validation status is_valid valid_statuses None None None.

End routers_status.


(** ** schemas.py *)

Module schemas.
Import models.

(** A field of an update schema. [dict(exclude_unset=True)] keeps exactly the
    fields the request supplied, a field supplied as [null] included. *)
Inductive field (A : Type) : Type :=
| Unset
| Null
| Set_ (a : A).
Arguments Unset {A}.
Arguments Null {A}.
Arguments Set_ {A} a.

(** Field constraints shared by the client schemas. *)
Definition is_digit (c : ascii) : bool :=
  let n := Z.of_nat (nat_of_ascii c) in (48 <=? n) && (n <=? 57).

Fixpoint all_digits (s : string) : bool :=
  match s with
  | EmptyString => true
  | String c s' => is_digit c && all_digits s'
  end.

Definition len (s : string) : Z := Z.of_nat (String.length s).

(** [min_length=1, max_length=100] *)
Definition name_ok (s : string) : bool := (1 <=? len s) && (len s <=? 100).

(** [pattern=r'^\d{10}$'] *)
Definition mobile_ok (s : string) : bool := (len s =? 10) && all_digits s.

(** [max_length=n] on an optional field *)
Definition opt_max_length (n : Z) (o : option string) : bool :=
  match o with
  | Some s => len s <=? n
  | None => true
  end.

Definition opt_ok (ok : string -> bool) (o : option string) : bool :=
  match o with
  | Some s => ok s
  | None => true
  end.

Module ClientCreate.
Record t : Type := mk {
  name : string;
  mobile_number : string;
  email : option string;
  address : option string
}.

(** The constructor call [ClientCreate(name=.., mobile_number=.., ..)]: the
    two required fields must be strings that satisfy their constraints. *)
Definition new (name mobile_number email address : option string) : py.result t :=
  match name, mobile_number with
  | Some n, Some m =>
      if name_ok n && mobile_ok m && opt_max_length 500 address
      then py.Ok (mk n m email address)
      else py.Raise py.ValidationError
  | _, _ => py.Raise py.ValidationError
  end.
End ClientCreate.

Module ClientUpdate.
Record t : Type := mk {
  name : field string;
  mobile_number : field string;
  email : field string;
  address : field string
}.

Definition field_ok (ok : string -> bool) (f : field string) : bool :=
  match f with
  | Set_ s => ok s
  | _ => true
  end.

(** What the request layer has checked before the record reaches the code. *)
Definition valid (u : t) : bool :=
  field_ok name_ok (name u)
  && field_ok mobile_ok (mobile_number u)
  && field_ok (fun s => len s <=? 500) (address u).
End ClientUpdate.

Module WorkOrderCreate.
Record t : Type := mk {
  expected_delivery_date : Z;
  description : option string;
  notes : option string;
  status : OrderStatus;
  advance_paid : Q;
  total_estimate : Q;
  actual_amount : Q;
  due_cleared : bool;
  client_id : option Z;
  client_name : option string;
  client_mobile : option string;
  client_email : option string;
  client_address : option string
}.

(** The model validator: with no [client_id], name and mobile are required. *)
Definition validate_client_info (self : t) : bool :=
  match client_id self with
  | None => py.truthy_str (client_name self) && py.truthy_str (client_mobile self)
  | Some _ => true
  end.

(** Field constraints and the model validator together. *)
Definition valid (w : t) : bool :=
  opt_max_length 1000 (description w)
  && opt_max_length 1000 (notes w)
  && Qle_bool 0 (advance_paid w)
  && Qle_bool 0 (total_estimate w)
  && Qle_bool 0 (actual_amount w)
  && opt_ok name_ok (client_name w)
  && opt_ok mobile_ok (client_mobile w)
  && opt_max_length 500 (client_address w)
  && validate_client_info w.
End WorkOrderCreate.

Module WorkOrderUpdate.
Record t : Type := mk {
  expected_delivery_date : field Z;
  actual_delivery_date : field Z;
  description : field string;
  notes : field string;
  status : field OrderStatus;
  advance_paid : field Q;
  total_estimate : field Q;
  actual_amount : field Q;
  due_cleared : field bool
}.
End WorkOrderUpdate.

Module WorkOrderFilter.
Record t : Type := mk {
  delivery_date : option Z;
  delivery_window_start : option Z;
  delivery_window_end : option Z;
  overdue_only : option bool;
  status : option OrderStatus;
  client_id : option Z
}.
End WorkOrderFilter.

Module DashboardSummary.
Record t : Type := mk {
  total_work_orders : nat;
  active_work_orders : nat;
  overdue_work_orders : nat;
  orders_due_in_one_day : nat;
  completed_orders : nat;
  total_revenue : Q;
  pending_payments : Q
}.
End DashboardSummary.


(** The dict built by [crud.get_client_summary], which becomes a
    [ClientSummary]. *)
Module ClientSummary.
Record t : Type := mk {
  client : Client.t;
  work_orders : list WorkOrder.t;
  total_orders : nat;
  active_orders : nat;
  completed_orders : nat;
  total_amount_due : Q
}.
End ClientSummary.

Module MessageResponse.
Record t : Type := mk {
  message : string;
  success : bool
}.
End MessageResponse.

Module PriorityOrderResponse.
Record t : Type := mk {
  work_orders : list WorkOrder.t;
  sort_order : string;
  total_count : nat
}.
End PriorityOrderResponse.

End schemas.

(** ** database.py: the session

    The two tables are lists of rows in rowid order.  An operation is a
    function from the store to the store it leaves and a value or an
    exception; a failed [commit] leaves the store as it was. *)

Module Store.
Import models.
Record t : Type := mk {
  clients : list Client.t;
  work_orders : list WorkOrder.t
}.
End Store.

Module db.
Import models.

Definition M (A : Type) : Type := Store.t -> Store.t * py.result A.

Definition ret {A : Type} (a : A) : M A := fun st => (st, py.Ok a).

Definition raise {A : Type} (e : py.exn) : M A := fun st => (st, py.Raise e).

Definition bind {A B : Type} (m : M A) (k : A -> M B) : M B :=
  fun st =>
    match m st with
    | (st', py.Ok a) => k a st'
    | (st', py.Raise e) => (st', py.Raise e)
    end.

(** A read-only query. *)
Definition query {A : Type} (q : Store.t -> A) : M A := fun st => (st, py.Ok (q st)).

(** A pure computation that may raise. *)
Definition lift {A : Type} (r : py.result A) : M A := fun st => (st, r).

(** The rowid SQLite gives to a new row of an [INTEGER PRIMARY KEY] table:
    1 in an empty table, otherwise one more than the largest in use. *)
Definition next_id (ids : list Z) : Z :=
  match ids with
  | [] => 1
  | i :: rest => fold_left Z.max rest i + 1
  end.

(** [db.add(Client(..)); db.commit(); db.refresh(..)]: the [INSERT] is
    rejected when the unique column [mobile_number] already holds the value. *)
Definition insert_client (now : Z) (name mobile_number : string)
    (email address : option string) : M Client.t :=
  fun st =>
    if existsb (fun c => String.eqb (Client.mobile_number c) mobile_number)
         (Store.clients st)
    then (st, py.Raise py.IntegrityError)
    else
      let c := Client.mk (next_id (map Client.id (Store.clients st)))
                 name mobile_number email address now in
      (Store.mk (Store.clients st ++ [c]) (Store.work_orders st), py.Ok c).

(** [db.add(WorkOrder(..)); db.commit(); db.refresh(..)]; [order_date] and
    [created_at] take their server default, [actual_delivery_date] is null.
    SQLite does not check the foreign key unless asked to, and the engine
    does not ask. *)
Definition insert_work_order (now : Z) (client_id expected_delivery_date : Z)
    (description notes : option string) (status : OrderStatus)
    (advance_paid total_estimate actual_amount : Q) (due_cleared : bool)
    : M WorkOrder.t :=
  fun st =>
    let o := WorkOrder.mk (next_id (map WorkOrder.id (Store.work_orders st)))
               client_id now expected_delivery_date None description notes status
               advance_paid total_estimate actual_amount due_cleared now in
    (Store.mk (Store.clients st) (Store.work_orders st ++ [o]), py.Ok o).

(** The [UPDATE] of the row(s) with a given primary key. *)
Definition replace_work_order (o' : WorkOrder.t) : M unit :=
  fun st =>
    (Store.mk (Store.clients st)
       (map (fun o => if WorkOrder.id o =? WorkOrder.id o' then o' else o)
          (Store.work_orders st)),
     py.Ok tt).

(** The [UPDATE] of a client row; the unique column must not collide with
    another row. *)
Definition replace_client (c' : Client.t) : M unit :=
  fun st =>
    if existsb (fun c => negb (Client.id c =? Client.id c')
                         && String.eqb (Client.mobile_number c) (Client.mobile_number c'))
         (Store.clients st)
    then (st, py.Raise py.IntegrityError)
    else
      (Store.mk
         (map (fun c => if Client.id c =? Client.id c' then c' else c) (Store.clients st))
         (Store.work_orders st),
       py.Ok tt).

(** [db.delete(client); db.commit()].  The relationship [Client.work_orders]
    declares no delete cascade, so the unit of work first detaches the
    client's orders by setting their [client_id] to null; the column is
    [nullable=False], the [UPDATE] fails and nothing is committed.  A client
    without orders is simply deleted. *)
Definition delete_client_row (c : Client.t) : M unit :=
  fun st =>
    match List.filter (fun o => WorkOrder.client_id o =? Client.id c) (Store.work_orders st) with
    | [] =>
        (Store.mk
           (List.filter (fun c0 => negb (Client.id c0 =? Client.id c)) (Store.clients st))
           (Store.work_orders st),
         py.Ok tt)
    | _ :: _ => (st, py.Raise py.IntegrityError)
    end.

(** [db.delete(work_order); db.commit()] *)
Definition delete_work_order_row (o : WorkOrder.t) : M unit :=
  fun st =>
    (Store.mk (Store.clients st)
       (List.filter (fun o0 => negb (WorkOrder.id o0 =? WorkOrder.id o)) (Store.work_orders st)),
     py.Ok tt).


(** [.offset(n)]: a negative offset counts as zero. *)
Definition offset {A : Type} (n : Z) (l : list A) : list A := skipn (Z.to_nat n) l.

(** [.limit(n)]: a negative limit means no limit. *)
Definition limit {A : Type} (n : Z) (l : list A) : list A :=
  if n <? 0 then l else firstn (Z.to_nat n) l.

(** [.order_by(key.asc())] and [.order_by(key.desc())]; rows with equal
    keys stay in storage order. *)
Fixpoint insert_by {A : Type} (before : A -> A -> bool) (x : A) (l : list A) : list A :=
  match l with
  | [] => [x]
  | y :: l' => if before x y then x :: l else y :: insert_by before x l'
  end.

Definition order_by {A : Type} (key : A -> Z) (desc : bool) (l : list A) : list A :=
  fold_right
    (insert_by (fun x y => if desc then key y <=? key x else key x <=? key y))
    [] l.

(** [db.query(models.WorkOrder).delete()]: one [DELETE] statement for the
    whole table. *)
Definition delete_all_work_order_rows : M unit :=
  fun st => (Store.mk (Store.clients st) [], py.Ok tt).

(** [db.query(models.Client).delete()]: the bulk delete bypasses the
    relationship handling of the unit of work, and SQLite does not check the
    foreign key. *)
Definition delete_all_client_rows : M unit :=
  fun st => (Store.mk [] (Store.work_orders st), py.Ok tt).

End db.

Declare Scope db_scope.
Delimit Scope db_scope with db.
Notation "x <~ m ;; k" := (db.bind m (fun x => k))
  (at level 100, m at next level, right associativity) : db_scope.

(** ** crud.py *)

Module crud.
Import models schemas.
Local Open Scope db_scope.

(** *** Clients *)

Definition get_client (st : Store.t) (client_id : Z) : option Client.t :=
  List.find (fun c => Client.id c =? client_id) (Store.clients st).

Definition get_client_by_mobile (st : Store.t) (mobile_number : string) : option Client.t :=
  List.find (fun c => String.eqb (Client.mobile_number c) mobile_number) (Store.clients st).

Definition create_client (now : Z) (client : ClientCreate.t) : db.M Client.t :=
  db.insert_client now (ClientCreate.name client) (ClientCreate.mobile_number client)
    (ClientCreate.email client) (ClientCreate.address client).

(** [setattr] on a [nullable=False] column; the null surfaces at [commit]. *)
Definition required {A : Type} (f : field A) (old : A) : py.result A :=
  match f with
  | Unset => py.Ok old
  | Null => py.Raise py.IntegrityError
  | Set_ a => py.Ok a
  end.

(** [setattr] on a nullable column. *)
Definition nullable {A : Type} (f : field A) (old : option A) : option A :=
  match f with
  | Unset => old
  | Null => None
  | Set_ a => Some a
  end.

Definition setattrs_client (c : Client.t) (u : ClientUpdate.t) : py.result Client.t :=
  match required (ClientUpdate.name u) (Client.name c),
        required (ClientUpdate.mobile_number u) (Client.mobile_number c) with
  | py.Ok n, py.Ok m =>
      py.Ok (Client.mk (Client.id c) n m
               (nullable (ClientUpdate.email u) (Client.email c))
               (nullable (ClientUpdate.address u) (Client.address c))
               (Client.created_at c))
  | _, _ => py.Raise py.IntegrityError
  end.

Definition update_client (client_id : Z) (client_update : ClientUpdate.t)
    : db.M (option Client.t) :=
  db_client <~ db.query (fun st => get_client st client_id) ;;
  match db_client with
  | Some c =>
      c' <~ db.lift (setattrs_client c client_update) ;;
      _ <~ db.replace_client c' ;;
      db.ret (Some c')
  | None => db.ret None
  end.

Definition delete_client (client_id : Z) : db.M bool :=
  db_client <~ db.query (fun st => get_client st client_id) ;;
  match db_client with
  | Some c =>
      _ <~ db.delete_client_row c ;;
      db.ret true
  | None => db.ret false
  end.

(** *** Work orders *)

Definition get_work_order (st : Store.t) (order_id : Z) : option WorkOrder.t :=
  List.find (fun o => WorkOrder.id o =? order_id) (Store.work_orders st).

Definition create_work_order (now : Z) (work_order : WorkOrderCreate.t)
    : db.M (option WorkOrder.t) :=
  (* the [else] branch of [if work_order.client_id:] *)
  let create_new_client : db.M Z :=
    client_data <~ db.lift (ClientCreate.new
                              (WorkOrderCreate.client_name work_order)
                              (WorkOrderCreate.client_mobile work_order)
                              (WorkOrderCreate.client_email work_order)
                              (WorkOrderCreate.client_address work_order)) ;;
    existing_client <~ db.query (fun st =>
                         get_client_by_mobile st (ClientCreate.mobile_number client_data)) ;;
    match existing_client with
    | Some c => db.ret (Client.id c)
    | None =>
        new_client <~ create_client now client_data ;;
        db.ret (Client.id new_client)
    end in
  (* [if work_order.client_id:] -- [None] and [0] are both falsy *)
  client_id <~
    match WorkOrderCreate.client_id work_order with
    | None => create_new_client
    | Some cid =>
        if cid =? 0 then create_new_client
        else
          existing_client <~ db.query (fun st => get_client st cid) ;;
          match existing_client with
          | Some _ => db.ret cid
          | None =>
              if py.truthy_str (WorkOrderCreate.client_name work_order)
                 && py.truthy_str (WorkOrderCreate.client_mobile work_order)
              then
                client_data <~ db.lift (ClientCreate.new
                                          (WorkOrderCreate.client_name work_order)
                                          (WorkOrderCreate.client_mobile work_order)
                                          (WorkOrderCreate.client_email work_order)
                                          (WorkOrderCreate.client_address work_order)) ;;
                existing_mobile_client <~ db.query (fun st =>
                    get_client_by_mobile st (ClientCreate.mobile_number client_data)) ;;
                match existing_mobile_client with
                | Some c => db.ret (Client.id c)
                | None =>
                    new_client <~ create_client now client_data ;;
                    db.ret (Client.id new_client)
                end
              else db.raise py.ValueError
          end
    end ;;
  db_work_order <~ db.insert_work_order now client_id
                     (WorkOrderCreate.expected_delivery_date work_order)
                     (WorkOrderCreate.description work_order)
                     (WorkOrderCreate.notes work_order)
                     (WorkOrderCreate.status work_order)
                     (WorkOrderCreate.advance_paid work_order)
                     (WorkOrderCreate.total_estimate work_order)
                     (WorkOrderCreate.actual_amount work_order)
                     (WorkOrderCreate.due_cleared work_order) ;;
  db.query (fun st => get_work_order st (WorkOrder.id db_work_order)).

(** The loop [for field, value in update_data.items(): setattr(..)]. *)
Definition setattrs_work_order (o : WorkOrder.t) (u : WorkOrderUpdate.t)
    : py.result WorkOrder.t :=
  match required (WorkOrderUpdate.expected_delivery_date u) (WorkOrder.expected_delivery_date o),
        required (WorkOrderUpdate.status u) (WorkOrder.status o),
        required (WorkOrderUpdate.advance_paid u) (WorkOrder.advance_paid o),
        required (WorkOrderUpdate.total_estimate u) (WorkOrder.total_estimate o),
        required (WorkOrderUpdate.actual_amount u) (WorkOrder.actual_amount o),
        required (WorkOrderUpdate.due_cleared u) (WorkOrder.due_cleared o) with
  | py.Ok e, py.Ok s, py.Ok adv, py.Ok est, py.Ok act, py.Ok due =>
      py.Ok (WorkOrder.mk (WorkOrder.id o) (WorkOrder.client_id o) (WorkOrder.order_date o)
               e
               (nullable (WorkOrderUpdate.actual_delivery_date u) (WorkOrder.actual_delivery_date o))
               (nullable (WorkOrderUpdate.description u) (WorkOrder.description o))
               (nullable (WorkOrderUpdate.notes u) (WorkOrder.notes o))
               s adv est act due (WorkOrder.created_at o))
  | _, _, _, _, _, _ => py.Raise py.IntegrityError
  end.

Definition update_work_order (order_id : Z) (work_order_update : WorkOrderUpdate.t)
    : db.M (option WorkOrder.t) :=
  db_work_order <~ db.query (fun st => get_work_order st order_id) ;;
  match db_work_order with
  | Some o =>
      o' <~ db.lift (setattrs_work_order o work_order_update) ;;
      _ <~ db.replace_work_order o' ;;
      db.ret (Some o')
  | None => db.ret None
  end.

Definition delete_work_order (order_id : Z) : db.M bool :=
  db_work_order <~ db.query (fun st => get_work_order st order_id) ;;
  match db_work_order with
  | Some o =>
      _ <~ db.delete_work_order_row o ;;
      db.ret true
  | None => db.ret false
  end.

(** *** Queries *)

Definition get_work_orders_by_client (st : Store.t) (client_id : Z) : list WorkOrder.t :=
  List.filter (fun o => WorkOrder.client_id o =? client_id) (Store.work_orders st).

(** [delivery_date.replace(hour=0, minute=0, second=0, microsecond=0)] *)
Definition start_of_day (d : Z) : Z := d - d mod py.timedelta_days 1.

(** The conjunction used by every overdue query. *)
Definition overdue_condition (now : Z) (o : WorkOrder.t) : bool :=
  (WorkOrder.expected_delivery_date o <? now) && not_delivered (WorkOrder.status o).

Definition get_filtered_work_orders (now : Z) (st : Store.t) (filters : WorkOrderFilter.t)
    : list WorkOrder.t :=
  let query := Store.work_orders st in
  let query :=
    match WorkOrderFilter.delivery_date filters with
    | Some d =>
        let start_of_day := start_of_day d in
        let end_of_day := start_of_day + py.timedelta_days 1 in
        List.filter (fun o => (WorkOrder.expected_delivery_date o >=? start_of_day)
                              && (WorkOrder.expected_delivery_date o <? end_of_day)) query
    | None => query
    end in
  let query :=
    match WorkOrderFilter.delivery_window_start filters with
    | Some s => List.filter (fun o => WorkOrder.expected_delivery_date o >=? s) query
    | None => query
    end in
  let query :=
    match WorkOrderFilter.delivery_window_end filters with
    | Some e => List.filter (fun o => WorkOrder.expected_delivery_date o <=? e) query
    | None => query
    end in
  let query :=
    match WorkOrderFilter.status filters with
    | Some s => List.filter (fun o => bool_decide (WorkOrder.status o = s)) query
    | None => query
    end in
  (* [if filters.client_id:] -- [None] and [0] are both falsy *)
  let query :=
    match WorkOrderFilter.client_id filters with
    | Some cid =>
        if cid =? 0 then query
        else List.filter (fun o => WorkOrder.client_id o =? cid) query
    | None => query
    end in
  let query :=
    if py.truthy_bool (WorkOrderFilter.overdue_only filters)
    then List.filter (overdue_condition now) query
    else query in
  query.

Definition get_overdue_work_orders (now : Z) (st : Store.t) : list WorkOrder.t :=
  List.filter (overdue_condition now) (Store.work_orders st).

Definition get_orders_due_in_one_day (now : Z) (st : Store.t) : list WorkOrder.t :=
  let tomorrow := now + py.timedelta_days 1 in
  List.filter (fun o => (WorkOrder.expected_delivery_date o >=? now)
                        && (WorkOrder.expected_delivery_date o <=? tomorrow)
                        && not_delivered (WorkOrder.status o))
    (Store.work_orders st).

Definition get_active_work_orders (st : Store.t) : list WorkOrder.t :=
  List.filter (fun o => not_delivered (WorkOrder.status o)) (Store.work_orders st).

(** *** Dashboard *)

(** [SELECT sum(..)]: null over no rows. *)
Definition sql_sum (xs : list Q) : option Q :=
  match xs with
  | [] => None
  | x :: rest => Some (fold_left Qplus rest x)
  end.

(** [x or 0] on an optional number: null and zero are both falsy. *)
Definition or_0 (x : option Q) : Q :=
  match x with
  | Some v => if Qeq_bool v 0 then 0%Q else v
  | None => 0%Q
  end.

(** The two clock readings are those of [get_overdue_work_orders] and of
    [get_orders_due_in_one_day]. *)
Definition get_dashboard_stats (now1 now2 : Z) (st : Store.t) : DashboardSummary.t :=
  let total_orders := length (Store.work_orders st) in
  let active_orders :=
    length (List.filter (fun o => not_delivered (WorkOrder.status o)) (Store.work_orders st)) in
  let overdue_orders := length (get_overdue_work_orders now1 st) in
  let orders_due_today := length (get_orders_due_in_one_day now2 st) in
  let completed_orders :=
    length (List.filter (fun o => bool_decide (WorkOrder.status o ∈ delivered_states))
              (Store.work_orders st)) in
  let total_revenue := or_0 (sql_sum (map WorkOrder.advance_paid (Store.work_orders st))) in
  let pending_orders :=
    List.filter (fun o => negb (WorkOrder.due_cleared o)) (Store.work_orders st) in
  let pending_payments :=
    fold_left
      (fun pending_payments order =>
         let amount_due :=
           if py.Qgtb (WorkOrder.actual_amount order) 0
           then WorkOrder.actual_amount order
           else WorkOrder.total_estimate order in
         let remaining := py.max0 (amount_due - WorkOrder.advance_paid order) in
         (pending_payments + remaining)%Q)
      pending_orders 0%Q in
  DashboardSummary.mk total_orders active_orders overdue_orders orders_due_today
    completed_orders total_revenue pending_payments.


(** *** Listings *)

Definition get_clients (st : Store.t) (skip limit : Z) : list Client.t :=
  db.limit limit (db.offset skip (Store.clients st)).

Definition get_work_orders (st : Store.t) (skip limit : Z) : list WorkOrder.t :=
  db.limit limit (db.offset skip (Store.work_orders st)).

Definition get_work_orders_by_mobile (st : Store.t) (mobile_number : string)
    : list WorkOrder.t :=
  match get_client_by_mobile st mobile_number with
  | Some client => get_work_orders_by_client st (Client.id client)
  | None => []
  end.

Definition get_priority_work_orders (st : Store.t) (sort_order : string)
    : list WorkOrder.t :=
  let query := Store.work_orders st in
  if String.eqb (py.lower sort_order) "desc"
  then db.order_by WorkOrder.expected_delivery_date true query
  else db.order_by WorkOrder.expected_delivery_date false query.

(** *** Client summary *)

Definition get_client_summary (st : Store.t) (client_id : Z) : option ClientSummary.t :=
  match get_client st client_id with
  | None => None
  | Some client =>
      let work_orders := get_work_orders_by_client st client_id in
      let active_orders := List.filter WorkOrder.is_active work_orders in
      let completed_orders :=
        List.filter (fun wo => negb (WorkOrder.is_active wo)) work_orders in
      let total_amount_due :=
        fold_left (fun acc wo => (acc + WorkOrder.remaining_amount wo)%Q)
          (List.filter (fun wo => negb (WorkOrder.due_cleared wo)) work_orders) 0%Q in
      Some (ClientSummary.mk client work_orders (length work_orders)
              (length active_orders) (length completed_orders) total_amount_due)
  end.


End crud.

(** ** routers/clients.py *)

Module routers_clients.
Import models schemas.
Local Open Scope db_scope.

Definition create_client (now : Z) (client : ClientCreate.t) : db.M Client.t :=
  existing_client <~ db.query (fun st =>
                       crud.get_client_by_mobile st (ClientCreate.mobile_number client)) ;;
  match existing_client with
  | Some _ => db.raise (py.HTTPException 400)
  | None => crud.create_client now client
  end.

Definition update_client (client_id : Z) (client_update : ClientUpdate.t) : db.M Client.t :=
  _ <~
    match ClientUpdate.mobile_number client_update with
    | Set_ m =>
        (* [if client_update.mobile_number:] -- the empty string is falsy *)
        if String.eqb m "" then db.ret tt
        else
          existing_client <~ db.query (fun st => crud.get_client_by_mobile st m) ;;
          match existing_client with
          | Some c =>
              if negb (Client.id c =? client_id)
              then db.raise (py.HTTPException 400)
              else db.ret tt
          | None => db.ret tt
          end
    | _ => db.ret tt
    end ;;
  db_client <~ crud.update_client client_id client_update ;;
  match db_client with
  | None => db.raise (py.HTTPException 404)
  | Some c => db.ret c
  end.

Definition delete_client (client_id : Z) : db.M unit :=
  success <~ crud.delete_client client_id ;;
  if success : bool then db.ret tt else db.raise (py.HTTPException 404).


Definition read_client (client_id : Z) : db.M Client.t :=
  db_client <~ db.query (fun st => crud.get_client st client_id) ;;
  match db_client with
  | None => db.raise (py.HTTPException 404)
  | Some c => db.ret c
  end.

Definition get_client_summary (client_id : Z) : db.M ClientSummary.t :=
  summary <~ db.query (fun st => crud.get_client_summary st client_id) ;;
  match summary with
  | None => db.raise (py.HTTPException 404)
  | Some s => db.ret s
  end.

Definition get_client_work_orders (client_id : Z) : db.M (list WorkOrder.t) :=
  client <~ db.query (fun st => crud.get_client st client_id) ;;
  match client with
  | None => db.raise (py.HTTPException 404)
  | Some _ => db.query (fun st => crud.get_work_orders_by_client st client_id)
  end.

End routers_clients.

(** ** routers/work_orders.py *)

Module routers_work_orders.
Import models schemas.
Local Open Scope db_scope.

(** [try: return crud.create_work_order(..) except Exception: raise
    HTTPException(400)] *)
Definition create_work_order (now : Z) (work_order : WorkOrderCreate.t)
    : db.M (option WorkOrder.t) :=
  fun st =>
    match crud.create_work_order now work_order st with
    | (st', py.Ok r) => (st', py.Ok r)
    | (st', py.Raise _) => (st', py.Raise (py.HTTPException 400))
    end.

Definition update_work_order (order_id : Z) (work_order_update : WorkOrderUpdate.t)
    : db.M WorkOrder.t :=
  db_work_order <~ crud.update_work_order order_id work_order_update ;;
  match db_work_order with
  | None => db.raise (py.HTTPException 404)
  | Some o => db.ret o
  end.

Definition filter_work_orders (now : Z) (st : Store.t)
    (delivery_date delivery_window_start delivery_window_end : option Z)
    (overdue_only : bool) (status : option OrderStatus) (client_id : option Z)
    : list WorkOrder.t :=
  let filters :=
    WorkOrderFilter.mk delivery_date delivery_window_start delivery_window_end
      (Some overdue_only) status client_id in
  crud.get_filtered_work_orders now st filters.


Definition read_work_order (order_id : Z) : db.M WorkOrder.t :=
  db_work_order <~ db.query (fun st => crud.get_work_order st order_id) ;;
  match db_work_order with
  | None => db.raise (py.HTTPException 404)
  | Some o => db.ret o
  end.

Definition delete_work_order (order_id : Z) : db.M MessageResponse.t :=
  success <~ crud.delete_work_order order_id ;;
  if success : bool
  then db.ret (MessageResponse.mk
                 ("Work order " ++ py.str_int order_id ++ " deleted successfully") true)
  else db.raise (py.HTTPException 404).

Definition get_priority_work_orders (st : Store.t) (sort_order : string)
    : PriorityOrderResponse.t :=
  let work_orders := crud.get_priority_work_orders st sort_order in
  PriorityOrderResponse.mk work_orders sort_order (length work_orders).

End routers_work_orders.

(** ** SQLite text functions used by the search *)

Module sqlite.

(** Case folding of one byte: only [A]..[Z] change.  This is SQLite's
    [lower()]; Python's [str.lower] agrees with it on ASCII text. *)
Definition lower_ascii (c : ascii) : ascii :=
  let n := nat_of_ascii c in
  if ((65 <=? n) && (n <=? 90))%nat then ascii_of_nat (n + 32) else c.

Fixpoint lower (s : string) : string :=
  match s with
  | EmptyString => EmptyString
  | String c s' => String (lower_ascii c) (lower s')
  end.

(** A UTF-8 continuation byte, [(c & 0xC0) == 0x80]. *)
Definition is_cont (c : ascii) : bool :=
  let n := nat_of_ascii c in ((128 <=? n) && (n <? 192))%nat.

(** The first byte of a multi-byte character, [c >= 0xC0]. *)
Definition is_lead (c : ascii) : bool := (192 <=? nat_of_ascii c)%nat.

Fixpoint skip_cont (s : string) : string :=
  match s with
  | EmptyString => s
  | String c s' => if is_cont c then skip_cont s' else s
  end.

(** Reading one character off the subject string. *)
Definition skip_char (s : string) : option string :=
  match s with
  | EmptyString => None
  | String c s' => Some (if is_lead c then skip_cont s' else s')
  end.

(** [LIKE] compares characters without regard to ASCII case. *)
Definition eq_nocase (a b : ascii) : bool :=
  Ascii.eqb (lower_ascii a) (lower_ascii b).

(** The wildcard [%]: the rest of the pattern, [k], is tried at every
    character boundary of the subject, the end included.  [skipping] is set
    while the continuation bytes of the character just passed are dropped. *)
Fixpoint like_star (k : string -> bool) (skipping : bool) (s : string) : bool :=
  match s with
  | EmptyString => k EmptyString
  | String c s' =>
      if skipping && is_cont c then like_star k true s'
      else k s || like_star k (is_lead c) s'
  end.

(** [patternCompare] with the [LIKE] settings and no [ESCAPE]: [%] matches
    any run of characters, [_] exactly one, anything else itself up to ASCII
    case. *)
Fixpoint patternCompare (pattern : string) : string -> bool :=
  match pattern with
  | EmptyString =>
      fun s => match s with EmptyString => true | String _ _ => false end
  | String c p' =>
      if Ascii.eqb c "%" then like_star (patternCompare p') false
      else if Ascii.eqb c "_" then
        fun s =>
          match skip_char s with Some s' => patternCompare p' s' | None => false end
      else
        fun s =>
          match s with
          | String d s' => eq_nocase c d && patternCompare p' s'
          | EmptyString => false
          end
  end.

(** A text value read as a zero-terminated string: what follows the first
    zero byte is not seen. *)
Fixpoint c_string (s : string) : string :=
  match s with
  | EmptyString => EmptyString
  | String c s' => if Ascii.eqb c zero then EmptyString else String c (c_string s')
  end.

(** [subject LIKE pattern]: [likeFunc] hands both texts to [patternCompare]
    as zero-terminated strings. *)
Definition like (pattern subject : string) : bool :=
  patternCompare (c_string pattern) (c_string subject).

(** [lower(column) LIKE pattern] on a nullable column: null is not true.
    [lower()] itself works on the whole value, zero bytes included. *)
Definition lower_like (pattern : string) (column : option string) : bool :=
  match column with
  | Some s => like pattern (lower s)
  | None => false
  end.

(** [SQLITE_MAX_LIKE_PATTERN_LENGTH], compared with the length of the whole
    pattern value in bytes. *)
Definition max_like_pattern_length : Z := 50000.

End sqlite.

(** ** routers/search.py *)

Module routers_search.
Import models schemas.

Record SearchResult : Type := mk_result {
  work_order_id : Z;
  client_id : Z;
  client_name : string;
  client_mobile : string;
  description : option string;
  notes : option string;
  status : string;
  expected_delivery_date : Z;
  order_date : Z;
  advance_paid : Q;
  total_estimate : Q;
  actual_amount : Q;
  due_cleared : bool;
  remaining_amount : Q;
  is_overdue : bool;
  is_active : bool
}.

Record Response : Type := mk_response {
  query : string;
  total_results : nat;
  results : list SearchResult
}.

(** [.join(models.Client)]: each order with the client row it references. *)
Definition join_client (st : Store.t) : list (WorkOrder.t * Client.t) :=
  flat_map (fun o =>
              match crud.get_client st (WorkOrder.client_id o) with
              | Some c => [(o, c)]
              | None => []
              end)
    (Store.work_orders st).

(** The [or_(..)] over the four searched columns. *)
Definition search_conditions (search_term : string) (row : WorkOrder.t * Client.t) : bool :=
  sqlite.lower_like search_term (Some (Client.name row.2))
  || sqlite.lower_like search_term (Some (Client.mobile_number row.2))
  || sqlite.lower_like search_term (WorkOrder.description row.1)
  || sqlite.lower_like search_term (WorkOrder.notes row.1).

(** The name of an enumeration member, which is what the [Enum] column
    stores and what a plain string bound to it is compared with. *)
Definition member_name (s : OrderStatus) : string :=
  match s with
  | ORDER_PLACED => "ORDER_PLACED"
  | STARTED => "STARTED"
  | FINISHED => "FINISHED"
  | DELIVERED_FULLY_PAID => "DELIVERED_FULLY_PAID"
  | DELIVERED_PAYMENT_PENDING => "DELIVERED_PAYMENT_PENDING"
  end.

(** [.order_by(created_at.desc())], rows with equal keys in storage order. *)
Fixpoint insert_desc (x : WorkOrder.t * Client.t) (l : list (WorkOrder.t * Client.t))
    : list (WorkOrder.t * Client.t) :=
  match l with
  | [] => [x]
  | y :: l' =>
      if WorkOrder.created_at y.1 <=? WorkOrder.created_at x.1
      then x :: l
      else y :: insert_desc x l'
  end.

Definition order_by_created_at_desc (l : list (WorkOrder.t * Client.t))
    : list (WorkOrder.t * Client.t) :=
  fold_right insert_desc [] l.

(** [.limit(n)]: a negative limit means no limit. *)
Definition sql_limit {A : Type} (n : Z) (l : list A) : list A :=
  if n <? 0 then l else firstn (Z.to_nat n) l.

(** One entry of [formatted_results].  Building [display_summary] slices
    [work_order.description] and takes its length, which raises on a null
    description; the summary text itself is not kept. *)
Definition format_result (now : Z) (row : WorkOrder.t * Client.t) : py.result SearchResult :=
  let work_order := row.1 in
  let client := row.2 in
  match WorkOrder.description work_order with
  | None => py.Raise py.TypeError
  | Some _ =>
      py.Ok (mk_result
               (WorkOrder.id work_order)
               (WorkOrder.client_id work_order)
               (Client.name client)
               (Client.mobile_number client)
               (WorkOrder.description work_order)
               (WorkOrder.notes work_order)
               (value (WorkOrder.status work_order))
               (WorkOrder.expected_delivery_date work_order)
               (WorkOrder.order_date work_order)
               (WorkOrder.advance_paid work_order)
               (WorkOrder.total_estimate work_order)
               (WorkOrder.actual_amount work_order)
               (WorkOrder.due_cleared work_order)
               (WorkOrder.remaining_amount work_order)
               (WorkOrder.is_overdue now work_order)
               (WorkOrder.is_active work_order))
  end.

Fixpoint format_results (now : Z) (rows : list (WorkOrder.t * Client.t))
    : py.result (list SearchResult) :=
  match rows with
  | [] => py.Ok []
  | row :: rest =>
      match format_result now row with
      | py.Raise e => py.Raise e
      | py.Ok r =>
          match format_results now rest with
          | py.Raise e => py.Raise e
          | py.Ok rs => py.Ok (r :: rs)
          end
      end
  end.

(** [if status: query_builder.filter(models.WorkOrder.status == status)]:
    [None] and the empty string are both falsy. *)
Definition status_filter (status : option string) (rows : list (WorkOrder.t * Client.t))
    : list (WorkOrder.t * Client.t) :=
  match status with
  | Some s =>
      if String.eqb s "" then rows
      else List.filter (fun row => String.eqb (member_name (WorkOrder.status row.1)) s) rows
  | None => rows
  end.

(** The rows on which the database evaluates the [LIKE] terms.  With
    [LIMIT 0] it reads no row; otherwise it scans the orders, tests the
    status, which needs the order row alone, and evaluates [LIKE] on every
    order that passes and has its client. *)
Definition like_evaluated_on (st : Store.t) (status : option string) (limit : Z)
    : list (WorkOrder.t * Client.t) :=
  if limit =? 0 then [] else status_filter status (join_client st).

(** The rows selected by the query, before formatting.  The statement fails
    as soon as [LIKE] is evaluated with a pattern that is too long. *)
Definition search_rows (st : Store.t) (query : string) (status : option string) (limit : Z)
    : py.result (list (WorkOrder.t * Client.t)) :=
  let search_term := "%" ++ sqlite.lower query ++ "%" in
  let query_builder := join_client st in
  let query_builder := List.filter (search_conditions search_term) query_builder in
  let query_builder := status_filter status query_builder in
  let query_builder := order_by_created_at_desc query_builder in
  match like_evaluated_on st status limit with
  | _ :: _ =>
      if sqlite.max_like_pattern_length <? len search_term
      then py.Raise py.OperationalError
      else py.Ok (sql_limit limit query_builder)
  | [] => py.Ok []
  end.

Definition search_work_orders (now : Z) (st : Store.t) (query : string)
    (status : option string) (limit : Z) : py.result Response :=
  match search_rows st query status limit with
  | py.Raise e => py.Raise e
  | py.Ok rows =>
      match format_results now rows with
      | py.Raise e => py.Raise e
      | py.Ok formatted_results =>
          py.Ok (mk_response query (length formatted_results) formatted_results)
      end
  end.


(** *** [search_clients] *)






End routers_search.

(** ** routers/admin.py *)

Module routers_admin.
Import models schemas.
Local Open Scope db_scope.

(** [try: .. except Exception: db.rollback(); raise HTTPException(500)] *)
Definition try_or_500 {A : Type} (body : db.M A) : db.M A :=
  fun st =>
    match body st with
    | (st', py.Ok a) => (st', py.Ok a)
    | (_, py.Raise _) => (st, py.Raise (py.HTTPException 500))
    end.

Definition reset_database : db.M MessageResponse.t :=
  try_or_500
    (work_orders_deleted <~ db.query (fun st => length (Store.work_orders st)) ;;
     _ <~ db.delete_all_work_order_rows ;;
     clients_deleted <~ db.query (fun st => length (Store.clients st)) ;;
     _ <~ db.delete_all_client_rows ;;
     db.ret (MessageResponse.mk
               ("Database reset successful. Deleted " ++ py.str_nat work_orders_deleted
                ++ " work orders and " ++ py.str_nat clients_deleted ++ " clients.")
               true)).

Definition delete_all_work_orders : db.M MessageResponse.t :=
  try_or_500
    (count <~ db.query (fun st => length (Store.work_orders st)) ;;
     _ <~ db.delete_all_work_order_rows ;;
     db.ret (MessageResponse.mk
               ("Successfully deleted " ++ py.str_nat count ++ " work orders.") true)).

Definition delete_all_clients : db.M MessageResponse.t :=
  try_or_500
    (work_orders_count <~ db.query (fun st => length (Store.work_orders st)) ;;
     clients_count <~ db.query (fun st => length (Store.clients st)) ;;
     _ <~ db.delete_all_work_order_rows ;;
     _ <~ db.delete_all_client_rows ;;
     db.ret (MessageResponse.mk
               ("Successfully deleted " ++ py.str_nat clients_count ++ " clients and "
                ++ py.str_nat work_orders_count ++ " associated work orders.")
               true)).

Record database_stats : Type := mk_stats {
  total_clients : nat;
  total_work_orders : nat;
  status_breakdown : gmap string nat;
  database_file : string
}.

Definition get_database_stats (st : Store.t) : database_stats :=
  let total_clients := length (Store.clients st) in
  let total_work_orders := length (Store.work_orders st) in
  let status_breakdown :=
    fold_left
      (fun (status_breakdown : gmap string nat) status =>
         let count :=
           length (List.filter (fun o => bool_decide (WorkOrder.status o = status))
                     (Store.work_orders st)) in
         <[value status := count]> status_breakdown)
      all_statuses ∅ in
  mk_stats total_clients total_work_orders status_breakdown "boutique_orders.db".

End routers_admin.

(** ** routers/dashboard.py *)

Module routers_dashboard.
Import models schemas.

(** The two query parameters are accepted and not used. *)
Definition get_dashboard_summary (now1 now2 : Z) (st : Store.t)
    (start_date end_date : option string) : DashboardSummary.t :=
  crud.get_dashboard_stats now1 now2 st.

Record alert : Type := mk_alert {
  alert_type : string;
  alert_title : string;
  alert_message : string;
  alert_count : nat;
  alert_action : string
}.

Record alerts_response : Type := mk_alerts {
  alerts : list alert;
  total_alerts : nat;
  critical_count : nat;
  warning_count : nat
}.

(** Truthiness of a list. *)
Definition nonempty {A : Type} (l : list A) : bool :=
  match l with
  | [] => false
  | _ :: _ => true
  end.

Definition get_dashboard_alerts (now1 now2 : Z) (st : Store.t) : alerts_response :=
  let overdue_orders := crud.get_overdue_work_orders now1 st in
  let due_today_orders := crud.get_orders_due_in_one_day now2 st in
  let alerts : list alert := [] in
  let alerts :=
    if nonempty overdue_orders
    then (alerts ++ [ mk_alert "critical"
                       (py.str_nat (length overdue_orders) ++ " Overdue Orders")
                       ("You have " ++ py.str_nat (length overdue_orders)
                        ++ " orders that are past their delivery date")
                       (length overdue_orders)
                       "Review overdue orders immediately" ])%list
    else alerts in
  let alerts :=
    if nonempty due_today_orders
    then (alerts ++ [ mk_alert "warning"
                       (py.str_nat (length due_today_orders) ++ " Orders Due Today")
                       ("You have " ++ py.str_nat (length due_today_orders)
                        ++ " orders due within 24 hours")
                       (length due_today_orders)
                       "Prepare for delivery" ])%list
    else alerts in
  let alerts :=
    if negb (nonempty overdue_orders) && negb (nonempty due_today_orders)
    then (alerts ++ [ mk_alert "info" "All Orders On Track"
                       "No overdue orders or urgent deliveries" 0
                       "Continue normal operations" ])%list
    else alerts in
  mk_alerts alerts
    (length (List.filter
               (fun a => bool_decide (alert_type a ∈ ["critical"; "warning"])) alerts))
    (length (List.filter (fun a => String.eqb (alert_type a) "critical") alerts))
    (length (List.filter (fun a => String.eqb (alert_type a) "warning") alerts)).

End routers_dashboard.

(** ** Vocabulary of the specification *)

Module spec.
Import models schemas.

(** The successor statuses, as the list of the entries' [value] fields. *)
Definition next_values (current : string) : list string :=
  map routers_status.entry_value (routers_status.get_next_status_options current).

(** The sum of a list of amounts. *)
Definition Qsum (xs : list Q) : Q := fold_right Qplus 0%Q xs.

(** The number of rows that satisfy a condition. *)
Definition count {A : Type} (p : A -> bool) (l : list A) : nat :=
  length (List.filter p l).

Definition delivered (o : WorkOrder.t) : bool :=
  bool_decide (WorkOrder.status o = DELIVERED_FULLY_PAID
               \/ WorkOrder.status o = DELIVERED_PAYMENT_PENDING).

(** An update that supplies no explicit null for a [nullable=False] column. *)
Definition not_null {A : Type} (f : field A) : bool :=
  match f with
  | Null => false
  | _ => true
  end.

Definition respects_not_null (u : WorkOrderUpdate.t) : bool :=
  not_null (WorkOrderUpdate.expected_delivery_date u)
  && not_null (WorkOrderUpdate.status u)
  && not_null (WorkOrderUpdate.advance_paid u)
  && not_null (WorkOrderUpdate.total_estimate u)
  && not_null (WorkOrderUpdate.actual_amount u)
  && not_null (WorkOrderUpdate.due_cleared u).

(** What the specification asks of the filter: every supplied criterion
    holds of the order. *)
Definition satisfies (now : Z) (f : WorkOrderFilter.t) (o : WorkOrder.t) : Prop :=
  (forall d, WorkOrderFilter.delivery_date f = Some d ->
     crud.start_of_day d <= WorkOrder.expected_delivery_date o
       < crud.start_of_day d + py.timedelta_days 1)
  /\ (forall s, WorkOrderFilter.delivery_window_start f = Some s ->
        s <= WorkOrder.expected_delivery_date o)
  /\ (forall e, WorkOrderFilter.delivery_window_end f = Some e ->
        WorkOrder.expected_delivery_date o <= e)
  /\ (forall s, WorkOrderFilter.status f = Some s -> WorkOrder.status o = s)
  /\ (forall cid, WorkOrderFilter.client_id f = Some cid -> WorkOrder.client_id o = cid)
  /\ (WorkOrderFilter.overdue_only f = Some true ->
        WorkOrder.expected_delivery_date o < now
        /\ WorkOrder.status o <> DELIVERED_FULLY_PAID
        /\ WorkOrder.status o <> DELIVERED_PAYMENT_PENDING).

(** The client a work-order request with name [n] and mobile [m] ends up
    with: the stored client with that mobile number, or else a new one. *)
Definition resolved_client (now : Z) (w : WorkOrderCreate.t) (st : Store.t)
    (n m : string) : Client.t :=
  match crud.get_client_by_mobile st m with
  | Some c => c
  | None =>
      Client.mk (db.next_id (map Client.id (Store.clients st))) n m
        (WorkOrderCreate.client_email w) (WorkOrderCreate.client_address w) now
  end.

(** The client table after that. *)
Definition resolved_clients (now : Z) (w : WorkOrderCreate.t) (st : Store.t)
    (n m : string) : list Client.t :=
  match crud.get_client_by_mobile st m with
  | Some _ => Store.clients st
  | None => Store.clients st ++ [resolved_client now w st n m]
  end.

(** The row the request inserts for client [cid]. *)
Definition inserted_order (now : Z) (w : WorkOrderCreate.t) (st : Store.t) (cid : Z)
    : WorkOrder.t :=
  WorkOrder.mk (db.next_id (map WorkOrder.id (Store.work_orders st))) cid now
    (WorkOrderCreate.expected_delivery_date w) None
    (WorkOrderCreate.description w) (WorkOrderCreate.notes w)
    (WorkOrderCreate.status w) (WorkOrderCreate.advance_paid w)
    (WorkOrderCreate.total_estimate w) (WorkOrderCreate.actual_amount w)
    (WorkOrderCreate.due_cleared w) now.

(** [contains t s]: the byte string [t] occurs in [s]. *)
Fixpoint prefix_of (t s : string) : bool :=
  match t, s with
  | EmptyString, _ => true
  | String a t', String b s' => Ascii.eqb a b && prefix_of t' s'
  | String _ _, EmptyString => false
  end.

Fixpoint contains (t s : string) : bool :=
  prefix_of t s
  || match s with
     | EmptyString => false
     | String _ s' => contains t s'
     end.

(** [s] contains [t] as a substring, case-insensitively. *)
Definition ci_contains (t s : string) : bool :=
  contains (sqlite.lower t) (sqlite.lower s).

Definition opt_ci_contains (t : string) (s : option string) : bool :=
  match s with
  | Some s => ci_contains t s
  | None => false
  end.

(** A search term made of ASCII characters other than the zero byte and
    the two wildcards. *)
Fixpoint plain_term (t : string) : bool :=
  match t with
  | EmptyString => true
  | String c t' =>
      (nat_of_ascii c <? 128)%nat
      && negb (Ascii.eqb c zero)
      && negb (Ascii.eqb c "%") && negb (Ascii.eqb c "_")
      && plain_term t'
  end.

(** A text without a zero byte. *)
Fixpoint nul_free (s : string) : bool :=
  match s with
  | EmptyString => true
  | String c s' => negb (Ascii.eqb c zero) && nul_free s'
  end.

Definition opt_nul_free (s : option string) : bool :=
  match s with
  | Some s => nul_free s
  | None => true
  end.

(** The error kinds of the specification, as the request layer shows them. *)
Definition DuplicateKey : py.exn := py.HTTPException 400.
Definition NotFound : py.exn := py.HTTPException 404.

(** The number of moves the workflow still allows from a status. *)
Definition moves_left (s : string) : nat :=
  if String.eqb s "Order Placed" then 4
  else if String.eqb s "Started" then 3
  else if String.eqb s "Finished" then 2
  else if String.eqb s "Delivered – Payment Pending" then 1
  else 0.

(** The value a supplied field gives a column, or the old one. *)
Definition supplied {A : Type} (f : field A) (old : A) : A :=
  match f with
  | Set_ a => a
  | _ => old
  end.

(** The row an update leaves for order [o]: supplied columns take the new
    value, a null clears a nullable column, everything else is kept. *)
Definition updated_order (o : WorkOrder.t) (u : WorkOrderUpdate.t) : WorkOrder.t :=
  WorkOrder.mk (WorkOrder.id o) (WorkOrder.client_id o) (WorkOrder.order_date o)
    (supplied (WorkOrderUpdate.expected_delivery_date u) (WorkOrder.expected_delivery_date o))
    (crud.nullable (WorkOrderUpdate.actual_delivery_date u) (WorkOrder.actual_delivery_date o))
    (crud.nullable (WorkOrderUpdate.description u) (WorkOrder.description o))
    (crud.nullable (WorkOrderUpdate.notes u) (WorkOrder.notes o))
    (supplied (WorkOrderUpdate.status u) (WorkOrder.status o))
    (supplied (WorkOrderUpdate.advance_paid u) (WorkOrder.advance_paid o))
    (supplied (WorkOrderUpdate.total_estimate u) (WorkOrder.total_estimate o))
    (supplied (WorkOrderUpdate.actual_amount u) (WorkOrder.actual_amount o))
    (supplied (WorkOrderUpdate.due_cleared u) (WorkOrder.due_cleared o))
    (WorkOrder.created_at o).

(** An update that supplies nothing. *)
Definition empty_update : WorkOrderUpdate.t :=
  WorkOrderUpdate.mk Unset Unset Unset Unset Unset Unset Unset Unset Unset.

(** *** The integrity of the store

    What the two tables' constraints amount to: primary keys and mobile
    numbers are distinct, and every order refers to a stored client. *)
Record wf (st : Store.t) : Prop := mk_wf {
  client_ids_distinct : NoDup (map Client.id (Store.clients st));
  mobiles_distinct : NoDup (map Client.mobile_number (Store.clients st));
  order_ids_distinct : NoDup (map WorkOrder.id (Store.work_orders st));
  orders_have_clients :
    forall o, In o (Store.work_orders st) ->
              exists c, In c (Store.clients st) /\ Client.id c = WorkOrder.client_id o
}.

(** [hoare P m Q E]: run from a store that satisfies [P], the operation [m]
    either returns a value [a] and leaves a store with [Q a], or raises and
    leaves a store with [E]. *)
Definition hoare {A : Type} (P : Store.t -> Prop) (m : db.M A)
    (Q : A -> Store.t -> Prop) (E : Store.t -> Prop) : Prop :=
  forall st, P st ->
    match m st with
    | (st', py.Ok a) => Q a st'
    | (st', py.Raise _) => E st'
    end.

(** [m] keeps the store's integrity, whether it returns or raises. *)
Definition keeps_wf {A : Type} (m : db.M A) : Prop :=
  hoare wf m (fun _ => wf) wf.

(** The client a work order is about to be created for is in the store. *)
Definition client_known (cid : Z) (st : Store.t) : Prop :=
  wf st /\ exists c, In c (Store.clients st) /\ Client.id c = cid.

(** The row a successful [create_client] adds. *)
Definition created_client (now : Z) (client : ClientCreate.t) (st : Store.t) : Client.t :=
  Client.mk (db.next_id (map Client.id (Store.clients st)))
    (ClientCreate.name client) (ClientCreate.mobile_number client)
    (ClientCreate.email client) (ClientCreate.address client) now.

(** The row an update leaves for client [c]. *)
Definition updated_client (c : Client.t) (u : ClientUpdate.t) : Client.t :=
  Client.mk (Client.id c)
    (supplied (ClientUpdate.name u) (Client.name c))
    (supplied (ClientUpdate.mobile_number u) (Client.mobile_number c))
    (crud.nullable (ClientUpdate.email u) (Client.email c))
    (crud.nullable (ClientUpdate.address u) (Client.address c))
    (Client.created_at c).

(** *** Searching

    The order [o] of client [c] matches the term in one of the four
    searched columns. *)
Definition search_match (q : string) (o : WorkOrder.t) (c : Client.t) : bool :=
  ci_contains q (Client.name c)
  || ci_contains q (Client.mobile_number c)
  || opt_ci_contains q (WorkOrder.description o)
  || opt_ci_contains q (WorkOrder.notes o).


(** None of the searched columns holds a zero byte. *)
Definition searched_text_nul_free (o : WorkOrder.t) (c : Client.t) : bool :=
  nul_free (Client.name c)
  && nul_free (Client.mobile_number c)
  && opt_nul_free (WorkOrder.description o)
  && opt_nul_free (WorkOrder.notes o).


(** The optional status filter of the search lets [o] through: it is
    absent or empty, or it is the member name of the order's status. *)
Definition status_filter_admits (status : option string) (o : WorkOrder.t) : bool :=
  match status with
  | None => true
  | Some s =>
      String.eqb s "" || String.eqb (routers_search.member_name (WorkOrder.status o)) s
  end.

(** A limit that cannot cut a list of [n] rows short. *)
Definition limit_covers (limit : Z) (n : nat) : Prop := limit < 0 \/ Z.of_nat n <= limit.

(** *** Ordering

    [order_before key desc x y]: the test by which [order_by key desc] puts
    the row [x] in front of the row [y], and the order that results. *)
Definition order_before {A : Type} (key : A -> Z) (desc : bool) (x y : A) : bool :=
  if desc then key y <=? key x else key x <=? key y.

Definition goes_before {A : Type} (key : A -> Z) (desc : bool) (x y : A) : Prop :=
  if desc then key y <= key x else key x <= key y.

End spec.

(** ** Sample data *)

Module samples.
Import models schemas.

(** An order with [advance_paid = 500] and [actual_amount = 750]; the
    estimate is left open. *)
Definition order_500_750 (total_estimate : Q) : WorkOrder.t :=
  WorkOrder.mk 1 1 0 0 None None None ORDER_PLACED 500 total_estimate 750 false 0.

Definition client_priya : Client.t :=
  Client.mk 1 "Priya Sharma" "9876543210" None None 0.

Definition client_saree_house : Client.t :=
  Client.mk 2 "Saree House" "9123456780" None (Some "12 Market Road") 0.

(** Delivered and paid, expected long before any clock reading used below. *)
Definition order_delivered : WorkOrder.t :=
  WorkOrder.mk 1 1 0 1000 (Some 900) (Some "Silk saree fall and pico") None
    DELIVERED_FULLY_PAID 1200 1200 1200 true 10.

(** In progress, for the client whose name contains the word saree. *)
Definition order_blouse : WorkOrder.t :=
  WorkOrder.mk 2 2 0 5000 None (Some "Blouse stitching") (Some "urgent")
    STARTED 500 1200 0 false 20.

Definition store : Store.t :=
  Store.mk [client_priya; client_saree_house] [order_delivered; order_blouse].

(** Two requests that reuse the mobile number of [client_priya]. *)
Definition new_client_same_mobile : ClientCreate.t :=
  ClientCreate.mk "Kavya Nair" "9876543210" None None.

Definition change_mobile_to_priyas : ClientUpdate.t :=
  ClientUpdate.mk Unset (Set_ "9876543210") Unset Unset.

(** An order for a client id that is not in the sample store, with the
    details of a customer the store does not know either. *)
Definition order_for_unknown_client : WorkOrderCreate.t :=
  WorkOrderCreate.mk 9000 (Some "Lehenga alteration") None ORDER_PLACED 200 900 0 false
    (Some 99) (Some "Meera Iyer") (Some "9000000001") None None.

(** The same order with the client details left out. *)
Definition order_for_unknown_client_bare : WorkOrderCreate.t :=
  WorkOrderCreate.mk 9000 (Some "Lehenga alteration") None ORDER_PLACED 200 900 0 false
    (Some 99) None None None None.

(** A filter that supplies the client id 0 and nothing else. *)
Definition filter_client_0 : WorkOrderFilter.t :=
  WorkOrderFilter.mk None None None (Some false) None (Some 0).

(** A request that moves an order back to the first state and nothing else. *)
Definition update_to_order_placed : WorkOrderUpdate.t :=
  WorkOrderUpdate.mk Unset Unset Unset Unset (Set_ ORDER_PLACED) Unset Unset Unset Unset.

(** A request that sets [status] to null. *)
Definition update_status_null : WorkOrderUpdate.t :=
  WorkOrderUpdate.mk Unset Unset Unset Unset Null Unset Unset Unset Unset.

(** An order for client 1 of the sample store; the client details in the
    request name somebody else. *)
Definition order_for_client_1 : WorkOrderCreate.t :=
  WorkOrderCreate.mk 9000 (Some "Kurta stitching") None FINISHED 100 400 0 false
    (Some 1) (Some "Someone Else") (Some "9123456780") None None.

(** An order with no client id, for the mobile number of [client_priya]. *)
Definition order_by_mobile_only : WorkOrderCreate.t :=
  WorkOrderCreate.mk 9000 (Some "Dupatta dyeing") None ORDER_PLACED 0 150 0 false
    None (Some "Priya S") (Some "9876543210") None None.

(** The sample store with a third client, who has no orders. *)
Definition client_meera : Client.t :=
  Client.mk 3 "Meera Iyer" "9000000001" None None 5.

Definition store_with_meera : Store.t :=
  Store.mk [client_priya; client_saree_house; client_meera]
    [order_delivered; order_blouse].

(** A new customer, and a change of name and address for client 2. *)
Definition new_client_meera : ClientCreate.t :=
  ClientCreate.mk "Meera Iyer" "9000000001" None None.

Definition rename_client : ClientUpdate.t :=
  ClientUpdate.mk (Set_ "Saree Palace") Unset Unset Null.

(** Orders of client 2 that are in progress and expected on the day of
    instant 5000. *)
Definition filter_client_2_started : WorkOrderFilter.t :=
  WorkOrderFilter.mk (Some 5000) None None (Some false) (Some STARTED) (Some 2).

(** An order of client 1 that was taken without a description, and the
    sample store with it. *)
Definition order_undescribed : WorkOrder.t :=
  WorkOrder.mk 3 1 0 7000 None None (Some "call before delivery")
    ORDER_PLACED 0 300 0 false 30.

Definition store_with_undescribed : Store.t :=
  Store.mk [client_priya; client_saree_house]
    [order_delivered; order_blouse; order_undescribed].

(** A search term with a zero byte in it: "a", the zero byte, "z". *)
Definition term_with_zero_byte : string :=
  String "a" (String zero (String "z" EmptyString)).

(** A text with a zero byte in it: "a", the zero byte, "saree hem". *)
Definition text_with_zero_byte : string :=
  String "a" (String zero "saree hem").

End samples.

(** * Theorems *)

Import models schemas.
Import spec samples.

(** ** The session monad *)

Lemma bind_ret_l (A B : Type) (a : A) (k : A -> db.M B) (st : Store.t) :
  db.bind (db.ret a) k st = k a st.
Proof. reflexivity. Qed.

Lemma bind_ret_r (A : Type) (m : db.M A) (st : Store.t) :
  db.bind m db.ret st = m st.
Proof. unfold db.bind, db.ret. destruct (m st) as [st' [a | e]]; reflexivity. Qed.

Lemma bind_assoc (A B C : Type) (m : db.M A) (k : A -> db.M B) (h : B -> db.M C)
    (st : Store.t) :
  db.bind (db.bind m k) h st = db.bind m (fun a => db.bind (k a) h) st.
Proof. unfold db.bind. destruct (m st) as [st' [a | e]]; reflexivity. Qed.

(** An exception stops the operation and keeps the store it was raised in. *)
Lemma bind_raise (A B : Type) (e : py.exn) (k : A -> db.M B) (st : Store.t) :
  db.bind (db.raise e) k st = (st, py.Raise e).
Proof. reflexivity. Qed.

(** A query does not change the store. *)
Lemma bind_query (A B : Type) (q : Store.t -> A) (k : A -> db.M B) (st : Store.t) :
  db.bind (db.query q) k st = k (q st) st.
Proof. reflexivity. Qed.

(** ** Billing *)

Lemma max0_nonneg (x : Q) : (0 <= py.max0 x)%Q.
Proof.
  unfold py.max0, py.Qgtb.
  destruct (Qle_bool x 0) eqn:E; simpl.
  - apply Qle_refl.
  - apply Qlt_le_weak, Qnot_le_lt. intros H.
    apply Qle_bool_iff in H. congruence.
Qed.

Lemma max0_Qmax (x : Q) : (py.max0 x == Qmax 0 x)%Q.
Proof.
  unfold py.max0, py.Qgtb.
  destruct (Qle_bool x 0) eqn:E; simpl.
  - apply Qle_bool_iff in E. symmetry. apply Q.max_l. exact E.
  - symmetry. apply Q.max_r. apply Qlt_le_weak, Qnot_le_lt. intros H.
    apply Qle_bool_iff in H. congruence.
Qed.

Lemma Qgtb_spec (x y : Q) : py.Qgtb x y = true <-> (y < x)%Q.
Proof.
  unfold py.Qgtb. rewrite negb_true_iff. split.
  - intros E. apply Qnot_le_lt. intros H. apply Qle_bool_iff in H. congruence.
  - intros H. destruct (Qle_bool x y) eqn:E; [|reflexivity].
    apply Qle_bool_iff in E. exfalso. eapply Qlt_not_le; eauto.
Qed.

(** C1: for every work order, [remaining_amount] is
    [max(0, actual_amount - advance_paid)] when [actual_amount > 0] and
    [max(0, total_estimate - advance_paid)] otherwise; it is never negative;
    and with [advance_paid = 500], [actual_amount = 750] it is 250 whatever
    the estimate. *)
Theorem C1_remaining_amount :
  (forall o : WorkOrder.t,
     (WorkOrder.remaining_amount o ==
        if Qlt_le_dec 0 (WorkOrder.actual_amount o)
        then Qmax 0 (WorkOrder.actual_amount o - WorkOrder.advance_paid o)
        else Qmax 0 (WorkOrder.total_estimate o - WorkOrder.advance_paid o))%Q
     /\ (0 <= WorkOrder.remaining_amount o)%Q)
  /\ (forall o : WorkOrder.t,
        WorkOrder.advance_paid o = 500%Q ->
        WorkOrder.actual_amount o = 750%Q ->
        (WorkOrder.remaining_amount o == 250)%Q).
Proof.
  split.
  - intros o. unfold WorkOrder.remaining_amount. split.
    + destruct (Qlt_le_dec 0 (WorkOrder.actual_amount o)) as [Hlt | Hle].
      * apply Qgtb_spec in Hlt. rewrite Hlt. apply max0_Qmax.
      * destruct (py.Qgtb (WorkOrder.actual_amount o) 0) eqn:E.
        -- apply Qgtb_spec in E. exfalso. eapply Qlt_not_le; eauto.
        -- apply max0_Qmax.
    + destruct (py.Qgtb (WorkOrder.actual_amount o) 0); apply max0_nonneg.
  - intros o Hadv Hact. unfold WorkOrder.remaining_amount.
    rewrite Hadv, Hact. reflexivity.
Qed.

Lemma C1_remaining_amount_witness :
  (WorkOrder.remaining_amount (order_500_750 1200) == 250)%Q.
Proof.
  apply (proj2 C1_remaining_amount (order_500_750 1200)); reflexivity.
Defined.

(** ** Status workflow *)

Lemma dict_get_insert_ne {V : Type} (m : gmap string V) (k k' : string) (v dflt : V) :
  k ≠ k' -> py.dict_get (<[k := v]> m) k' dflt = py.dict_get m k' dflt.
Proof.
  intros Hne. unfold py.dict_get. rewrite lookup_insert_ne by exact Hne. reflexivity.
Qed.

Lemma dict_get_empty {V : Type} (k : string) (dflt : V) :
  py.dict_get (∅ : gmap string V) k dflt = dflt.
Proof. unfold py.dict_get. rewrite lookup_empty. reflexivity. Qed.

(** C2: [get_next_status_options] is a lookup in a fixed table: one
    successor for Order Placed and Started, the two delivered states for
    Finished, Fully Paid for Payment Pending, and the empty list for the
    terminal state and for every string that is not one of the five status
    values. *)
Theorem C2_next_status_options :
  next_values "Order Placed" = ["Started"]
  /\ next_values "Started" = ["Finished"]
  /\ next_values "Finished" = ["Delivered - Fully Paid"; "Delivered – Payment Pending"]
  /\ next_values "Delivered – Payment Pending" = ["Delivered - Fully Paid"]
  /\ routers_status.get_next_status_options "Delivered - Fully Paid" = []
  /\ (forall s : string,
        s ∉ map value all_statuses -> routers_status.get_next_status_options s = []).
Proof.
  repeat split; try (vm_compute; reflexivity).
  intros s Hs.
  assert (Hne : forall k, k ∈ map value all_statuses -> k ≠ s).
  { intros k Hk ->. exact (Hs Hk). }
  unfold routers_status.get_next_status_options, routers_status.workflow_transitions,
    py.dict. cbn [fold_left fst snd].
  repeat (rewrite dict_get_insert_ne; [| apply Hne; cbn; set_solver]).
  apply dict_get_empty.
Qed.

Lemma C2_next_status_options_witness :
  routers_status.get_next_status_options "Cancelled" = [].
Proof.
  apply (proj2 (proj2 (proj2 (proj2 (proj2 C2_next_status_options))))).
  vm_compute. intros H. repeat (apply elem_of_cons in H as [H | H]; [discriminate H |]).
  inversion H.
Defined.

(** ** Derived attributes of delivered orders *)

Lemma not_delivered_false (s : OrderStatus) :
  s ∈ delivered_states -> not_delivered s = false.
Proof.
  intros H. unfold not_delivered. rewrite bool_decide_eq_true_2 by exact H. reflexivity.
Qed.

Lemma not_delivered_true (s : OrderStatus) :
  not_delivered s = true <-> s <> DELIVERED_FULLY_PAID /\ s <> DELIVERED_PAYMENT_PENDING.
Proof.
  unfold not_delivered, delivered_states. destruct s; vm_compute; split;
    try discriminate; try (intros [? ?]; congruence); intros _; split; discriminate.
Qed.

(** C5: an order in one of the two delivered states is neither overdue nor
    active nor due within a day, whatever its expected delivery date and the
    clock; the overdue and due-in-one-day queries leave it out as well. *)
Theorem C5_delivered_excluded (o : WorkOrder.t) (now now' : Z) (st : Store.t) :
  WorkOrder.status o = DELIVERED_FULLY_PAID
  \/ WorkOrder.status o = DELIVERED_PAYMENT_PENDING ->
  WorkOrder.is_overdue now o = false
  /\ WorkOrder.is_active o = false
  /\ WorkOrder.due_in_one_day now now' o = false
  /\ ~ In o (crud.get_overdue_work_orders now st)
  /\ ~ In o (crud.get_orders_due_in_one_day now st).
Proof.
  intros Hs.
  assert (Hnd : not_delivered (WorkOrder.status o) = false).
  { apply not_delivered_false. unfold delivered_states.
    destruct Hs as [-> | ->]; set_solver. }
  unfold WorkOrder.is_overdue, WorkOrder.is_active, WorkOrder.due_in_one_day,
    crud.get_overdue_work_orders, crud.get_orders_due_in_one_day, crud.overdue_condition.
  rewrite Hnd, !andb_false_r. repeat split.
  - intros Hin. apply filter_In in Hin as [_ Hc].
    rewrite Hnd, andb_false_r in Hc. discriminate.
  - intros Hin. apply filter_In in Hin as [_ Hc].
    rewrite Hnd, andb_false_r in Hc. discriminate.
Qed.

Lemma C5_delivered_excluded_witness :
  WorkOrder.is_overdue 2000 order_delivered = false
  /\ WorkOrder.is_active order_delivered = false
  /\ WorkOrder.due_in_one_day 2000 2001 order_delivered = false
  /\ ~ In order_delivered (crud.get_overdue_work_orders 2000 store)
  /\ ~ In order_delivered (crud.get_orders_due_in_one_day 2000 store).
Proof.
  apply (C5_delivered_excluded order_delivered 2000 2001 store).
  left. reflexivity.
Defined.

(** ** Dashboard *)

Lemma fold_left_Qplus (A : Type) (f : A -> Q) (l : list A) (a : Q) :
  (fold_left (fun acc x => acc + f x) l a == a + Qsum (map f l))%Q.
Proof.
  revert a. induction l as [| x l IH]; intros a; simpl.
  - symmetry. apply Qplus_0_r.
  - rewrite IH. symmetry. apply Qplus_assoc.
Qed.

Lemma or_0_sql_sum (xs : list Q) : (crud.or_0 (crud.sql_sum xs) == Qsum xs)%Q.
Proof.
  destruct xs as [| x rest]; simpl.
  - reflexivity.
  - assert (H : (fold_left Qplus rest x == x + Qsum rest)%Q).
    { rewrite <- (map_id rest) at 2. apply (fold_left_Qplus Q (fun y => y)). }
    destruct (Qeq_bool (fold_left Qplus rest x) 0) eqn:E.
    + apply Qeq_bool_iff in E. rewrite <- H, E. reflexivity.
    + exact H.
Qed.

Lemma filter_ext_length (A : Type) (p q : A -> bool) (l : list A) :
  (forall x, p x = q x) -> length (List.filter p l) = length (List.filter q l).
Proof.
  intros H. induction l as [| x l IH]; simpl; [reflexivity |].
  rewrite H. destruct (q x); simpl; congruence.
Qed.

Lemma filter_split_length (A : Type) (p : A -> bool) (l : list A) :
  length l = (length (List.filter (fun x => negb (p x)) l) + length (List.filter p l))%nat.
Proof.
  induction l as [| x l IH]; simpl; [reflexivity |].
  destruct (p x); simpl; lia.
Qed.

Lemma delivered_spec (o : WorkOrder.t) :
  delivered o = bool_decide (WorkOrder.status o ∈ delivered_states).
Proof.
  unfold delivered, delivered_states. destruct (WorkOrder.status o); reflexivity.
Qed.

(** C7: in the dashboard, [total_revenue] is the sum of [advance_paid] over
    all orders; [pending_payments] is the sum of the derived
    [remaining_amount] over the orders whose [due_cleared] is false;
    [completed_orders] counts the orders in either delivered state and
    [active_work_orders] those in neither; and the total is their sum. *)
Theorem C7_dashboard_stats (now1 now2 : Z) (st : Store.t) :
  let d := crud.get_dashboard_stats now1 now2 st in
  let orders := Store.work_orders st in
  (DashboardSummary.total_revenue d == Qsum (map WorkOrder.advance_paid orders))%Q
  /\ (DashboardSummary.pending_payments d ==
        Qsum (map WorkOrder.remaining_amount
                (List.filter (fun o => negb (WorkOrder.due_cleared o)) orders)))%Q
  /\ DashboardSummary.completed_orders d = count delivered orders
  /\ DashboardSummary.active_work_orders d = count (fun o => negb (delivered o)) orders
  /\ DashboardSummary.total_work_orders d
     = (DashboardSummary.active_work_orders d + DashboardSummary.completed_orders d)%nat.
Proof.
  cbn zeta. unfold crud.get_dashboard_stats. cbn [DashboardSummary.total_revenue
    DashboardSummary.pending_payments DashboardSummary.completed_orders
    DashboardSummary.active_work_orders DashboardSummary.total_work_orders].
  repeat split.
  - apply or_0_sql_sum.
  - rewrite (fold_left_Qplus _
      (fun order =>
         py.max0 ((if py.Qgtb (WorkOrder.actual_amount order) 0
                   then WorkOrder.actual_amount order
                   else WorkOrder.total_estimate order) - WorkOrder.advance_paid order))).
    rewrite Qplus_0_l.
    induction (List.filter (fun o => negb (WorkOrder.due_cleared o)) (Store.work_orders st))
      as [| o l IH]; simpl; [reflexivity |].
    rewrite IH. unfold WorkOrder.remaining_amount.
    destruct (py.Qgtb (WorkOrder.actual_amount o) 0); reflexivity.
  - unfold count. apply filter_ext_length. intros o. symmetry. apply delivered_spec.
  - unfold count. apply filter_ext_length. intros o. rewrite delivered_spec. reflexivity.
  - rewrite (filter_split_length _
      (fun o => bool_decide (WorkOrder.status o ∈ delivered_states)) (Store.work_orders st)).
    reflexivity.
Qed.

(** ** Updating a work order *)

Lemma required_not_null (A : Type) (f : field A) (old : A) :
  not_null f = true ->
  crud.required f old = py.Ok (match f with Set_ a => a | _ => old end).
Proof. destruct f; simpl; intros H; [reflexivity | discriminate | reflexivity]. Qed.

Lemma find_replaced (o o' : WorkOrder.t) (l : list WorkOrder.t) (k : Z) :
  List.find (fun x => WorkOrder.id x =? k) l = Some o ->
  WorkOrder.id o' = k ->
  List.find (fun x => WorkOrder.id x =? k)
    (map (fun x => if WorkOrder.id x =? WorkOrder.id o' then o' else x) l) = Some o'.
Proof.
  intros Hfind Hid. subst k. induction l as [| x l IH]; simpl in *; [discriminate |].
  destruct (WorkOrder.id x =? WorkOrder.id o') eqn:E.
  - simpl. rewrite Z.eqb_refl. reflexivity.
  - simpl. rewrite E. apply IH. exact Hfind.
Qed.

Lemma find_id (o : WorkOrder.t) (l : list WorkOrder.t) (k : Z) :
  List.find (fun x => WorkOrder.id x =? k) l = Some o -> WorkOrder.id o = k.
Proof.
  intros H. apply find_some in H as [_ H]. apply Z.eqb_eq. exact H.
Qed.

(** C3: updating an existing work order with any of the five status values
    succeeds and stores that status, whatever the order's current status;
    the successor table is not consulted.  (The update is assumed to carry
    no explicit null for a column that cannot be null.) *)
Theorem C3_update_sets_any_status (st : Store.t) (order_id : Z) (o : WorkOrder.t)
    (u : WorkOrderUpdate.t) (s : OrderStatus) :
  crud.get_work_order st order_id = Some o ->
  WorkOrderUpdate.status u = Set_ s ->
  respects_not_null u = true ->
  exists (st' : Store.t) (o' : WorkOrder.t),
    crud.update_work_order order_id u st = (st', py.Ok (Some o'))
    /\ WorkOrder.status o' = s
    /\ crud.get_work_order st' order_id = Some o'.
Proof.
  intros Hget Hs Hnn.
  unfold respects_not_null in Hnn. repeat rewrite andb_true_iff in Hnn.
  destruct Hnn as [[[[[He Hst] Hadv] Hest] Hact] Hdue].
  unfold crud.update_work_order, db.bind, db.query, db.lift, db.ret, db.replace_work_order.
  rewrite Hget. unfold crud.setattrs_work_order.
  rewrite (required_not_null _ _ _ He), (required_not_null _ _ _ Hst),
    (required_not_null _ _ _ Hadv), (required_not_null _ _ _ Hest),
    (required_not_null _ _ _ Hact), (required_not_null _ _ _ Hdue).
  rewrite Hs. eexists _, _. split; [reflexivity |]. split; [reflexivity |].
  unfold crud.get_work_order in *. cbn [Store.work_orders].
  apply (find_replaced o); [exact Hget |].
  cbn [WorkOrder.id]. apply (find_id _ _ _ Hget).
Qed.

(** The delivered and fully paid order of the sample store is put back to
    Order Placed, a move the successor table does not offer. *)
Lemma C3_update_sets_any_status_witness :
  next_values (value (WorkOrder.status order_delivered)) = []
  /\ exists (st' : Store.t) (o' : WorkOrder.t),
       crud.update_work_order 1 update_to_order_placed store = (st', py.Ok (Some o'))
       /\ WorkOrder.status o' = ORDER_PLACED
       /\ crud.get_work_order st' 1 = Some o'.
Proof.
  split; [vm_compute; reflexivity |].
  apply (C3_update_sets_any_status store 1 order_delivered update_to_order_placed ORDER_PLACED);
    reflexivity.
Defined.

(** ** Duplicate mobile numbers *)

Lemma mobile_ok_nonempty (m : string) : mobile_ok m = true -> String.eqb m "" = false.
Proof.
  destruct m; [intros H; discriminate H | reflexivity].
Qed.

(** C9: creating a client whose mobile number is already that of a stored
    client fails with the duplicate-key error and leaves the store as it
    was; so does an update that changes the mobile number to one held by a
    client with another id. *)
Theorem C9_duplicate_mobile_rejected :
  (forall (now : Z) (st : Store.t) (client : ClientCreate.t) (c : Client.t),
      crud.get_client_by_mobile st (ClientCreate.mobile_number client) = Some c ->
      routers_clients.create_client now client st = (st, py.Raise DuplicateKey))
  /\ (forall (st : Store.t) (client_id : Z) (u : ClientUpdate.t) (m : string) (c : Client.t),
        ClientUpdate.valid u = true ->
        ClientUpdate.mobile_number u = Set_ m ->
        crud.get_client_by_mobile st m = Some c ->
        Client.id c <> client_id ->
        routers_clients.update_client client_id u st = (st, py.Raise DuplicateKey)).
Proof.
  split.
  - intros now st client c Hc.
    unfold routers_clients.create_client, db.bind, db.query, db.raise.
    rewrite Hc. reflexivity.
  - intros st client_id u m c Hvalid Hm Hc Hid.
    unfold ClientUpdate.valid in Hvalid. rewrite Hm in Hvalid.
    repeat rewrite andb_true_iff in Hvalid. destruct Hvalid as [[_ Hok] _].
    cbn [ClientUpdate.field_ok] in Hok.
    unfold routers_clients.update_client. rewrite Hm, (mobile_ok_nonempty m Hok).
    unfold db.bind, db.query, db.raise. rewrite Hc.
    apply Z.eqb_neq in Hid. rewrite Hid. reflexivity.
Qed.

Lemma C9_duplicate_mobile_rejected_witness :
  routers_clients.create_client 7 new_client_same_mobile store = (store, py.Raise DuplicateKey)
  /\ routers_clients.update_client 2 change_mobile_to_priyas store
     = (store, py.Raise DuplicateKey).
Proof.
  split.
  - apply (proj1 C9_duplicate_mobile_rejected 7 store new_client_same_mobile client_priya).
    reflexivity.
  - apply (proj2 C9_duplicate_mobile_rejected store 2 change_mobile_to_priyas
             "9876543210" client_priya); [reflexivity | reflexivity | reflexivity |].
    vm_compute. discriminate.
Defined.

(** ** Creating a work order for an unknown client id *)

Lemma fold_left_max_ge (l : list Z) (a x : Z) :
  x <= a \/ In x l -> x <= fold_left Z.max l a.
Proof.
  revert a. induction l as [| y l IH]; intros a Hx; simpl.
  - destruct Hx as [Hx | []]. exact Hx.
  - apply IH. destruct Hx as [Hx | [-> | Hx]]; [left; lia | left; lia | right; exact Hx].
Qed.

Lemma next_id_gt (l : list Z) (x : Z) : In x l -> x < db.next_id l.
Proof.
  destruct l as [| i rest]; intros Hx; [destruct Hx |].
  unfold db.next_id. apply Z.lt_succ_r.
  apply fold_left_max_ge. destruct Hx as [-> | Hx]; [left; lia | right; exact Hx].
Qed.

Lemma find_app_fresh (A : Type) (p : A -> bool) (l : list A) (x : A) :
  (forall y, In y l -> p y = false) -> p x = true -> List.find p (l ++ [x]) = Some x.
Proof.
  intros Hl Hx. induction l as [| y l IH]; simpl.
  - rewrite Hx. reflexivity.
  - rewrite (Hl y) by (left; reflexivity). apply IH.
    intros z Hz. apply Hl. right. exact Hz.
Qed.

Lemma find_none_existsb (A : Type) (p : A -> bool) (l : list A) :
  List.find p l = None -> existsb p l = false.
Proof.
  induction l as [| y l IH]; simpl; [reflexivity |].
  destruct (p y); [discriminate | exact IH].
Qed.

Lemma valid_name_truthy (n : string) : name_ok n = true -> py.truthy_str (Some n) = true.
Proof.
  destruct n; [intros H; discriminate H | reflexivity].
Qed.

Lemma valid_mobile_truthy (m : string) : mobile_ok m = true -> py.truthy_str (Some m) = true.
Proof.
  destruct m; [intros H; discriminate H | reflexivity].
Qed.

Section CreateWorkOrder.

Local Open Scope db_scope.

Variables (now : Z) (w : WorkOrderCreate.t).

Lemma resolve_client_by_mobile (st : Store.t) (n m : string) :
  name_ok n = true -> mobile_ok m = true ->
  opt_max_length 500 (WorkOrderCreate.client_address w) = true ->
  (client_data <~ db.lift (ClientCreate.new (Some n) (Some m)
                             (WorkOrderCreate.client_email w)
                             (WorkOrderCreate.client_address w)) ;;
   existing <~ db.query (fun st =>
                 crud.get_client_by_mobile st (ClientCreate.mobile_number client_data)) ;;
   match existing with
   | Some c => db.ret (Client.id c)
   | None =>
       new_client <~ crud.create_client now client_data ;;
       db.ret (Client.id new_client)
   end) st
  = (Store.mk (resolved_clients now w st n m) (Store.work_orders st),
     py.Ok (Client.id (resolved_client now w st n m))).
Proof.
  intros Hn Hm Ha. unfold db.bind, db.lift, db.query, db.ret, ClientCreate.new.
  rewrite Hn, Hm, Ha. cbn [andb ClientCreate.mobile_number].
  unfold resolved_clients, resolved_client.
  destruct (crud.get_client_by_mobile st m) as [c |] eqn:E.
  - destruct st; reflexivity.
  - unfold crud.create_client, db.insert_client. cbn [ClientCreate.mobile_number
      ClientCreate.name ClientCreate.email ClientCreate.address].
    rewrite (find_none_existsb _ _ _ E). reflexivity.
Qed.

Lemma insert_then_get (st : Store.t) (cid : Z) :
  (db_work_order <~ db.insert_work_order now cid
                      (WorkOrderCreate.expected_delivery_date w)
                      (WorkOrderCreate.description w)
                      (WorkOrderCreate.notes w)
                      (WorkOrderCreate.status w)
                      (WorkOrderCreate.advance_paid w)
                      (WorkOrderCreate.total_estimate w)
                      (WorkOrderCreate.actual_amount w)
                      (WorkOrderCreate.due_cleared w) ;;
   db.query (fun st => crud.get_work_order st (WorkOrder.id db_work_order))) st
  = (Store.mk (Store.clients st) (Store.work_orders st ++ [inserted_order now w st cid]),
     py.Ok (Some (inserted_order now w st cid))).
Proof.
  unfold db.bind, db.insert_work_order, db.query. fold (inserted_order now w st cid).
  f_equal. f_equal. unfold crud.get_work_order. cbn [Store.work_orders].
  apply find_app_fresh.
  - intros y Hy. apply Z.eqb_neq. cbn [inserted_order WorkOrder.id].
    pose proof (next_id_gt (map WorkOrder.id (Store.work_orders st)) (WorkOrder.id y)
                  (in_map WorkOrder.id _ _ Hy)). lia.
  - apply Z.eqb_refl.
Qed.

End CreateWorkOrder.

(** C10: [create_work_order] with a [client_id] that matches no client does
    not report the missing client when name and mobile are supplied: it takes
    the stored client with that mobile number, or else creates one, inserts
    the order for that client and returns it.  It raises, leaving the store
    untouched, when the name or the mobile number is missing. *)
Theorem C10_unknown_client_id (now : Z) (st : Store.t) (w : WorkOrderCreate.t) (cid : Z) :
  WorkOrderCreate.valid w = true ->
  WorkOrderCreate.client_id w = Some cid ->
  crud.get_client st cid = None ->
  (forall n m : string,
      WorkOrderCreate.client_name w = Some n ->
      WorkOrderCreate.client_mobile w = Some m ->
      let c := resolved_client now w st n m in
      let o := inserted_order now w st (Client.id c) in
      crud.create_work_order now w st
      = (Store.mk (resolved_clients now w st n m) (Store.work_orders st ++ [o]),
         py.Ok (Some o))
      /\ In c (resolved_clients now w st n m)
      /\ Client.mobile_number c = m
      /\ WorkOrder.client_id o = Client.id c)
  /\ (WorkOrderCreate.client_name w = None \/ WorkOrderCreate.client_mobile w = None ->
      exists e : py.exn, crud.create_work_order now w st = (st, py.Raise e)).
Proof.
  intros Hvalid Hcid Hnone.
  unfold WorkOrderCreate.valid in Hvalid. repeat rewrite andb_true_iff in Hvalid.
  destruct Hvalid as [[[[[[[[_ _] _] _] _] Hname] Hmobile] Haddr] _].
  split.
  - intros n m Hn Hm c o.
    rewrite Hn in Hname. rewrite Hm in Hmobile. cbn [opt_ok] in Hname, Hmobile.
    split; [| split; [| split]].
    + unfold crud.create_work_order. cbv zeta. rewrite Hcid, Hn, Hm.
      unfold db.bind at 1.
      destruct (cid =? 0).
      * rewrite (resolve_client_by_mobile now w st n m Hname Hmobile Haddr).
        rewrite insert_then_get. reflexivity.
      * unfold db.bind at 1. unfold db.query at 1. rewrite Hnone.
        rewrite (valid_name_truthy n Hname), (valid_mobile_truthy m Hmobile).
        cbn [andb].
        rewrite (resolve_client_by_mobile now w st n m Hname Hmobile Haddr).
        rewrite insert_then_get. reflexivity.
    + subst c. unfold resolved_clients, resolved_client.
      destruct (crud.get_client_by_mobile st m) as [c0 |] eqn:E.
      * apply find_some in E as [E _]. exact E.
      * apply in_or_app. right. left. reflexivity.
    + subst c. unfold resolved_client.
      destruct (crud.get_client_by_mobile st m) as [c0 |] eqn:E.
      * apply find_some in E as [_ E]. apply String.eqb_eq in E. exact E.
      * reflexivity.
    + reflexivity.
  - intros Hmissing.
    unfold crud.create_work_order. cbv zeta. rewrite Hcid.
    unfold db.bind at 1.
    destruct (cid =? 0).
    + exists py.ValidationError. unfold db.bind, db.lift, ClientCreate.new.
      destruct Hmissing as [-> | ->]; [reflexivity |].
      destruct (WorkOrderCreate.client_name w); reflexivity.
    + exists py.ValueError. unfold db.bind at 1. unfold db.query at 1. rewrite Hnone.
      destruct Hmissing as [-> | ->]; [reflexivity |].
      rewrite andb_false_r. reflexivity.
Qed.

Lemma C10_unknown_client_id_witness :
  (exists (st' : Store.t) (o : WorkOrder.t),
      crud.create_work_order 7 order_for_unknown_client store = (st', py.Ok (Some o))
      /\ WorkOrder.client_id o = 3
      /\ crud.get_client st' 3
         = Some (Client.mk 3 "Meera Iyer" "9000000001" None None 7))
  /\ (exists e : py.exn,
        crud.create_work_order 7 order_for_unknown_client_bare store = (store, py.Raise e)).
Proof.
  split.
  - destruct (C10_unknown_client_id 7 store order_for_unknown_client 99
                eq_refl eq_refl eq_refl) as [H _].
    destruct (H "Meera Iyer" "9000000001" eq_refl eq_refl) as [Hrun _].
    eexists _, _. split; [exact Hrun |]. split; reflexivity.
  - destruct (C10_unknown_client_id 7 store order_for_unknown_client_bare 99
                eq_refl eq_refl eq_refl) as [_ H].
    apply H. left. reflexivity.
Defined.

(** ** The order's client, when client ids are distinct *)

Lemma find_by_id_unique (l : list Client.t) (c : Client.t) :
  NoDup (map Client.id l) -> In c l ->
  List.find (fun x => Client.id x =? Client.id c) l = Some c.
Proof.
  induction l as [| x l IH]; intros Hnd Hin; [destruct Hin |].
  simpl in Hnd. inversion Hnd as [| ? ? Hx Hl]; subst.
  simpl. destruct Hin as [-> | Hin].
  - rewrite Z.eqb_refl. reflexivity.
  - destruct (Client.id x =? Client.id c) eqn:E.
    + apply Z.eqb_eq in E. exfalso. apply Hx. rewrite E.
      apply list_elem_of_In, in_map. exact Hin.
    + apply IH; assumption.
Qed.

(** In a store whose client ids are distinct, the client that the new
    order's [client_id] denotes afterwards is the one found by mobile
    number or just created. *)
Lemma created_order_client (now : Z) (st : Store.t) (w : WorkOrderCreate.t) (n m : string) :
  NoDup (map Client.id (Store.clients st)) ->
  let c := resolved_client now w st n m in
  List.find (fun x => Client.id x =? Client.id c) (resolved_clients now w st n m) = Some c.
Proof.
  intros Hnd c. subst c. unfold resolved_clients, resolved_client.
  destruct (crud.get_client_by_mobile st m) as [c0 |] eqn:E.
  - apply find_by_id_unique; [exact Hnd |]. apply find_some in E as [E _]. exact E.
  - apply find_app_fresh; [| apply Z.eqb_refl].
    intros y Hy. apply Z.eqb_neq. cbn [Client.id].
    pose proof (next_id_gt (map Client.id (Store.clients st)) (Client.id y)
                  (in_map Client.id _ _ Hy)). lia.
Qed.

(** ** Deleting a client *)

(** A client that still has orders cannot be deleted: the operation raises
    and the store keeps both the client and the orders. *)
Lemma delete_client_with_orders (st : Store.t) (client_id : Z) (c : Client.t)
    (o : WorkOrder.t) :
  crud.get_client st client_id = Some c ->
  In o (Store.work_orders st) ->
  WorkOrder.client_id o = client_id ->
  crud.delete_client client_id st = (st, py.Raise py.IntegrityError).
Proof.
  intros Hc Ho Hid.
  unfold crud.delete_client, db.bind, db.query, db.delete_client_row. rewrite Hc.
  assert (Hin : In o (List.filter (fun o => WorkOrder.client_id o =? Client.id c)
                         (Store.work_orders st))).
  { apply filter_In. split; [exact Ho |].
    apply find_some in Hc as [_ Hc]. apply Z.eqb_eq in Hc. apply Z.eqb_eq. congruence. }
  destruct (List.filter _ (Store.work_orders st)); [destruct Hin | reflexivity].
Qed.

(** When the deletion does report success, the client had no orders: none
    refers to it afterwards, and none was removed. *)
Lemma delete_client_success (st st' : Store.t) (client_id : Z) :
  crud.delete_client client_id st = (st', py.Ok true) ->
  Store.work_orders st' = Store.work_orders st
  /\ forall o, In o (Store.work_orders st') -> WorkOrder.client_id o <> client_id.
Proof.
  unfold crud.delete_client, db.bind, db.query, db.delete_client_row, db.ret.
  destruct (crud.get_client st client_id) as [c |] eqn:Hc; [| intros H; discriminate H].
  destruct (List.filter _ (Store.work_orders st)) eqn:Hf; intros H; inversion H; subst; clear H.
  cbn [Store.work_orders]. split; [reflexivity |].
  intros o Ho Hid.
  assert (Hin : In o (List.filter (fun o => WorkOrder.client_id o =? Client.id c)
                         (Store.work_orders st))).
  { apply filter_In. split; [exact Ho |].
    apply find_some in Hc as [_ Hc]. apply Z.eqb_eq in Hc. apply Z.eqb_eq. congruence. }
  rewrite Hf in Hin. destruct Hin.
Qed.

(** C6: deleting a client is meant to delete the client's work orders with
    it.  On the sample store, deleting client 2, who has one order, raises
    instead; the client and the order both stay. *)
Theorem C6_delete_client_no_cascade :
  crud.delete_client 2 store = (store, py.Raise py.IntegrityError)
  /\ crud.get_client store 2 = Some client_saree_house
  /\ In order_blouse (Store.work_orders store)
  /\ WorkOrder.client_id order_blouse = 2.
Proof.
  split; [| split; [| split]]; try reflexivity.
  right. left. reflexivity.
Qed.

(** ** Filtering work orders *)

Lemma In_if_filter (A : Type) (p : A -> bool) (l : list A) (x : A) (b : bool) :
  In x (if b then List.filter p l else l) <-> In x l /\ (b = true -> p x = true).
Proof.
  destruct b; [rewrite filter_In |]; intuition congruence.
Qed.

Lemma In_opt_filter (A B : Type) (p : B -> A -> bool) (P : B -> A -> Prop)
    (ob : option B) (l : list A) (x : A) :
  (forall b, p b x = true <-> P b x) ->
  In x (match ob with
        | Some b => List.filter (p b) l
        | None => l
        end)
  <-> In x l /\ (forall b, ob = Some b -> P b x).
Proof.
  intros Hp. destruct ob as [b |].
  - rewrite filter_In, Hp. split.
    + intros [? ?]. split; [assumption |]. intros ? [= <-]. assumption.
    + intros [? H]. split; [assumption |]. apply H. reflexivity.
  - split; [intros ?; split; [assumption | intros ? [=]] | intros [? _]; assumption].
Qed.

(** What [get_filtered_work_orders] selects.  It is the conjunction of the
    supplied criteria, provided the client id, if supplied, is not 0. *)
Lemma get_filtered_work_orders_spec (now : Z) (st : Store.t) (f : WorkOrderFilter.t)
    (o : WorkOrder.t) :
  WorkOrderFilter.client_id f <> Some 0 ->
  In o (crud.get_filtered_work_orders now st f)
  <-> In o (Store.work_orders st) /\ satisfies now f o.
Proof.
  intros Hcid. unfold crud.get_filtered_work_orders, satisfies, crud.overdue_condition.
  cbv zeta.
  destruct f as [dd ws we ov fs fc]. cbn [WorkOrderFilter.delivery_date
    WorkOrderFilter.delivery_window_start WorkOrderFilter.delivery_window_end
    WorkOrderFilter.overdue_only WorkOrderFilter.status WorkOrderFilter.client_id] in *.
  rewrite In_if_filter.
  assert (Hov : (py.truthy_bool ov = true ->
                 (WorkOrder.expected_delivery_date o <? now)
                 && not_delivered (WorkOrder.status o) = true)
                <-> (ov = Some true ->
                     WorkOrder.expected_delivery_date o < now
                     /\ WorkOrder.status o <> DELIVERED_FULLY_PAID
                     /\ WorkOrder.status o <> DELIVERED_PAYMENT_PENDING)).
  { rewrite andb_true_iff, Z.ltb_lt, not_delivered_true.
    destruct ov as [[|] |]; simpl; intuition congruence. }
  rewrite Hov. clear Hov.
  assert (Hc : forall l,
    In o (match fc with
          | Some cid => if cid =? 0 then l
                        else List.filter (fun o => WorkOrder.client_id o =? cid) l
          | None => l
          end)
    <-> In o l /\ (forall cid, fc = Some cid -> WorkOrder.client_id o = cid)).
  { intros l. destruct fc as [cid |].
    - destruct (cid =? 0) eqn:E.
      + apply Z.eqb_eq in E. subst. congruence.
      + rewrite filter_In, Z.eqb_eq. split.
        * intros [? ?]. split; [assumption |]. intros ? [= <-]. assumption.
        * intros [? H]. split; [assumption |]. apply H. reflexivity.
    - split; [intros ?; split; [assumption | intros ? [=]] | intros [? _]; assumption]. }
  rewrite Hc. clear Hc.
  rewrite (In_opt_filter _ _ (fun s o => bool_decide (WorkOrder.status o = s))
             (fun s o => WorkOrder.status o = s))
    by (intros b; apply bool_decide_eq_true).
  rewrite (In_opt_filter _ _ (fun e o => WorkOrder.expected_delivery_date o <=? e)
             (fun e o => WorkOrder.expected_delivery_date o <= e))
    by (intros b; apply Z.leb_le).
  rewrite (In_opt_filter _ _ (fun s o => WorkOrder.expected_delivery_date o >=? s)
             (fun s o => s <= WorkOrder.expected_delivery_date o))
    by (intros b; apply Z.geb_le).
  rewrite (In_opt_filter _ _
             (fun d o => (WorkOrder.expected_delivery_date o >=? crud.start_of_day d)
                         && (WorkOrder.expected_delivery_date o
                             <? crud.start_of_day d + py.timedelta_days 1))
             (fun d o => crud.start_of_day d <= WorkOrder.expected_delivery_date o
                         < crud.start_of_day d + py.timedelta_days 1))
    by (intros b; rewrite andb_true_iff, Z.geb_le, Z.ltb_lt; reflexivity).
  tauto.
Qed.

(** With only [overdue_only] set, the filter returns exactly the orders
    expected before [now] that are in neither delivered state. *)
Lemma get_filtered_overdue_only (now : Z) (st : Store.t) (o : WorkOrder.t) :
  In o (crud.get_filtered_work_orders now st
          (WorkOrderFilter.mk None None None (Some true) None None))
  <-> In o (Store.work_orders st)
      /\ WorkOrder.expected_delivery_date o < now
      /\ WorkOrder.status o <> DELIVERED_FULLY_PAID
      /\ WorkOrder.status o <> DELIVERED_PAYMENT_PENDING.
Proof.
  rewrite get_filtered_work_orders_spec by discriminate.
  unfold satisfies. cbn. split.
  - intros [Hin (_ & _ & _ & _ & _ & H)]. split; [exact Hin | apply H; reflexivity].
  - intros [Hin H]. split; [exact Hin |].
    repeat split; try discriminate; apply H.
Qed.

(** The day window of [delivery_date] is the half-open day that contains it. *)
Lemma start_of_day_window (d : Z) :
  crud.start_of_day d <= d < crud.start_of_day d + py.timedelta_days 1
  /\ crud.start_of_day d mod py.timedelta_days 1 = 0.
Proof.
  unfold crud.start_of_day, py.timedelta_days.
  pose proof (Z.mod_pos_bound d (1 * 86400000000) ltac:(lia)) as Hb.
  split; [lia |].
  rewrite Zminus_mod, Zmod_mod, Z.sub_diag. reflexivity.
Qed.

(** C4: the filter is meant to apply every supplied criterion.  Asked for
    the orders of client id 0, it applies no client criterion at all and
    returns every order of the sample store, none of which belongs to
    client 0. *)
Theorem C4_filter_ignores_client_id_0 :
  crud.get_filtered_work_orders 2000 store filter_client_0 = Store.work_orders store
  /\ In order_blouse (crud.get_filtered_work_orders 2000 store filter_client_0)
  /\ ~ satisfies 2000 filter_client_0 order_blouse.
Proof.
  split; [reflexivity |]. split; [right; left; reflexivity |].
  intros (_ & _ & _ & _ & H & _).
  specialize (H 0 eq_refl). discriminate H.
Qed.

(** ** Free-text search *)

Lemma lower_ascii_idem (c : ascii) :
  sqlite.lower_ascii (sqlite.lower_ascii c) = sqlite.lower_ascii c.
Proof. destruct c as [[] [] [] [] [] [] [] []]; reflexivity. Qed.

Lemma lower_ascii_not_wildcard (c : ascii) :
  Ascii.eqb c "%" = false -> Ascii.eqb c "_" = false ->
  Ascii.eqb (sqlite.lower_ascii c) "%" = false
  /\ Ascii.eqb (sqlite.lower_ascii c) "_" = false.
Proof.
  destruct c as [[] [] [] [] [] [] [] []]; intros H1 H2; split;
    first [reflexivity | discriminate H1 | discriminate H2].
Qed.

Lemma eq_nocase_lower (a b : ascii) :
  sqlite.eq_nocase (sqlite.lower_ascii a) (sqlite.lower_ascii b)
  = Ascii.eqb (sqlite.lower_ascii a) (sqlite.lower_ascii b).
Proof. unfold sqlite.eq_nocase. rewrite !lower_ascii_idem. reflexivity. Qed.

Lemma lower_ascii_zero (c : ascii) :
  Ascii.eqb (sqlite.lower_ascii c) zero = Ascii.eqb c zero.
Proof. destruct c as [[] [] [] [] [] [] [] []]; reflexivity. Qed.

(** Case folding and reading up to the first zero byte commute. *)
Lemma c_string_lower (s : string) :
  sqlite.c_string (sqlite.lower s) = sqlite.lower (sqlite.c_string s).
Proof.
  induction s as [| c s IH]; [reflexivity |].
  cbn [sqlite.lower sqlite.c_string]. rewrite lower_ascii_zero.
  destruct (Ascii.eqb c zero); [reflexivity |].
  cbn [sqlite.lower]. rewrite IH. reflexivity.
Qed.

(** A plain term holds no zero byte, so the pattern made of it is read to
    its end. *)
Lemma c_string_plain (q rest : string) :
  plain_term q = true ->
  sqlite.c_string (sqlite.lower q ++ rest) = sqlite.lower q ++ sqlite.c_string rest.
Proof.
  induction q as [| a q IH]; intros Hplain; [reflexivity |].
  cbn [plain_term] in Hplain.
  repeat rewrite andb_true_iff in Hplain. destruct Hplain as [[[[_ Hz] _] _] Hq].
  apply negb_true_iff in Hz.
  cbn [sqlite.lower].
  change (String (sqlite.lower_ascii a) (sqlite.lower q) ++ rest)
    with (String (sqlite.lower_ascii a) (sqlite.lower q ++ rest)).
  change (String (sqlite.lower_ascii a) (sqlite.lower q) ++ sqlite.c_string rest)
    with (String (sqlite.lower_ascii a) (sqlite.lower q ++ sqlite.c_string rest)).
  cbn [sqlite.c_string]. rewrite lower_ascii_zero, Hz, (IH Hq). reflexivity.
Qed.

Lemma c_string_search_term (q : string) :
  plain_term q = true ->
  sqlite.c_string ("%" ++ sqlite.lower q ++ "%") = "%" ++ sqlite.lower q ++ "%".
Proof.
  intros Hplain.
  change ("%" ++ sqlite.lower q ++ "%") with (String "%" (sqlite.lower q ++ "%")).
  cbn [sqlite.c_string].
  change (Ascii.eqb "%" zero) with false. cbv iota.
  rewrite (c_string_plain q "%" Hplain). reflexivity.
Qed.

(** What is found in the part of a text before its first zero byte is found
    in the text. *)
Lemma prefix_of_c_string (t s : string) :
  prefix_of t (sqlite.c_string s) = true -> prefix_of t s = true.
Proof.
  revert s. induction t as [| a t IH]; intros s H; [reflexivity |].
  destruct s as [| b s]; [discriminate H |].
  cbn [sqlite.c_string] in H.
  destruct (Ascii.eqb b zero); [discriminate H |].
  cbn [prefix_of] in *. apply andb_true_iff in H as [Hab Hrest].
  rewrite Hab, (IH s Hrest). reflexivity.
Qed.

Lemma contains_c_string (t s : string) :
  contains t (sqlite.c_string s) = true -> contains t s = true.
Proof.
  induction s as [| b s IH]; intros H; [exact H |].
  cbn [contains]. apply orb_true_iff.
  cbn [sqlite.c_string] in H.
  destruct (Ascii.eqb b zero) eqn:Eb.
  - left. cbn [contains] in H. rewrite orb_false_r in H.
    destruct t as [| a t]; [reflexivity | discriminate H].
  - cbn [contains] in H. apply orb_true_iff in H as [H | H].
    + left. apply prefix_of_c_string. cbn [sqlite.c_string]. rewrite Eb. exact H.
    + right. apply IH, H.
Qed.

(** A wildcard-free pattern matches only a prefix equal to it up to case. *)
Lemma like_plain_prefix (q rest suf : string) :
  plain_term q = true ->
  sqlite.patternCompare (sqlite.lower q ++ rest) (sqlite.lower suf) = true ->
  prefix_of (sqlite.lower q) (sqlite.lower suf) = true.
Proof.
  revert suf. induction q as [| a q IH]; intros suf Hplain Hlike; [reflexivity |].
  cbn [plain_term] in Hplain.
  repeat rewrite andb_true_iff in Hplain. destruct Hplain as [[[[_ _] Hp] Hu] Hq].
  apply negb_true_iff in Hp. apply negb_true_iff in Hu.
  destruct (lower_ascii_not_wildcard a Hp Hu) as [Hp' Hu'].
  cbn [sqlite.lower] in Hlike.
  change (String (sqlite.lower_ascii a) (sqlite.lower q) ++ rest)
    with (String (sqlite.lower_ascii a) (sqlite.lower q ++ rest)) in Hlike.
  cbn [sqlite.patternCompare] in Hlike. rewrite Hp', Hu' in Hlike.
  destruct suf as [| b suf]; cbn [sqlite.lower] in *; [discriminate Hlike |].
  apply andb_true_iff in Hlike as [Hc Hrest].
  rewrite eq_nocase_lower in Hc.
  cbn [prefix_of]. rewrite Hc. cbn [andb].
  apply IH; assumption.
Qed.

(** Wherever [%] lets the rest of the pattern match, the subject has a
    suffix there. *)
Lemma like_star_contains (k : string -> bool) (t s : string) (skipping : bool) :
  (forall suf, k (sqlite.lower suf) = true ->
               prefix_of t (sqlite.lower suf) = true) ->
  sqlite.like_star k skipping (sqlite.lower s) = true ->
  contains t (sqlite.lower s) = true.
Proof.
  intros Hk. revert skipping. induction s as [| c s IH]; intros skipping Hstar.
  - cbn in Hstar. pose proof (Hk EmptyString Hstar) as Hpre.
    cbn [sqlite.lower] in *. cbn [contains].
    rewrite Hpre. reflexivity.
  - cbn [sqlite.lower sqlite.like_star] in Hstar.
    cbn [sqlite.lower contains]. apply orb_true_iff.
    destruct (skipping && sqlite.is_cont (sqlite.lower_ascii c)).
    + right. apply (IH true Hstar).
    + apply orb_true_iff in Hstar as [Hhere | Hlater].
      * left. apply (Hk (String c s)). exact Hhere.
      * right. apply (IH _ Hlater).
Qed.

Lemma lower_like_ci_contains (q : string) (column : option string) :
  plain_term q = true ->
  sqlite.lower_like ("%" ++ sqlite.lower q ++ "%") column = true ->
  opt_ci_contains q column = true.
Proof.
  intros Hplain. destruct column as [s |]; [| intros H; discriminate H].
  unfold sqlite.lower_like, sqlite.like, opt_ci_contains, ci_contains.
  rewrite (c_string_search_term q Hplain), c_string_lower.
  change ("%" ++ sqlite.lower q ++ "%") with (String "%" (sqlite.lower q ++ "%")).
  cbn [sqlite.patternCompare]. rewrite Ascii.eqb_refl.
  intros Hlike. apply contains_c_string. rewrite c_string_lower.
  revert Hlike. apply like_star_contains. intros suf. apply like_plain_prefix. exact Hplain.
Qed.

Lemma insert_desc_In (x y : WorkOrder.t * Client.t) (l : list (WorkOrder.t * Client.t)) :
  In y (routers_search.insert_desc x l) -> y = x \/ In y l.
Proof.
  induction l as [| z l IH]; simpl.
  - intros [<- | []]. left. reflexivity.
  - destruct (WorkOrder.created_at z.1 <=? WorkOrder.created_at x.1); simpl.
    + intros [<- | H]; [left; reflexivity | right; exact H].
    + intros [<- | H]; [right; left; reflexivity |].
      destruct (IH H) as [-> | H']; [left; reflexivity | right; right; exact H'].
Qed.

Lemma order_by_In (y : WorkOrder.t * Client.t) (l : list (WorkOrder.t * Client.t)) :
  In y (routers_search.order_by_created_at_desc l) -> In y l.
Proof.
  induction l as [| x l IH]; simpl; [intros [] |].
  intros H. apply insert_desc_In in H as [-> | H]; [left; reflexivity | right; apply IH, H].
Qed.

Lemma sql_limit_In (A : Type) (n : Z) (l : list A) (y : A) :
  In y (routers_search.sql_limit n l) -> In y l.
Proof.
  unfold routers_search.sql_limit. destruct (n <? 0); [intros H; exact H |].
  generalize (Z.to_nat n) as k. intros k. revert l.
  induction k as [| k IH]; intros [| x l]; simpl; try contradiction.
  intros [<- | H]; [left; reflexivity | right; apply IH, H].
Qed.

Lemma format_results_In (now : Z) (rows : list (WorkOrder.t * Client.t))
    (rs : list routers_search.SearchResult) (r : routers_search.SearchResult) :
  routers_search.format_results now rows = py.Ok rs -> In r rs ->
  exists row, In row rows /\ routers_search.format_result now row = py.Ok r.
Proof.
  revert rs. induction rows as [| row rows IH]; intros rs Hf Hin; simpl in Hf.
  - inversion Hf; subst. destruct Hin.
  - destruct (routers_search.format_result now row) as [r0 |] eqn:E0; [| discriminate Hf].
    destruct (routers_search.format_results now rows) as [rs0 |]; [| discriminate Hf].
    inversion Hf; subst. destruct Hin as [<- | Hin].
    + exists row. split; [left; reflexivity | exact E0].
    + destruct (IH rs0 eq_refl Hin) as (row' & Hrow' & Hfmt).
      exists row'. split; [right; exact Hrow' | exact Hfmt].
Qed.

Lemma search_rows_In (st : Store.t) (q : string) (status : option string) (limit : Z)
    (rows : list (WorkOrder.t * Client.t)) (row : WorkOrder.t * Client.t) :
  routers_search.search_rows st q status limit = py.Ok rows -> In row rows ->
  In row (routers_search.join_client st)
  /\ routers_search.search_conditions ("%" ++ sqlite.lower q ++ "%") row = true.
Proof.
  unfold routers_search.search_rows. cbv zeta.
  destruct (routers_search.like_evaluated_on st status limit) as [| j js].
  - intros [= <-] [].
  - destruct (sqlite.max_like_pattern_length <? _); [intros H; discriminate H |].
    intros [= <-] Hin. apply sql_limit_In, order_by_In in Hin.
    assert (Hin' : In row (List.filter
                     (routers_search.search_conditions ("%" ++ sqlite.lower q ++ "%"))
                     (routers_search.join_client st))).
    { unfold routers_search.status_filter in Hin.
      destruct status as [s |]; [| exact Hin].
      destruct (String.eqb s ""); [exact Hin |].
      apply filter_In in Hin as [Hin _]. exact Hin. }
    apply filter_In in Hin'. exact Hin'.
Qed.

(** C8, as the code has it: for every search term made of ASCII characters
    other than the zero byte, [%] and [_], each order the search returns is
    a stored order whose client name, client mobile number, description or
    notes contains the term, case-insensitively. *)
Theorem C8_search_returns_matches (now : Z) (st : Store.t) (q : string)
    (status : option string) (limit : Z) (resp : routers_search.Response)
    (r : routers_search.SearchResult) :
  plain_term q = true ->
  routers_search.search_work_orders now st q status limit = py.Ok resp ->
  In r (routers_search.results resp) ->
  ci_contains q (routers_search.client_name r)
  || ci_contains q (routers_search.client_mobile r)
  || opt_ci_contains q (routers_search.description r)
  || opt_ci_contains q (routers_search.notes r) = true
  /\ exists (o : WorkOrder.t) (c : Client.t),
       In o (Store.work_orders st)
       /\ crud.get_client st (WorkOrder.client_id o) = Some c
       /\ routers_search.format_result now (o, c) = py.Ok r.
Proof.
  intros Hplain Hsearch Hr. unfold routers_search.search_work_orders in Hsearch.
  destruct (routers_search.search_rows st q status limit) as [rows |] eqn:Hrows;
    [| discriminate Hsearch].
  destruct (routers_search.format_results now rows) as [rs |] eqn:Hfmt;
    [| discriminate Hsearch].
  inversion Hsearch; subst resp; clear Hsearch. cbn [routers_search.results] in Hr.
  destruct (format_results_In now rows rs r Hfmt Hr) as ([o c] & Hrow & Hone).
  destruct (search_rows_In st q status limit rows (o, c) Hrows Hrow) as [Hjoin Hcond].
  split.
  - unfold routers_search.format_result in Hone. cbn [fst snd] in Hone.
    destruct (WorkOrder.description o) as [d |] eqn:Hd; [| discriminate Hone].
    inversion Hone; subst r; clear Hone.
    cbn [routers_search.client_name routers_search.client_mobile
         routers_search.description routers_search.notes].
    unfold routers_search.search_conditions in Hcond. cbn [fst snd] in Hcond.
    rewrite Hd in Hcond.
    repeat rewrite orb_true_iff in Hcond. repeat rewrite orb_true_iff.
    destruct Hcond as [[[H | H] | H] | H];
      apply (lower_like_ci_contains q _ Hplain) in H; auto.
  - exists o, c. unfold routers_search.join_client in Hjoin.
    apply in_flat_map in Hjoin as (o0 & Ho0 & Hin).
    destruct (crud.get_client st (WorkOrder.client_id o0)) as [c0 |] eqn:Hc0;
      [| destruct Hin].
    destruct Hin as [[= -> ->] | []]. auto.
Qed.

Lemma C8_search_returns_matches_witness :
  exists (resp : routers_search.Response) (r : routers_search.SearchResult),
    routers_search.search_work_orders 2000 store "SaReE" None 20 = py.Ok resp
    /\ In r (routers_search.results resp)
    /\ routers_search.work_order_id r = 1
    /\ ci_contains "SaReE" (routers_search.client_name r)
       || ci_contains "SaReE" (routers_search.client_mobile r)
       || opt_ci_contains "SaReE" (routers_search.description r)
       || opt_ci_contains "SaReE" (routers_search.notes r) = true.
Proof.
  destruct (routers_search.search_work_orders 2000 store "SaReE" None 20)
    as [resp |] eqn:E; [| vm_compute in E; discriminate E].
  assert (Hin : exists r, In r (routers_search.results resp)
                          /\ routers_search.work_order_id r = 1).
  { vm_compute in E. inversion E; subst resp. eexists. split; [right; left; reflexivity |].
    reflexivity. }
  destruct Hin as (r & Hin & Hid).
  exists resp, r. split; [reflexivity |]. split; [exact Hin |]. split; [exact Hid |].
  exact (proj1 (C8_search_returns_matches 2000 store "SaReE" None 20 resp r
                  eq_refl E Hin)).
Defined.

(** C8 as stated does not hold: the search for "saree" returns order 2, found by
    the name of its client; neither its description nor its notes contains
    the term. *)
Lemma C8_search_matches_client_name :
  exists (resp : routers_search.Response) (r : routers_search.SearchResult),
    routers_search.search_work_orders 2000 store "saree" None 20 = py.Ok resp
    /\ In r (routers_search.results resp)
    /\ routers_search.work_order_id r = 2
    /\ routers_search.description r = Some "Blouse stitching"
    /\ routers_search.notes r = Some "urgent"
    /\ opt_ci_contains "saree" (routers_search.description r) = false
    /\ opt_ci_contains "saree" (routers_search.notes r) = false.
Proof.
  eexists _, _. split; [vm_compute; reflexivity |].
  split; [left; reflexivity |]. repeat split.
Qed.

(** A term with a wildcard is read as a pattern: "b_o" finds the order
    described as "Blouse stitching", which does not contain it. *)
Lemma search_wildcard_term :
  exists (resp : routers_search.Response) (r : routers_search.SearchResult),
    routers_search.search_work_orders 2000 store "b_o" None 20 = py.Ok resp
    /\ In r (routers_search.results resp)
    /\ ci_contains "b_o" (routers_search.client_name r)
       || ci_contains "b_o" (routers_search.client_mobile r)
       || opt_ci_contains "b_o" (routers_search.description r)
       || opt_ci_contains "b_o" (routers_search.notes r) = false.
Proof.
  eexists _, _. split; [vm_compute; reflexivity |].
  split; [left; reflexivity |]. reflexivity.
Qed.

(** A term is read up to its first zero byte: "a", a zero byte and "z" are
    read as the pattern [%a], which finds the order of Priya Sharma, whose
    name ends in "a"; no searched column of that order contains the term. *)
Lemma search_zero_byte_term :
  exists (resp : routers_search.Response) (r : routers_search.SearchResult),
    routers_search.search_work_orders 2000 store term_with_zero_byte None 20 = py.Ok resp
    /\ In r (routers_search.results resp)
    /\ routers_search.client_name r = "Priya Sharma"
    /\ ci_contains term_with_zero_byte (routers_search.client_name r)
       || ci_contains term_with_zero_byte (routers_search.client_mobile r)
       || opt_ci_contains term_with_zero_byte (routers_search.description r)
       || opt_ci_contains term_with_zero_byte (routers_search.notes r) = false.
Proof.
  eexists _, _. split; [vm_compute; reflexivity |].
  split; [left; reflexivity |]. split; reflexivity.
Qed.

(** A stored text is read up to its first zero byte as well: "hem" is not
    found in a text that holds it after a zero byte. *)
Lemma like_subject_zero_byte :
  ci_contains "hem" text_with_zero_byte = true
  /\ sqlite.lower_like "%hem%" (Some text_with_zero_byte) = false
  /\ sqlite.lower_like "%a%" (Some text_with_zero_byte) = true.
Proof. repeat split. Qed.

(** ** The work-order routes *)

(** Whatever goes wrong while a work order is created reaches the caller as
    a bad request, never as a missing resource. *)
Lemma create_work_order_never_not_found (now : Z) (w : WorkOrderCreate.t)
    (st st' : Store.t) :
  routers_work_orders.create_work_order now w st <> (st', py.Raise NotFound).
Proof.
  unfold routers_work_orders.create_work_order.
  destruct (crud.create_work_order now w st) as [st0 [r | e]]; intros H; inversion H.
Qed.

(** The filter route hands its query parameters to the filter unchanged. *)
Lemma filter_work_orders_client_0 :
  routers_work_orders.filter_work_orders 2000 store None None None false None (Some 0)
  = Store.work_orders store.
Proof. reflexivity. Qed.

(** * Further properties of the code *)

(** ** The status workflow as a graph *)

Lemma next_options_unknown (s : string) :
  s ∉ map value all_statuses -> routers_status.get_next_status_options s = [].
Proof.
  intros Hs.
  assert (Hne : forall k, k ∈ map value all_statuses -> k ≠ s).
  { intros k Hk ->. exact (Hs Hk). }
  unfold routers_status.get_next_status_options, routers_status.workflow_transitions,
    py.dict. cbn [fold_left fst snd].
  repeat (rewrite dict_get_insert_ne; [| apply Hne; cbn; set_solver]).
  apply dict_get_empty.
Qed.

(** Every string is one of the five status values or none of them. *)
Lemma status_value_cases (s : string) :
  (exists st : OrderStatus, s = value st) \/ s ∉ map value all_statuses.
Proof.
  destruct (decide (s ∈ map value all_statuses)) as [Hin | Hout]; [left | right; exact Hout].
  cbn in Hin. repeat (apply elem_of_cons in Hin as [-> | Hin]);
    [exists ORDER_PLACED | exists STARTED | exists FINISHED
     | exists DELIVERED_FULLY_PAID | exists DELIVERED_PAYMENT_PENDING | inversion Hin];
    reflexivity.
Qed.

Lemma value_inj (a b : OrderStatus) : value a = value b -> a = b.
Proof. destruct a, b; intros H; try reflexivity; discriminate H. Qed.

Lemma next_values_moves_left (s t : string) :
  In t (next_values s) -> (moves_left t < moves_left s)%nat.
Proof.
  destruct (status_value_cases s) as [[st ->] | Hout].
  - destruct st; vm_compute; intros H;
      repeat (destruct H as [<- | H]; [lia |]); destruct H.
  - unfold next_values. rewrite (next_options_unknown s Hout). intros [].
Qed.

(** Following the offered next statuses always comes to an end: the
    relation "[t] is offered after [s]" has no infinite chain, so no cycle;
    every status offered is one of the five status values; and among those
    five only Delivered - Fully Paid offers nothing. *)
Theorem next_options_graph :
  well_founded (fun t s : string => In t (next_values s))
  /\ (forall s t : string, In t (next_values s) -> routers_status.is_valid t = true)
  /\ (forall st : OrderStatus,
        next_values (value st) = [] <-> st = DELIVERED_FULLY_PAID).
Proof.
  split; [| split].
  - apply (well_founded_lt_compat _ moves_left). intros t s. apply next_values_moves_left.
  - intros s t. destruct (status_value_cases s) as [[st ->] | Hout].
    + destruct st; vm_compute; intros H;
        repeat (destruct H as [<- | H]; [reflexivity |]); destruct H.
    + unfold next_values. rewrite (next_options_unknown s Hout). intros [].
  - intros st. destruct st; vm_compute; split; intros H; try reflexivity; discriminate H.
Qed.

Lemma next_options_graph_witness :
  routers_status.is_valid "Finished" = true
  /\ next_values (value DELIVERED_FULLY_PAID) = [].
Proof.
  split.
  - apply (proj1 (proj2 next_options_graph) "Started" "Finished").
    left. reflexivity.
  - apply (proj2 (proj2 next_options_graph) DELIVERED_FULLY_PAID). reflexivity.
Defined.

(** ** The workflow description *)

(** Membership in a list literal: picking the element, or refuting every
    candidate. *)
Ltac pick_In := repeat (first [left; reflexivity | right]).
Ltac absurd_In H := repeat (destruct H as [H | H]; [discriminate H |]); destruct H.

Lemma transitions_unknown (s : string) :
  s ∉ map value all_statuses ->
  py.dict_get (routers_status.transitions routers_status.get_status_workflow) s [] = [].
Proof.
  intros Hs.
  assert (Hne : forall k, k ∈ map value all_statuses -> k ≠ s).
  { intros k Hk ->. exact (Hs Hk). }
  unfold routers_status.get_status_workflow. cbn [routers_status.transitions].
  unfold py.dict. cbn [fold_left fst snd].
  repeat (rewrite dict_get_insert_ne; [| apply Hne; cbn; set_solver]).
  apply dict_get_empty.
Qed.

(** The workflow description and the next-options lookup are two tables
    that agree: for every string the [transitions] entry lists the values
    that [get_next_status_options] offers; [final_states] holds exactly the
    status values that offer nothing and [active_states] exactly those that
    offer something. *)
Theorem workflow_agrees_with_next_options :
  let w := routers_status.get_status_workflow in
  (forall s : string, py.dict_get (routers_status.transitions w) s [] = next_values s)
  /\ (forall st : OrderStatus,
        In (value st) (routers_status.final_states w) <-> next_values (value st) = [])
  /\ (forall st : OrderStatus,
        In (value st) (routers_status.active_states w) <-> next_values (value st) <> []).
Proof.
  cbv zeta. split; [| split].
  - intros s. destruct (status_value_cases s) as [[st ->] | Hout].
    + destruct st; vm_compute; reflexivity.
    + rewrite (transitions_unknown s Hout). unfold next_values.
      rewrite (next_options_unknown s Hout). reflexivity.
  - intros st. destruct st; vm_compute; split; intros H;
      solve [ reflexivity | discriminate H | left; reflexivity | absurd_In H ].
  - intros st. destruct st; vm_compute; split; intros H;
      solve [ discriminate | discriminate H | pick_In | absurd_In H
            | exfalso; apply H; reflexivity ].
Qed.

(** ** Validating a status string *)

(** [validate_status] accepts exactly the five status values.  For the
    value of a status it finds that status back and reports it final only
    for Delivered - Fully Paid and active exactly when an order in that
    status is active; for any other string it reports nothing but the
    rejection.  The workflow description disagrees on one point: it lists
    Delivered – Payment Pending among the active states. *)
Theorem validate_status_spec :
  (forall st : OrderStatus,
      routers_status.validate_status (value st)
      = routers_status.mk_validation (value st) true (map value all_statuses)
          (Some (value st))
          (Some (bool_decide (st = DELIVERED_FULLY_PAID)))
          (Some (not_delivered st)))
  /\ (forall s : string,
        s ∉ map value all_statuses ->
        routers_status.validate_status s
        = routers_status.mk_validation s false (map value all_statuses) None None None)
  /\ (In (value DELIVERED_PAYMENT_PENDING)
        (routers_status.active_states routers_status.get_status_workflow)
      /\ routers_status.validation_is_active
           (routers_status.validate_status (value DELIVERED_PAYMENT_PENDING))
         = Some false).
Proof.
  split; [| split].
  - intros st. destruct st; vm_compute; reflexivity.
  - intros s Hs. unfold routers_status.validate_status. cbv zeta.
    rewrite bool_decide_eq_false_2 by exact Hs. reflexivity.
  - split; [vm_compute; pick_In | vm_compute; reflexivity].
Qed.

Lemma validate_status_spec_witness :
  routers_status.validate_status "started"
  = routers_status.mk_validation "started" false (map value all_statuses) None None None.
Proof.
  apply (proj1 (proj2 validate_status_spec) "started").
  vm_compute. intros H.
  repeat (apply elem_of_cons in H as [H | H]; [discriminate H |]). inversion H.
Defined.

(** ** Updating a work order: what changes and what does not *)

Lemma required_ok_not_null (A : Type) (f : field A) (old a : A) :
  crud.required f old = py.Ok a -> not_null f = true.
Proof. destruct f; simpl; intros H; [reflexivity | discriminate H | reflexivity]. Qed.

Lemma required_unset (A : Type) (old : A) : crud.required Unset old = py.Ok old.
Proof. reflexivity. Qed.

Lemma setattrs_null (o : WorkOrder.t) (u : WorkOrderUpdate.t) :
  respects_not_null u = false ->
  crud.setattrs_work_order o u = py.Raise py.IntegrityError.
Proof.
  intros Hnn. unfold crud.setattrs_work_order.
  destruct (crud.required (WorkOrderUpdate.expected_delivery_date u) _) eqn:E1;
    [| reflexivity].
  destruct (crud.required (WorkOrderUpdate.status u) _) eqn:E2; [| reflexivity].
  destruct (crud.required (WorkOrderUpdate.advance_paid u) _) eqn:E3; [| reflexivity].
  destruct (crud.required (WorkOrderUpdate.total_estimate u) _) eqn:E4; [| reflexivity].
  destruct (crud.required (WorkOrderUpdate.actual_amount u) _) eqn:E5; [| reflexivity].
  destruct (crud.required (WorkOrderUpdate.due_cleared u) _) eqn:E6; [| reflexivity].
  exfalso. unfold respects_not_null in Hnn.
  rewrite (required_ok_not_null _ _ _ _ E1), (required_ok_not_null _ _ _ _ E2),
    (required_ok_not_null _ _ _ _ E3), (required_ok_not_null _ _ _ _ E4),
    (required_ok_not_null _ _ _ _ E5), (required_ok_not_null _ _ _ _ E6) in Hnn.
  discriminate Hnn.
Qed.

Lemma setattrs_ok (o : WorkOrder.t) (u : WorkOrderUpdate.t) :
  respects_not_null u = true ->
  crud.setattrs_work_order o u = py.Ok (updated_order o u).
Proof.
  intros Hnn. unfold respects_not_null in Hnn. repeat rewrite andb_true_iff in Hnn.
  destruct Hnn as [[[[[He Hst] Hadv] Hest] Hact] Hdue].
  unfold crud.setattrs_work_order, updated_order.
  rewrite (required_not_null _ _ _ He), (required_not_null _ _ _ Hst),
    (required_not_null _ _ _ Hadv), (required_not_null _ _ _ Hest),
    (required_not_null _ _ _ Hact), (required_not_null _ _ _ Hdue).
  reflexivity.
Qed.

Lemma map_replace_ids (o' : WorkOrder.t) (l : list WorkOrder.t) :
  map WorkOrder.id
    (map (fun x => if WorkOrder.id x =? WorkOrder.id o' then o' else x) l)
  = map WorkOrder.id l.
Proof.
  induction l as [| x l IH]; simpl; [reflexivity |].
  rewrite IH. destruct (WorkOrder.id x =? WorkOrder.id o') eqn:E; [| reflexivity].
  apply Z.eqb_eq in E. congruence.
Qed.

Lemma map_replace_other (o' x : WorkOrder.t) (l : list WorkOrder.t) :
  In x l -> WorkOrder.id x <> WorkOrder.id o' ->
  In x (map (fun y => if WorkOrder.id y =? WorkOrder.id o' then o' else y) l).
Proof.
  intros Hin Hne. apply in_map_iff. exists x. split; [| exact Hin].
  apply Z.eqb_neq in Hne. rewrite Hne. reflexivity.
Qed.

(** An update of an existing order gives every supplied column the supplied
    value.  Of the columns carried here, which are all but [updated_at], the
    order keeps its id, client, order date and creation time and every
    column the request leaves out.  The column [updated_at], which the
    database stamps by itself when it writes the row, is not covered.  The
    clients, the ids in the order table and every other order stay as they
    were; an update that supplies nothing returns the order unchanged. *)
Theorem update_work_order_supplied_columns (st : Store.t) (order_id : Z)
    (o : WorkOrder.t) (u : WorkOrderUpdate.t) :
  crud.get_work_order st order_id = Some o ->
  respects_not_null u = true ->
  exists st' : Store.t,
    crud.update_work_order order_id u st = (st', py.Ok (Some (updated_order o u)))
    /\ (WorkOrder.id (updated_order o u) = WorkOrder.id o
        /\ WorkOrder.client_id (updated_order o u) = WorkOrder.client_id o
        /\ WorkOrder.order_date (updated_order o u) = WorkOrder.order_date o
        /\ WorkOrder.created_at (updated_order o u) = WorkOrder.created_at o)
    /\ Store.clients st' = Store.clients st
    /\ map WorkOrder.id (Store.work_orders st') = map WorkOrder.id (Store.work_orders st)
    /\ (forall x, In x (Store.work_orders st) -> WorkOrder.id x <> order_id ->
                  In x (Store.work_orders st'))
    /\ (forall x, In x (Store.work_orders st') ->
                  In x (Store.work_orders st) \/ x = updated_order o u)
    /\ updated_order o empty_update = o.
Proof.
  intros Hget Hnn.
  pose proof (find_id _ _ _ Hget) as Hid.
  unfold crud.update_work_order, db.bind, db.query, db.lift, db.ret, db.replace_work_order.
  rewrite Hget, (setattrs_ok o u Hnn).
  eexists. split; [reflexivity |]. cbn [Store.clients Store.work_orders].
  split; [repeat split |].
  split; [reflexivity |]. split; [apply map_replace_ids |].
  split; [| split].
  - intros x Hx Hne. apply map_replace_other; [exact Hx |].
    cbn [updated_order WorkOrder.id]. congruence.
  - intros x Hx. apply in_map_iff in Hx as (y & Hy & Hin).
    destruct (WorkOrder.id y =? WorkOrder.id (updated_order o u)).
    + right. symmetry. exact Hy.
    + left. subst x. exact Hin.
  - destruct o. reflexivity.
Qed.

Lemma update_work_order_supplied_columns_witness :
  exists st' : Store.t,
    crud.update_work_order 1 update_to_order_placed store
    = (st', py.Ok (Some (updated_order order_delivered update_to_order_placed)))
    /\ Store.clients st' = Store.clients store
    /\ In order_blouse (Store.work_orders st')
    /\ WorkOrder.advance_paid (updated_order order_delivered update_to_order_placed)
       = WorkOrder.advance_paid order_delivered.
Proof.
  destruct (update_work_order_supplied_columns store 1 order_delivered
              update_to_order_placed eq_refl eq_refl)
    as (st' & Hrun & _ & Hclients & _ & Hothers & _).
  exists st'. split; [exact Hrun |]. split; [exact Hclients |].
  split; [| reflexivity].
  apply Hothers; [right; left; reflexivity | discriminate].
Defined.

(** An update fails cleanly.  For an id that matches no order the CRUD
    function returns nothing and the route answers not found; an explicit
    null for a column that cannot be null is rejected when the change is
    committed.  In each case the store is left as it was. *)
Theorem update_work_order_failures (st : Store.t) (order_id : Z) (u : WorkOrderUpdate.t) :
  (crud.get_work_order st order_id = None ->
     crud.update_work_order order_id u st = (st, py.Ok None)
     /\ routers_work_orders.update_work_order order_id u st = (st, py.Raise NotFound))
  /\ (forall o : WorkOrder.t,
        crud.get_work_order st order_id = Some o ->
        respects_not_null u = false ->
        crud.update_work_order order_id u st = (st, py.Raise py.IntegrityError)
        /\ routers_work_orders.update_work_order order_id u st
           = (st, py.Raise py.IntegrityError)).
Proof.
  split.
  - intros Hnone.
    assert (H : crud.update_work_order order_id u st = (st, py.Ok None)).
    { unfold crud.update_work_order, db.bind, db.query, db.ret. rewrite Hnone. reflexivity. }
    split; [exact H |].
    unfold routers_work_orders.update_work_order, db.bind. rewrite H. reflexivity.
  - intros o Hget Hnn.
    assert (H : crud.update_work_order order_id u st = (st, py.Raise py.IntegrityError)).
    { unfold crud.update_work_order, db.bind, db.query, db.lift. rewrite Hget.
      rewrite (setattrs_null o u Hnn). reflexivity. }
    split; [exact H |].
    unfold routers_work_orders.update_work_order, db.bind. rewrite H. reflexivity.
Qed.

Lemma update_work_order_failures_witness :
  routers_work_orders.update_work_order 77 update_to_order_placed store
  = (store, py.Raise NotFound)
  /\ crud.update_work_order 1 update_status_null store
     = (store, py.Raise py.IntegrityError).
Proof.
  split.
  - apply (proj1 (update_work_order_failures store 77 update_to_order_placed)).
    reflexivity.
  - apply (proj2 (update_work_order_failures store 1 update_status_null) order_delivered);
      reflexivity.
Defined.

(** ** Deleting a work order *)

Lemma find_filter_out (l : list WorkOrder.t) (k : Z) :
  List.find (fun x => WorkOrder.id x =? k)
    (List.filter (fun x => negb (WorkOrder.id x =? k)) l) = None.
Proof.
  induction l as [| x l IH]; simpl; [reflexivity |].
  destruct (WorkOrder.id x =? k) eqn:E; simpl; [exact IH |].
  rewrite E. exact IH.
Qed.

(** Deleting an existing order removes the rows with that id and nothing
    else: the order can no longer be fetched, the other orders and all
    clients remain.  For an id that matches no order the CRUD function
    reports [false], the route answers not found, and the store is left as
    it was. *)
Theorem delete_work_order_spec (st : Store.t) (order_id : Z) :
  (forall o : WorkOrder.t,
      crud.get_work_order st order_id = Some o ->
      exists st' : Store.t,
        crud.delete_work_order order_id st = (st', py.Ok true)
        /\ crud.get_work_order st' order_id = None
        /\ Store.clients st' = Store.clients st
        /\ (forall x, In x (Store.work_orders st')
                      <-> In x (Store.work_orders st) /\ WorkOrder.id x <> order_id))
  /\ (crud.get_work_order st order_id = None ->
      crud.delete_work_order order_id st = (st, py.Ok false)
      /\ routers_work_orders.delete_work_order order_id st = (st, py.Raise NotFound)).
Proof.
  split.
  - intros o Hget. pose proof (find_id _ _ _ Hget) as Hid.
    unfold crud.delete_work_order, db.bind, db.query, db.ret, db.delete_work_order_row.
    rewrite Hget. rewrite Hid. eexists. split; [reflexivity |].
    unfold crud.get_work_order. cbn [Store.clients Store.work_orders].
    split; [apply find_filter_out |]. split; [reflexivity |].
    intros x. rewrite filter_In, negb_true_iff, Z.eqb_neq. reflexivity.
  - intros Hnone.
    assert (H : crud.delete_work_order order_id st = (st, py.Ok false)).
    { unfold crud.delete_work_order, db.bind, db.query, db.ret. rewrite Hnone. reflexivity. }
    split; [exact H |].
    unfold routers_work_orders.delete_work_order, db.bind. rewrite H. reflexivity.
Qed.

Lemma delete_work_order_spec_witness :
  (exists st' : Store.t,
      crud.delete_work_order 2 store = (st', py.Ok true)
      /\ crud.get_work_order st' 2 = None
      /\ In order_delivered (Store.work_orders st'))
  /\ routers_work_orders.delete_work_order 77 store = (store, py.Raise NotFound).
Proof.
  split.
  - destruct (proj1 (delete_work_order_spec store 2) order_blouse eq_refl)
      as (st' & Hrun & Hgone & _ & Hrest).
    exists st'. split; [exact Hrun |]. split; [exact Hgone |].
    apply Hrest. split; [left; reflexivity | discriminate].
  - apply (proj2 (delete_work_order_spec store 77)). reflexivity.
Defined.

(** ** Creating a work order for a known client, or without a client id *)

(** With the id of an existing client, [create_work_order] appends one order
    for that client and returns it; the order gets an id larger than every
    id in use, the clock reading as order date and creation time, no actual
    delivery date, and the status the request asks for, whatever it is.
    The client table is not touched and the client details in the request
    are not looked at. *)
Theorem create_work_order_existing_client (now : Z) (st : Store.t)
    (w : WorkOrderCreate.t) (cid : Z) (c : Client.t) :
  WorkOrderCreate.client_id w = Some cid ->
  cid <> 0 ->
  crud.get_client st cid = Some c ->
  let o := inserted_order now w st cid in
  crud.create_work_order now w st
  = (Store.mk (Store.clients st) (Store.work_orders st ++ [o]), py.Ok (Some o))
  /\ (forall x, In x (Store.work_orders st) -> WorkOrder.id x < WorkOrder.id o)
  /\ WorkOrder.client_id o = Client.id c
  /\ WorkOrder.status o = WorkOrderCreate.status w
  /\ WorkOrder.order_date o = now
  /\ WorkOrder.actual_delivery_date o = None.
Proof.
  intros Hcid Hnz Hc o.
  split; [| split; [| split; [| repeat split]]].
  - unfold crud.create_work_order. cbv zeta. rewrite Hcid.
    apply Z.eqb_neq in Hnz. rewrite Hnz.
    unfold db.bind at 1. unfold db.bind at 1. unfold db.query at 1. rewrite Hc.
    unfold db.ret at 1. rewrite insert_then_get. reflexivity.
  - intros x Hx. subst o. cbn [inserted_order WorkOrder.id].
    apply next_id_gt. apply in_map. exact Hx.
  - subst o. cbn [inserted_order WorkOrder.client_id]. apply find_some in Hc as [_ Hc].
    apply Z.eqb_eq in Hc. congruence.
Qed.

Lemma create_work_order_existing_client_witness :
  crud.create_work_order 7 order_for_client_1 store
  = (Store.mk (Store.clients store)
       (Store.work_orders store ++ [inserted_order 7 order_for_client_1 store 1]),
     py.Ok (Some (inserted_order 7 order_for_client_1 store 1)))
  /\ WorkOrder.id (inserted_order 7 order_for_client_1 store 1) = 3
  /\ WorkOrder.status (inserted_order 7 order_for_client_1 store 1) = FINISHED.
Proof.
  destruct (create_work_order_existing_client 7 store order_for_client_1 1 client_priya
              eq_refl ltac:(discriminate) eq_refl) as (Hrun & _ & _ & Hstatus & _).
  split; [exact Hrun |]. split; [reflexivity | exact Hstatus].
Defined.

(** Without a client id (absent, or 0, which the code treats alike) and
    with a valid name and mobile number, [create_work_order] attaches the
    order to the stored client with that mobile number, whose name and other
    details it leaves as they are, and creates a client only when no client
    has the number. *)
Theorem create_work_order_by_mobile (now : Z) (st : Store.t) (w : WorkOrderCreate.t)
    (n m : string) :
  WorkOrderCreate.client_id w = None \/ WorkOrderCreate.client_id w = Some 0 ->
  WorkOrderCreate.client_name w = Some n ->
  WorkOrderCreate.client_mobile w = Some m ->
  name_ok n = true ->
  mobile_ok m = true ->
  opt_max_length 500 (WorkOrderCreate.client_address w) = true ->
  let c := resolved_client now w st n m in
  let o := inserted_order now w st (Client.id c) in
  crud.create_work_order now w st
  = (Store.mk (resolved_clients now w st n m) (Store.work_orders st ++ [o]),
     py.Ok (Some o))
  /\ (forall c0 : Client.t,
        crud.get_client_by_mobile st m = Some c0 ->
        c = c0 /\ resolved_clients now w st n m = Store.clients st)
  /\ (crud.get_client_by_mobile st m = None ->
        resolved_clients now w st n m = (Store.clients st ++ [c])%list
        /\ Client.name c = n /\ Client.mobile_number c = m
        /\ forall x, In x (Store.clients st) -> Client.id x < Client.id c).
Proof.
  intros Hcid Hn Hm Hname Hmobile Haddr c o. split; [| split].
  - unfold crud.create_work_order. cbv zeta. rewrite Hn, Hm.
    unfold db.bind at 1.
    destruct Hcid as [Hcid | Hcid]; rewrite Hcid; [| change (0 =? 0) with true; cbv iota];
      rewrite (resolve_client_by_mobile now w st n m Hname Hmobile Haddr);
      rewrite insert_then_get; reflexivity.
  - intros c0 Hc0. subst c. unfold resolved_clients, resolved_client.
    rewrite Hc0. split; reflexivity.
  - intros Hnone. subst c. unfold resolved_clients, resolved_client.
    rewrite Hnone. repeat split.
    intros x Hx. cbn [Client.id]. apply next_id_gt, in_map. exact Hx.
Qed.

Lemma create_work_order_by_mobile_witness :
  exists o : WorkOrder.t,
    crud.create_work_order 7 order_by_mobile_only store
    = (Store.mk (Store.clients store) (Store.work_orders store ++ [o]), py.Ok (Some o))
    /\ WorkOrder.client_id o = Client.id client_priya.
Proof.
  destruct (create_work_order_by_mobile 7 store order_by_mobile_only
              "Priya S" "9876543210" (or_introl eq_refl) eq_refl eq_refl
              eq_refl eq_refl eq_refl) as (Hrun & _ & _).
  eexists. split; [exact Hrun | reflexivity].
Defined.

(** ** The integrity of the store is kept by every operation *)

Section Hoare.

Context {A B : Type}.

Lemma hoare_ret (P : Store.t -> Prop) (a : A) (Q : A -> Store.t -> Prop)
    (E : Store.t -> Prop) :
  (forall st, P st -> Q a st) -> hoare P (db.ret a) Q E.
Proof. intros H st HP. apply H, HP. Qed.

Lemma hoare_raise (P : Store.t -> Prop) (e : py.exn) (Q : A -> Store.t -> Prop)
    (E : Store.t -> Prop) :
  (forall st, P st -> E st) -> hoare P (@db.raise A e) Q E.
Proof. intros H st HP. apply H, HP. Qed.

Lemma hoare_query (P : Store.t -> Prop) (q : Store.t -> A) (Q : A -> Store.t -> Prop)
    (E : Store.t -> Prop) :
  (forall st, P st -> Q (q st) st) -> hoare P (db.query q) Q E.
Proof. intros H st HP. apply H, HP. Qed.

Lemma hoare_lift (P : Store.t -> Prop) (r : py.result A) (Q : A -> Store.t -> Prop)
    (E : Store.t -> Prop) :
  (forall st a, P st -> r = py.Ok a -> Q a st) ->
  (forall st, P st -> E st) ->
  hoare P (db.lift r) Q E.
Proof.
  intros HQ HE st HP. unfold db.lift. destruct r as [a | e].
  - apply HQ; [exact HP | reflexivity].
  - apply HE, HP.
Qed.

Lemma hoare_bind (P : Store.t -> Prop) (m : db.M A) (k : A -> db.M B)
    (R : A -> Store.t -> Prop) (Q : B -> Store.t -> Prop) (E : Store.t -> Prop) :
  hoare P m R E -> (forall a, hoare (R a) (k a) Q E) -> hoare P (db.bind m k) Q E.
Proof.
  intros Hm Hk st HP. unfold db.bind. specialize (Hm st HP).
  destruct (m st) as [st1 [a | e]]; [apply (Hk a st1 Hm) | exact Hm].
Qed.

Lemma hoare_weaken (P P' : Store.t -> Prop) (m : db.M A) (Q Q' : A -> Store.t -> Prop)
    (E : Store.t -> Prop) :
  hoare P' m Q' E -> (forall st, P st -> P' st) -> (forall a st, Q' a st -> Q a st) ->
  hoare P m Q E.
Proof.
  intros H HP HQ st Hst. specialize (H st (HP st Hst)).
  destruct (m st) as [st1 [a | e]]; [apply HQ, H | exact H].
Qed.

End Hoare.

Lemma NoDup_map_filter (A K : Type) (f : A -> K) (p : A -> bool) (l : list A) :
  NoDup (map f l) -> NoDup (map f (List.filter p l)).
Proof.
  induction l as [| x l IH]; simpl; intros Hnd; [exact Hnd |].
  apply NoDup_cons in Hnd as [Hx Hl].
  destruct (p x); simpl; [| apply IH, Hl].
  apply NoDup_cons. split; [| apply IH, Hl].
  intros Hin. apply Hx. apply list_elem_of_In in Hin. apply list_elem_of_In.
  apply in_map_iff in Hin as (y & Hy & Hin). apply filter_In in Hin as [Hin _].
  apply in_map_iff. exists y. split; assumption.
Qed.

Lemma NoDup_map_snoc (A K : Type) (f : A -> K) (l : list A) (x : A) :
  NoDup (map f l) -> (forall y, In y l -> f y <> f x) -> NoDup (map f (l ++ [x])).
Proof.
  intros Hnd Hne. rewrite map_app. apply NoDup_app. split; [exact Hnd |].
  split; [| apply NoDup_singleton].
  intros k Hk Hk'. apply list_elem_of_In in Hk. apply in_map_iff in Hk as (y & <- & Hy).
  apply list_elem_of_singleton in Hk'. exact (Hne y Hy Hk').
Qed.

Lemma existsb_false_forall (A : Type) (p : A -> bool) (l : list A) (x : A) :
  existsb p l = false -> In x l -> p x = false.
Proof.
  intros H Hx. destruct (p x) eqn:E; [| reflexivity].
  assert (existsb p l = true) by (apply existsb_exists; exists x; split; assumption).
  congruence.
Qed.

Lemma insert_client_keeps_wf (now : Z) (n m : string) (e a : option string) :
  hoare wf (db.insert_client now n m e a)
    (fun c st' => wf st' /\ In c (Store.clients st') /\ Client.mobile_number c = m) wf.
Proof.
  intros st Hwf. unfold db.insert_client.
  destruct (existsb _ (Store.clients st)) eqn:Hex; [exact Hwf |].
  destruct Hwf as [Hids Hmob Hoids Hrefs].
  split; [| split; [apply in_or_app; right; left; reflexivity | reflexivity]].
  constructor; cbn [Store.clients Store.work_orders].
  - apply NoDup_map_snoc; [exact Hids |]. intros y Hy. cbn [Client.id].
    pose proof (next_id_gt _ _ (in_map Client.id _ _ Hy)). lia.
  - apply NoDup_map_snoc; [exact Hmob |]. intros y Hy. cbn [Client.mobile_number].
    pose proof (existsb_false_forall _ _ _ y Hex Hy) as Hne. cbn beta in Hne.
    apply String.eqb_neq. exact Hne.
  - exact Hoids.
  - intros o Ho. destruct (Hrefs o Ho) as (c & Hc & Hid).
    exists c. split; [apply in_or_app; left; exact Hc | exact Hid].
Qed.

Lemma insert_work_order_keeps_wf (now cid e : Z) (d n : option string) (s : OrderStatus)
    (adv est act : Q) (due : bool) :
  hoare (fun st => wf st /\ exists c, In c (Store.clients st) /\ Client.id c = cid)
    (db.insert_work_order now cid e d n s adv est act due) (fun _ => wf) wf.
Proof.
  intros st [[Hids Hmob Hoids Hrefs] Hc]. unfold db.insert_work_order.
  constructor; cbn [Store.clients Store.work_orders]; try assumption.
  - apply NoDup_map_snoc; [exact Hoids |]. intros y Hy. cbn [WorkOrder.id].
    pose proof (next_id_gt _ _ (in_map WorkOrder.id _ _ Hy)). lia.
  - intros o Ho. apply in_app_or in Ho as [Ho | [<- | []]]; [apply Hrefs, Ho | exact Hc].
Qed.

Lemma replace_work_order_keeps_wf (o' : WorkOrder.t) :
  hoare (fun st => wf st /\ exists c, In c (Store.clients st)
                                      /\ Client.id c = WorkOrder.client_id o')
    (db.replace_work_order o') (fun _ => wf) wf.
Proof.
  intros st [[Hids Hmob Hoids Hrefs] Hc]. unfold db.replace_work_order.
  constructor; cbn [Store.clients Store.work_orders]; try assumption.
  - rewrite map_replace_ids. exact Hoids.
  - intros o Ho. apply in_map_iff in Ho as (y & Hy & Hin).
    destruct (WorkOrder.id y =? WorkOrder.id o'); subst o; [exact Hc | apply Hrefs, Hin].
Qed.

Lemma delete_work_order_row_keeps_wf (o : WorkOrder.t) :
  hoare wf (db.delete_work_order_row o) (fun _ => wf) wf.
Proof.
  intros st [Hids Hmob Hoids Hrefs]. unfold db.delete_work_order_row.
  constructor; cbn [Store.clients Store.work_orders]; try assumption.
  - apply NoDup_map_filter, Hoids.
  - intros x Hx. apply filter_In in Hx as [Hx _]. apply Hrefs, Hx.
Qed.

Lemma delete_client_row_keeps_wf (c : Client.t) :
  hoare wf (db.delete_client_row c) (fun _ => wf) wf.
Proof.
  intros st Hwf. unfold db.delete_client_row.
  destruct (List.filter _ (Store.work_orders st)) eqn:Hf; [| exact Hwf].
  destruct Hwf as [Hids Hmob Hoids Hrefs].
  constructor; cbn [Store.clients Store.work_orders]; try assumption.
  - apply NoDup_map_filter, Hids.
  - apply NoDup_map_filter, Hmob.
  - intros o Ho. destruct (Hrefs o Ho) as (c0 & Hc0 & Hid).
    exists c0. split; [| exact Hid]. apply filter_In. split; [exact Hc0 |].
    apply negb_true_iff, Z.eqb_neq. intros Heq.
    assert (Hin : In o (List.filter (fun o => WorkOrder.client_id o =? Client.id c)
                           (Store.work_orders st))).
    { apply filter_In. split; [exact Ho |]. apply Z.eqb_eq. congruence. }
    rewrite Hf in Hin. destruct Hin.
Qed.

Lemma map_replace_client_ids (c' : Client.t) (l : list Client.t) :
  map Client.id (map (fun x => if Client.id x =? Client.id c' then c' else x) l)
  = map Client.id l.
Proof.
  induction l as [| x l IH]; simpl; [reflexivity |].
  rewrite IH. destruct (Client.id x =? Client.id c') eqn:E; [| reflexivity].
  apply Z.eqb_eq in E. congruence.
Qed.

Lemma map_replace_client_absent (c' : Client.t) (l : list Client.t) :
  (forall x, In x l -> Client.id x <> Client.id c') ->
  map (fun x => if Client.id x =? Client.id c' then c' else x) l = l.
Proof.
  induction l as [| x l IH]; simpl; intros H; [reflexivity |].
  rewrite IH by (intros y Hy; apply H; right; exact Hy).
  pose proof (H x (or_introl eq_refl)) as Hx. apply Z.eqb_neq in Hx. rewrite Hx.
  reflexivity.
Qed.

Lemma replace_client_mobiles (c' : Client.t) (l : list Client.t) :
  NoDup (map Client.id l) ->
  NoDup (map Client.mobile_number l) ->
  (forall x, In x l -> Client.id x <> Client.id c' ->
             Client.mobile_number x <> Client.mobile_number c') ->
  NoDup (map Client.mobile_number
           (map (fun x => if Client.id x =? Client.id c' then c' else x) l)).
Proof.
  induction l as [| x l IH]; simpl; intros Hids Hmob Hother; [constructor |].
  apply NoDup_cons in Hids as [Hx Hids]. apply NoDup_cons in Hmob as [Hmx Hmob].
  destruct (Client.id x =? Client.id c') eqn:E.
  - apply Z.eqb_eq in E.
    assert (Habs : forall y, In y l -> Client.id y <> Client.id c').
    { intros y Hy Heq. apply Hx. apply list_elem_of_In, in_map_iff.
      exists y. split; [congruence | exact Hy]. }
    rewrite (map_replace_client_absent c' l Habs).
    apply NoDup_cons. split; [| exact Hmob].
    intros Hin. apply list_elem_of_In, in_map_iff in Hin as (y & Hy & Hin).
    apply (Hother y (or_intror Hin) (Habs y Hin)). exact Hy.
  - apply Z.eqb_neq in E. apply NoDup_cons. split.
    + intros Hin. apply list_elem_of_In, in_map_iff in Hin as (y & Hy & Hin).
      apply in_map_iff in Hin as (z & Hz & Hin).
      destruct (Client.id z =? Client.id c'); subst y.
      * apply (Hother x (or_introl eq_refl) E). symmetry. exact Hy.
      * apply Hmx. apply list_elem_of_In, in_map_iff. exists z. split; assumption.
    + apply IH; [exact Hids | exact Hmob |].
      intros y Hy. apply Hother. right. exact Hy.
Qed.

Lemma replace_client_keeps_wf (c' : Client.t) :
  hoare wf (db.replace_client c') (fun _ => wf) wf.
Proof.
  intros st Hwf. unfold db.replace_client.
  destruct (existsb _ (Store.clients st)) eqn:Hex; [exact Hwf |].
  destruct Hwf as [Hids Hmob Hoids Hrefs].
  constructor; cbn [Store.clients Store.work_orders]; try assumption.
  - rewrite map_replace_client_ids. exact Hids.
  - apply replace_client_mobiles; [exact Hids | exact Hmob |].
    intros x Hx Hne Heq.
    pose proof (existsb_false_forall _ _ _ x Hex Hx) as H. cbn beta in H.
    apply Z.eqb_neq in Hne. rewrite Hne in H. cbn [negb andb] in H.
    apply String.eqb_neq in H. exact (H Heq).
  - intros o Ho. destruct (Hrefs o Ho) as (c & Hc & Hid).
    exists (if Client.id c =? Client.id c' then c' else c). split.
    + apply in_map_iff. exists c. split; [reflexivity | exact Hc].
    + destruct (Client.id c =? Client.id c') eqn:E; [| exact Hid].
      apply Z.eqb_eq in E. congruence.
Qed.

Section KeepsWf.

Context {A B : Type}.

Lemma keeps_ret (a : A) : keeps_wf (db.ret a).
Proof. apply hoare_ret. intros st H. exact H. Qed.

Lemma keeps_raise (e : py.exn) : keeps_wf (@db.raise A e).
Proof. apply hoare_raise. intros st H. exact H. Qed.

Lemma keeps_query (q : Store.t -> A) : keeps_wf (db.query q).
Proof. apply hoare_query. intros st H. exact H. Qed.

Lemma keeps_lift (r : py.result A) : keeps_wf (db.lift r).
Proof. apply hoare_lift; intros; assumption. Qed.

Lemma keeps_bind (m : db.M A) (k : A -> db.M B) :
  keeps_wf m -> (forall a, keeps_wf (k a)) -> keeps_wf (db.bind m k).
Proof. intros Hm Hk. eapply hoare_bind; [exact Hm | exact Hk]. Qed.

Lemma keeps_run (m : db.M A) (st st' : Store.t) (r : py.result A) :
  keeps_wf m -> wf st -> m st = (st', r) -> wf st'.
Proof.
  intros Hm Hwf Hrun. specialize (Hm st Hwf). rewrite Hrun in Hm.
  destruct r; exact Hm.
Qed.

End KeepsWf.

(** Splits an operation along its binds and branches. *)
Ltac keeps_step :=
  first
    [ apply keeps_ret | apply keeps_raise | apply keeps_query | apply keeps_lift
    | apply keeps_bind; [| intros ?]
    | match goal with
      | |- keeps_wf (match ?x with _ => _ end) => destruct x
      end ].

Lemma create_client_keeps_wf (now : Z) (client : ClientCreate.t) :
  keeps_wf (crud.create_client now client).
Proof.
  unfold crud.create_client. eapply hoare_weaken; [apply insert_client_keeps_wf | |].
  - intros st H. exact H.
  - intros c st [H _]. exact H.
Qed.

Lemma update_client_keeps_wf (client_id : Z) (u : ClientUpdate.t) :
  keeps_wf (crud.update_client client_id u).
Proof.
  unfold crud.update_client. repeat keeps_step. apply replace_client_keeps_wf.
Qed.

Lemma delete_client_keeps_wf (client_id : Z) : keeps_wf (crud.delete_client client_id).
Proof.
  unfold crud.delete_client. repeat keeps_step. apply delete_client_row_keeps_wf.
Qed.

Lemma delete_work_order_keeps_wf (order_id : Z) :
  keeps_wf (crud.delete_work_order order_id).
Proof.
  unfold crud.delete_work_order. repeat keeps_step. apply delete_work_order_row_keeps_wf.
Qed.

Lemma setattrs_client_id (o o' : WorkOrder.t) (u : WorkOrderUpdate.t) :
  crud.setattrs_work_order o u = py.Ok o' ->
  WorkOrder.client_id o' = WorkOrder.client_id o.
Proof.
  unfold crud.setattrs_work_order.
  destruct (crud.required (WorkOrderUpdate.expected_delivery_date u) _); [| discriminate].
  destruct (crud.required (WorkOrderUpdate.status u) _); [| discriminate].
  destruct (crud.required (WorkOrderUpdate.advance_paid u) _); [| discriminate].
  destruct (crud.required (WorkOrderUpdate.total_estimate u) _); [| discriminate].
  destruct (crud.required (WorkOrderUpdate.actual_amount u) _); [| discriminate].
  destruct (crud.required (WorkOrderUpdate.due_cleared u) _); [| discriminate].
  intros [= <-]. reflexivity.
Qed.

Lemma update_work_order_keeps_wf (order_id : Z) (u : WorkOrderUpdate.t) :
  keeps_wf (crud.update_work_order order_id u).
Proof.
  unfold crud.update_work_order.
  apply (hoare_bind _ _ _
           (fun r st => wf st /\ r = crud.get_work_order st order_id)).
  { apply hoare_query. intros st H. split; [exact H | reflexivity]. }
  intros [o |]; [| apply hoare_ret; intros st [H _]; exact H].
  apply (hoare_bind _ _ _
           (fun o' st => wf st /\ exists c, In c (Store.clients st)
                                            /\ Client.id c = WorkOrder.client_id o')).
  { apply hoare_lift; [| intros st [H _]; exact H].
    intros st o' [Hwf Hget] Hset. split; [exact Hwf |].
    rewrite (setattrs_client_id o o' u Hset).
    symmetry in Hget. apply find_some in Hget as [Hin _].
    apply (orders_have_clients st Hwf o Hin). }
  intros o'. eapply hoare_bind; [apply replace_work_order_keeps_wf |].
  intros ?. apply keeps_ret.
Qed.

Lemma resolve_client_keeps_wf (now : Z) (n m e a : option string) :
  hoare wf
    (db.bind (db.lift (ClientCreate.new n m e a))
       (fun client_data =>
          db.bind
            (db.query (fun st =>
               crud.get_client_by_mobile st (ClientCreate.mobile_number client_data)))
            (fun existing =>
               match existing with
               | Some c => db.ret (Client.id c)
               | None =>
                   db.bind (crud.create_client now client_data)
                     (fun new_client => db.ret (Client.id new_client))
               end)))
    client_known wf.
Proof.
  apply (hoare_bind _ _ _ (fun _ => wf)); [apply keeps_lift |].
  intros client_data.
  apply (hoare_bind _ _ _
           (fun existing st =>
              wf st /\ existing = crud.get_client_by_mobile st
                                    (ClientCreate.mobile_number client_data))).
  { apply hoare_query. intros st H. split; [exact H | reflexivity]. }
  intros [c |].
  - apply hoare_ret. intros st [Hwf Hfind]. split; [exact Hwf |].
    symmetry in Hfind. apply find_some in Hfind as [Hin _].
    exists c. split; [exact Hin | reflexivity].
  - apply (hoare_bind _ _ _
             (fun c st => wf st /\ In c (Store.clients st)
                          /\ Client.mobile_number c = ClientCreate.mobile_number client_data)).
    + eapply hoare_weaken; [apply insert_client_keeps_wf | |].
      * intros st [H _]. exact H.
      * intros c st H. exact H.
    + intros c. apply hoare_ret. intros st (Hwf & Hin & _). split; [exact Hwf |].
      exists c. split; [exact Hin | reflexivity].
Qed.

Lemma create_work_order_keeps_wf (now : Z) (w : WorkOrderCreate.t) :
  keeps_wf (crud.create_work_order now w).
Proof.
  unfold crud.create_work_order. cbv zeta.
  apply (hoare_bind _ _ _ client_known).
  - destruct (WorkOrderCreate.client_id w) as [cid |];
      [destruct (cid =? 0) |]; try apply resolve_client_keeps_wf.
    apply (hoare_bind _ _ _
             (fun existing st => wf st /\ existing = crud.get_client st cid)).
    { apply hoare_query. intros st H. split; [exact H | reflexivity]. }
    intros [c |].
    + apply hoare_ret. intros st [Hwf Hfind]. split; [exact Hwf |].
      symmetry in Hfind. apply find_some in Hfind as [Hin Hid].
      exists c. split; [exact Hin | apply Z.eqb_eq, Hid].
    + destruct (py.truthy_str _ && py.truthy_str _).
      * eapply hoare_weaken; [apply resolve_client_keeps_wf | | intros ? ? H; exact H].
        intros st [H _]. exact H.
      * apply hoare_raise. intros st [H _]. exact H.
  - intros cid. eapply hoare_bind; [apply insert_work_order_keeps_wf |].
    intros o. apply keeps_query.
Qed.

Lemma router_create_client_keeps_wf (now : Z) (client : ClientCreate.t) :
  keeps_wf (routers_clients.create_client now client).
Proof.
  unfold routers_clients.create_client. repeat keeps_step. apply create_client_keeps_wf.
Qed.

Lemma router_update_client_keeps_wf (client_id : Z) (u : ClientUpdate.t) :
  keeps_wf (routers_clients.update_client client_id u).
Proof.
  unfold routers_clients.update_client.
  apply keeps_bind; [| intros ?; apply keeps_bind; [apply update_client_keeps_wf |]].
  - destruct (ClientUpdate.mobile_number u) as [| | m]; try apply keeps_ret.
    destruct (String.eqb m ""); [apply keeps_ret |].
    apply keeps_bind; [apply keeps_query |]. intros [c |]; [| apply keeps_ret].
    destruct (negb _); [apply keeps_raise | apply keeps_ret].
  - intros [c |]; [apply keeps_ret | apply keeps_raise].
Qed.

Lemma router_delete_client_keeps_wf (client_id : Z) :
  keeps_wf (routers_clients.delete_client client_id).
Proof.
  unfold routers_clients.delete_client.
  apply keeps_bind; [apply delete_client_keeps_wf |].
  intros [|]; [apply keeps_ret | apply keeps_raise].
Qed.

Lemma store_wf : wf store.
Proof.
  constructor.
  - apply (bool_decide_unpack _). vm_compute. exact I.
  - apply (bool_decide_unpack _). vm_compute. exact I.
  - apply (bool_decide_unpack _). vm_compute. exact I.
  - intros o [<- | [<- | []]].
    + exists client_priya. split; [left; reflexivity | reflexivity].
    + exists client_saree_house. split; [right; left; reflexivity | reflexivity].
Qed.

(** Every client operation keeps the integrity of the store: ids and
    mobile numbers stay distinct and no order loses its client, whether the
    operation returns or raises. *)
Theorem client_operations_keep_integrity (st : Store.t) :
  wf st ->
  (forall now client st' r,
      routers_clients.create_client now client st = (st', r) -> wf st')
  /\ (forall now client st' r, crud.create_client now client st = (st', r) -> wf st')
  /\ (forall client_id u st' r,
        routers_clients.update_client client_id u st = (st', r) -> wf st')
  /\ (forall client_id u st' r, crud.update_client client_id u st = (st', r) -> wf st')
  /\ (forall client_id st' r,
        routers_clients.delete_client client_id st = (st', r) -> wf st')
  /\ (forall client_id st' r, crud.delete_client client_id st = (st', r) -> wf st').
Proof.
  intros Hwf. repeat apply conj; intros.
  - eapply keeps_run; [apply router_create_client_keeps_wf | exact Hwf | eassumption].
  - eapply keeps_run; [apply create_client_keeps_wf | exact Hwf | eassumption].
  - eapply keeps_run; [apply router_update_client_keeps_wf | exact Hwf | eassumption].
  - eapply keeps_run; [apply update_client_keeps_wf | exact Hwf | eassumption].
  - eapply keeps_run; [apply router_delete_client_keeps_wf | exact Hwf | eassumption].
  - eapply keeps_run; [apply delete_client_keeps_wf | exact Hwf | eassumption].
Qed.

Lemma client_operations_keep_integrity_witness :
  wf (fst (crud.create_client 7 (ClientCreate.mk "Meera Iyer" "9000000001" None None) store))
  /\ wf (fst (crud.update_client 2 change_mobile_to_priyas store)).
Proof.
  destruct (client_operations_keep_integrity store store_wf)
    as (_ & Hcreate & _ & Hupdate & _).
  split.
  - eapply Hcreate. apply surjective_pairing.
  - eapply Hupdate. apply surjective_pairing.
Defined.

Lemma router_create_work_order_keeps_wf (now : Z) (w : WorkOrderCreate.t) :
  keeps_wf (routers_work_orders.create_work_order now w).
Proof.
  intros st Hwf. unfold routers_work_orders.create_work_order.
  pose proof (create_work_order_keeps_wf now w st Hwf) as H.
  destruct (crud.create_work_order now w st) as [st' [r | e]]; exact H.
Qed.

Lemma router_update_work_order_keeps_wf (order_id : Z) (u : WorkOrderUpdate.t) :
  keeps_wf (routers_work_orders.update_work_order order_id u).
Proof.
  unfold routers_work_orders.update_work_order.
  apply keeps_bind; [apply update_work_order_keeps_wf |].
  intros [o |]; [apply keeps_ret | apply keeps_raise].
Qed.

Lemma router_delete_work_order_keeps_wf (order_id : Z) :
  keeps_wf (routers_work_orders.delete_work_order order_id).
Proof.
  unfold routers_work_orders.delete_work_order.
  apply keeps_bind; [apply delete_work_order_keeps_wf |].
  intros [|]; [apply keeps_ret | apply keeps_raise].
Qed.

(** Every work-order operation keeps the integrity of the store: order ids
    stay distinct and every order, new or updated, refers to a stored
    client, whether the operation returns or raises. *)
Theorem work_order_operations_keep_integrity (st : Store.t) :
  wf st ->
  (forall now w st' r, crud.create_work_order now w st = (st', r) -> wf st')
  /\ (forall now w st' r,
        routers_work_orders.create_work_order now w st = (st', r) -> wf st')
  /\ (forall order_id u st' r, crud.update_work_order order_id u st = (st', r) -> wf st')
  /\ (forall order_id u st' r,
        routers_work_orders.update_work_order order_id u st = (st', r) -> wf st')
  /\ (forall order_id st' r, crud.delete_work_order order_id st = (st', r) -> wf st')
  /\ (forall order_id st' r,
        routers_work_orders.delete_work_order order_id st = (st', r) -> wf st').
Proof.
  intros Hwf. repeat apply conj; intros.
  - eapply keeps_run; [apply create_work_order_keeps_wf | exact Hwf | eassumption].
  - eapply keeps_run; [apply router_create_work_order_keeps_wf | exact Hwf | eassumption].
  - eapply keeps_run; [apply update_work_order_keeps_wf | exact Hwf | eassumption].
  - eapply keeps_run; [apply router_update_work_order_keeps_wf | exact Hwf | eassumption].
  - eapply keeps_run; [apply delete_work_order_keeps_wf | exact Hwf | eassumption].
  - eapply keeps_run; [apply router_delete_work_order_keeps_wf | exact Hwf | eassumption].
Qed.

Lemma work_order_operations_keep_integrity_witness :
  wf (fst (crud.create_work_order 7 order_for_unknown_client store))
  /\ wf (fst (crud.update_work_order 1 update_to_order_placed store))
  /\ wf (fst (crud.delete_work_order 2 store)).
Proof.
  destruct (work_order_operations_keep_integrity store store_wf)
    as (Hcreate & _ & Hupdate & _ & Hdelete & _).
  split; [| split].
  - eapply Hcreate. apply surjective_pairing.
  - eapply Hupdate. apply surjective_pairing.
  - eapply Hdelete. apply surjective_pairing.
Defined.

(** ** The administration routes *)

(** The three bulk deletions always succeed.  [reset_database] and
    [delete_all_clients] leave both tables empty; [delete_all_work_orders]
    empties the order table and leaves the clients as they are; so each of
    them leaves a store with its integrity, whatever the store was.  The
    message reports how many rows there were. *)
Theorem bulk_deletions (st : Store.t) :
  (exists msg, routers_admin.reset_database st = (Store.mk [] [], py.Ok msg))
  /\ (exists msg, routers_admin.delete_all_clients st = (Store.mk [] [], py.Ok msg))
  /\ (exists msg,
        routers_admin.delete_all_work_orders st
        = (Store.mk (Store.clients st) [], py.Ok msg)
        /\ MessageResponse.message msg
           = "Successfully deleted " ++ py.str_nat (length (Store.work_orders st))
             ++ " work orders.")
  /\ wf (Store.mk [] [])
  /\ (NoDup (map Client.id (Store.clients st)) ->
      NoDup (map Client.mobile_number (Store.clients st)) ->
      wf (Store.mk (Store.clients st) [])).
Proof.
  split; [| split; [| split; [| split]]].
  - eexists. reflexivity.
  - eexists. reflexivity.
  - eexists. split; reflexivity.
  - constructor; cbn; try constructor. intros o [].
  - intros Hids Hmob. constructor; cbn; try assumption; [constructor | intros o []].
Qed.

(** ** Deleting a client that has no orders *)

Lemma find_client_filter_out (l : list Client.t) (k : Z) :
  List.find (fun x => Client.id x =? k)
    (List.filter (fun x => negb (Client.id x =? k)) l) = None.
Proof.
  induction l as [| x l IH]; simpl; [reflexivity |].
  destruct (Client.id x =? k) eqn:E; simpl; [exact IH |].
  rewrite E. exact IH.
Qed.

Lemma find_client_id (c : Client.t) (l : list Client.t) (k : Z) :
  List.find (fun x => Client.id x =? k) l = Some c -> Client.id c = k.
Proof. intros H. apply find_some in H as [_ H]. apply Z.eqb_eq. exact H. Qed.

Lemma delete_client_orderless (st : Store.t) (client_id : Z) (c : Client.t) :
  crud.get_client st client_id = Some c ->
  (forall o, In o (Store.work_orders st) -> WorkOrder.client_id o <> client_id) ->
  crud.delete_client client_id st
  = (Store.mk
       (List.filter (fun c0 => negb (Client.id c0 =? client_id)) (Store.clients st))
       (Store.work_orders st), py.Ok true).
Proof.
  intros Hc Hnone. pose proof (find_client_id _ _ _ Hc) as Hid.
  assert (Hf : List.filter (fun o => WorkOrder.client_id o =? Client.id c)
                 (Store.work_orders st) = []).
  { destruct (List.filter _ (Store.work_orders st)) as [| o l] eqn:E; [reflexivity |].
    assert (Hin : In o (o :: l)) by (left; reflexivity).
    rewrite <- E in Hin. apply filter_In in Hin as [Hin Heq].
    apply Z.eqb_eq in Heq. exfalso. apply (Hnone o Hin). congruence. }
  unfold crud.delete_client, db.bind, db.query, db.delete_client_row, db.ret.
  rewrite Hc, Hf, Hid. reflexivity.
Qed.

(** A client without orders is deleted, and only that client: afterwards
    the id is unknown, every other client and every order is still there.
    For an unknown id the CRUD function reports [false] and the route
    answers not found, with the store as it was. *)
Theorem delete_client_without_orders (st : Store.t) (client_id : Z) :
  (forall c : Client.t,
      crud.get_client st client_id = Some c ->
      (forall o, In o (Store.work_orders st) -> WorkOrder.client_id o <> client_id) ->
      exists st' : Store.t,
        crud.delete_client client_id st = (st', py.Ok true)
        /\ routers_clients.delete_client client_id st = (st', py.Ok tt)
        /\ crud.get_client st' client_id = None
        /\ Store.work_orders st' = Store.work_orders st
        /\ (forall x, In x (Store.clients st')
                      <-> In x (Store.clients st) /\ Client.id x <> client_id))
  /\ (crud.get_client st client_id = None ->
      crud.delete_client client_id st = (st, py.Ok false)
      /\ routers_clients.delete_client client_id st = (st, py.Raise NotFound)).
Proof.
  split.
  - intros c Hc Hnone.
    pose proof (delete_client_orderless st client_id c Hc Hnone) as Hrun.
    eexists. split; [exact Hrun |]. split; [| split; [| split]].
    + unfold routers_clients.delete_client, db.bind. rewrite Hrun. reflexivity.
    + apply find_client_filter_out.
    + reflexivity.
    + intros x. cbn [Store.clients]. rewrite filter_In, negb_true_iff, Z.eqb_neq.
      reflexivity.
  - intros Hnone.
    assert (H : crud.delete_client client_id st = (st, py.Ok false)).
    { unfold crud.delete_client, db.bind, db.query, db.ret. rewrite Hnone. reflexivity. }
    split; [exact H |].
    unfold routers_clients.delete_client, db.bind. rewrite H. reflexivity.
Qed.

Lemma delete_client_without_orders_witness :
  (exists st' : Store.t,
      crud.delete_client 3 store_with_meera = (st', py.Ok true)
      /\ crud.get_client st' 3 = None
      /\ In client_priya (Store.clients st'))
  /\ routers_clients.delete_client 77 store = (store, py.Raise NotFound).
Proof.
  split.
  - destruct (proj1 (delete_client_without_orders store_with_meera 3) client_meera eq_refl)
      as (st' & Hrun & _ & Hgone & _ & Hrest).
    { intros o [<- | [<- | []]]; discriminate. }
    exists st'. split; [exact Hrun |]. split; [exact Hgone |].
    apply Hrest. split; [left; reflexivity | discriminate].
  - apply (proj2 (delete_client_without_orders store 77)). reflexivity.
Defined.

(** Once [delete_all_work_orders] has run, which always succeeds and leaves
    the clients alone, every stored client can be deleted one by one: the
    failure that [delete_client] meets on a client with orders cannot
    happen any more. *)
Theorem delete_client_after_delete_all_work_orders (st : Store.t) (client_id : Z)
    (c : Client.t) :
  crud.get_client st client_id = Some c ->
  exists (msg : MessageResponse.t) (st1 st2 : Store.t),
    routers_admin.delete_all_work_orders st = (st1, py.Ok msg)
    /\ Store.clients st1 = Store.clients st
    /\ Store.work_orders st1 = []
    /\ crud.delete_client client_id st1 = (st2, py.Ok true)
    /\ crud.get_client st2 client_id = None.
Proof.
  intros Hc.
  assert (Hrun := delete_client_orderless (Store.mk (Store.clients st) []) client_id c Hc
                    ltac:(intros o [])).
  eexists _, _, _. split; [reflexivity |].
  cbn [Store.clients Store.work_orders] in *. split; [reflexivity |].
  split; [reflexivity |]. split; [exact Hrun |].
  apply find_client_filter_out.
Qed.

Lemma delete_client_after_delete_all_work_orders_witness :
  exists (msg : MessageResponse.t) (st1 st2 : Store.t),
    routers_admin.delete_all_work_orders store = (st1, py.Ok msg)
    /\ Store.clients st1 = Store.clients store
    /\ Store.work_orders st1 = []
    /\ crud.delete_client 2 st1 = (st2, py.Ok true)
    /\ crud.get_client st2 2 = None.
Proof.
  exact (delete_client_after_delete_all_work_orders store 2 client_saree_house eq_refl).
Defined.

(** ** Creating a client and finding it again *)

Lemma find_app_found (A : Type) (p : A -> bool) (l k : list A) (x : A) :
  List.find p l = Some x -> List.find p (l ++ k) = Some x.
Proof.
  induction l as [| y l IH]; simpl; [discriminate |].
  destruct (p y); [intros H; exact H | exact IH].
Qed.

Lemma find_none_forall (A : Type) (p : A -> bool) (l : list A) (x : A) :
  List.find p l = None -> In x l -> p x = false.
Proof.
  intros H Hx. apply (existsb_false_forall _ _ _ x (find_none_existsb _ _ _ H) Hx).
Qed.

(** A client whose mobile number is not yet in use is created with an id
    larger than every id in use, and can be found again by that id and by
    the mobile number; the clients already stored are found as before and
    the orders are untouched.  Creating a client with the same number a
    second time is rejected as a duplicate. *)
Theorem create_client_then_lookup (now : Z) (st : Store.t) (client : ClientCreate.t) :
  crud.get_client_by_mobile st (ClientCreate.mobile_number client) = None ->
  let c := created_client now client st in
  let st' := Store.mk (Store.clients st ++ [c]) (Store.work_orders st) in
  routers_clients.create_client now client st = (st', py.Ok c)
  /\ crud.get_client st' (Client.id c) = Some c
  /\ crud.get_client_by_mobile st' (ClientCreate.mobile_number client) = Some c
  /\ (forall x, In x (Store.clients st) -> Client.id x < Client.id c)
  /\ (forall cid c0, crud.get_client st cid = Some c0 -> crud.get_client st' cid = Some c0)
  /\ (forall now', routers_clients.create_client now' client st'
                   = (st', py.Raise DuplicateKey)).
Proof.
  intros Hnone c st'.
  assert (Hfresh : forall x, In x (Store.clients st) -> Client.id x < Client.id c).
  { intros x Hx. subst c. cbn [created_client Client.id]. apply next_id_gt, in_map, Hx. }
  assert (Hmob : crud.get_client_by_mobile st' (ClientCreate.mobile_number client) = Some c).
  { unfold crud.get_client_by_mobile. subst st'. cbn [Store.clients].
    apply find_app_fresh; [| apply String.eqb_refl].
    intros y Hy. apply (find_none_forall _ _ _ y Hnone Hy). }
  split; [| split; [| split; [| split; [| split]]]].
  - unfold routers_clients.create_client, db.bind, db.query, crud.create_client,
      db.insert_client.
    rewrite Hnone, (find_none_existsb _ _ _ Hnone). reflexivity.
  - unfold crud.get_client. subst st'. cbn [Store.clients].
    apply find_app_fresh; [| apply Z.eqb_refl].
    intros y Hy. apply Z.eqb_neq. specialize (Hfresh y Hy). lia.
  - exact Hmob.
  - exact Hfresh.
  - intros cid c0 H. unfold crud.get_client in *. subst st'. cbn [Store.clients].
    apply find_app_found, H.
  - intros now'. unfold routers_clients.create_client, db.bind, db.query, db.raise.
    rewrite Hmob. reflexivity.
Qed.

Lemma create_client_then_lookup_witness :
  exists (st' : Store.t) (c : Client.t),
    routers_clients.create_client 7 new_client_meera store = (st', py.Ok c)
    /\ Client.id c = 3
    /\ crud.get_client_by_mobile st' "9000000001" = Some c
    /\ routers_clients.create_client 8 new_client_meera st' = (st', py.Raise DuplicateKey).
Proof.
  destruct (create_client_then_lookup 7 store new_client_meera eq_refl)
    as (Hrun & _ & Hmob & _ & _ & Hdup).
  eexists _, _. split; [exact Hrun |]. split; [reflexivity |].
  split; [exact Hmob | exact (Hdup 8)].
Defined.

(** ** Updating a client *)

Lemma NoDup_map_In_inj (A K : Type) (f : A -> K) (l : list A) (x y : A) :
  NoDup (map f l) -> In x l -> In y l -> f x = f y -> x = y.
Proof.
  induction l as [| z l IH]; simpl; intros Hnd Hx Hy Heq; [destruct Hx |].
  apply NoDup_cons in Hnd as [Hz Hnd].
  destruct Hx as [-> | Hx], Hy as [-> | Hy].
  - reflexivity.
  - exfalso. apply Hz. rewrite Heq. apply list_elem_of_In, in_map, Hy.
  - exfalso. apply Hz. rewrite <- Heq. apply list_elem_of_In, in_map, Hx.
  - apply IH; assumption.
Qed.

Lemma existsb_false_intro (A : Type) (p : A -> bool) (l : list A) :
  (forall x, In x l -> p x = false) -> existsb p l = false.
Proof.
  intros H. induction l as [| x l IH]; simpl; [reflexivity |].
  rewrite (H x (or_introl eq_refl)). apply IH. intros y Hy. apply H. right. exact Hy.
Qed.

Lemma find_client_replaced (c c' : Client.t) (l : list Client.t) :
  List.find (fun x => Client.id x =? Client.id c') l = Some c ->
  List.find (fun x => Client.id x =? Client.id c')
    (map (fun x => if Client.id x =? Client.id c' then c' else x) l) = Some c'.
Proof.
  induction l as [| x l IH]; simpl; [discriminate |].
  destruct (Client.id x =? Client.id c') eqn:E; simpl.
  - rewrite Z.eqb_refl. reflexivity.
  - rewrite E. exact IH.
Qed.

Lemma find_some_exists (A : Type) (p : A -> bool) (l : list A) (x : A) :
  In x l -> p x = true -> exists y, List.find p l = Some y.
Proof.
  intros Hin Hp. destruct (List.find p l) as [y |] eqn:E; [exists y; reflexivity |].
  rewrite (find_none_forall _ _ _ x E Hin) in Hp. discriminate Hp.
Qed.

(** An update of an existing client that keeps clear of the other clients'
    mobile numbers goes through: the client keeps its id and creation time,
    takes the supplied name and number, and is found under its id with the
    new data; the other clients and all orders stay as they were. *)
Theorem update_client_spec (st : Store.t) (client_id : Z) (c : Client.t)
    (u : ClientUpdate.t) :
  wf st ->
  crud.get_client st client_id = Some c ->
  ClientUpdate.valid u = true ->
  not_null (ClientUpdate.name u) = true ->
  not_null (ClientUpdate.mobile_number u) = true ->
  (forall m c2, ClientUpdate.mobile_number u = Set_ m ->
                crud.get_client_by_mobile st m = Some c2 -> Client.id c2 = client_id) ->
  exists st' : Store.t,
    routers_clients.update_client client_id u st = (st', py.Ok (updated_client c u))
    /\ crud.get_client st' client_id = Some (updated_client c u)
    /\ Store.work_orders st' = Store.work_orders st
    /\ map Client.id (Store.clients st') = map Client.id (Store.clients st)
    /\ (forall x, In x (Store.clients st) -> Client.id x <> client_id ->
                  In x (Store.clients st')).
Proof.
  intros Hwf Hc Hvalid Hname Hmobile Hfree.
  pose proof (find_client_id _ _ _ Hc) as Hid.
  pose proof (find_some _ _ Hc) as [Hcin _].
  (* the duplicate check of the route lets the request through *)
  assert (Hcheck :
    match ClientUpdate.mobile_number u with
    | Set_ m =>
        if String.eqb m "" then db.ret tt
        else db.bind (db.query (fun st => crud.get_client_by_mobile st m))
               (fun existing_client =>
                  match existing_client with
                  | Some c0 =>
                      if negb (Client.id c0 =? client_id)
                      then db.raise (py.HTTPException 400) else db.ret tt
                  | None => db.ret tt
                  end)
    | _ => db.ret tt
    end st = (st, py.Ok tt)).
  { destruct (ClientUpdate.mobile_number u) as [| | m] eqn:Hm; try reflexivity.
    destruct (String.eqb m ""); [reflexivity |].
    unfold db.bind, db.query.
    destruct (crud.get_client_by_mobile st m) as [c2 |] eqn:Hc2; [| reflexivity].
    rewrite (Hfree m c2 eq_refl Hc2), Z.eqb_refl. reflexivity. }
  (* no other row holds the number the client ends up with *)
  assert (Hunique : forall x, In x (Store.clients st) -> Client.id x <> client_id ->
                              Client.mobile_number x
                              <> Client.mobile_number (updated_client c u)).
  { intros x Hx Hne Heq. cbn [updated_client Client.mobile_number] in Heq.
    destruct (ClientUpdate.mobile_number u) as [| | m] eqn:Hm; cbn [supplied] in Heq.
    - apply Hne. rewrite <- Hid. f_equal.
      apply (NoDup_map_In_inj _ _ _ _ x c (mobiles_distinct st Hwf) Hx Hcin Heq).
    - discriminate Hmobile.
    - destruct (find_some_exists _ (fun y => String.eqb (Client.mobile_number y) m)
                  _ x Hx) as [c2 Hc2]; [apply String.eqb_eq, Heq |].
      pose proof (Hfree m c2 eq_refl Hc2) as Hc2id.
      apply find_some in Hc2 as [Hc2in Hc2m]. apply String.eqb_eq in Hc2m.
      apply Hne. rewrite <- Hc2id. f_equal.
      apply (NoDup_map_In_inj _ _ _ _ x c2 (mobiles_distinct st Hwf) Hx Hc2in).
      congruence. }
  assert (Hset : crud.setattrs_client c u = py.Ok (updated_client c u)).
  { unfold crud.setattrs_client, updated_client.
    rewrite (required_not_null _ _ _ Hname), (required_not_null _ _ _ Hmobile).
    reflexivity. }
  assert (Hrun : crud.update_client client_id u st
                 = (Store.mk
                      (map (fun x => if Client.id x =? Client.id (updated_client c u)
                                     then updated_client c u else x) (Store.clients st))
                      (Store.work_orders st),
                    py.Ok (Some (updated_client c u)))).
  { unfold crud.update_client, db.bind, db.query, db.lift, db.ret, db.replace_client.
    rewrite Hc, Hset. rewrite existsb_false_intro; [reflexivity |].
    intros x Hx. cbn [updated_client Client.id]. rewrite Hid.
    destruct (Client.id x =? client_id) eqn:E; [reflexivity |].
    apply Z.eqb_neq in E. cbn [negb andb]. apply String.eqb_neq.
    apply (Hunique x Hx E). }
  eexists. split; [| split; [| split; [| split]]].
  - unfold routers_clients.update_client. unfold db.bind at 1. rewrite Hcheck.
    unfold db.bind at 1. rewrite Hrun. reflexivity.
  - assert (Hid' : Client.id (updated_client c u) = client_id) by exact Hid.
    unfold crud.get_client in *. cbn [Store.clients].
    revert Hc. rewrite <- Hid'. apply find_client_replaced.
  - reflexivity.
  - cbn [Store.clients]. apply map_replace_client_ids.
  - intros x Hx Hne. cbn [Store.clients]. apply in_map_iff. exists x.
    split; [| exact Hx]. cbn [updated_client Client.id]. rewrite Hid.
    apply Z.eqb_neq in Hne. rewrite Hne. reflexivity.
Qed.

Lemma update_client_spec_witness :
  exists st' : Store.t,
    routers_clients.update_client 2 rename_client store
    = (st', py.Ok (updated_client client_saree_house rename_client))
    /\ Client.name (updated_client client_saree_house rename_client) = "Saree Palace"
    /\ Client.address (updated_client client_saree_house rename_client) = None
    /\ In client_priya (Store.clients st').
Proof.
  destruct (update_client_spec store 2 client_saree_house rename_client
              store_wf eq_refl eq_refl eq_refl eq_refl)
    as (st' & Hrun & _ & _ & _ & Hothers).
  { intros m c2 Hm. discriminate Hm. }
  exists st'. split; [exact Hrun |]. split; [reflexivity |]. split; [reflexivity |].
  apply Hothers; [left; reflexivity | discriminate].
Defined.

(** ** The priority list *)

Section OrderBy.

Context {A : Type} (key : A -> Z) (desc : bool).

Lemma insert_by_perm (x : A) (l : list A) :
  Permutation (db.insert_by (order_before key desc) x l) (x :: l).
Proof.
  induction l as [| y l IH]; simpl; [reflexivity |].
  destruct (order_before key desc x y); [reflexivity |].
  rewrite IH. apply perm_swap.
Qed.

Lemma order_by_perm (l : list A) : Permutation (db.order_by key desc l) l.
Proof.
  unfold db.order_by. induction l as [| x l IH]; simpl; [reflexivity |].
  fold (order_before key desc). rewrite insert_by_perm. apply perm_skip, IH.
Qed.

Lemma goes_before_trans (x y z : A) :
  goes_before key desc x y -> goes_before key desc y z -> goes_before key desc x z.
Proof. unfold goes_before. destruct desc; lia. Qed.

Lemma before_spec (x y : A) :
  (order_before key desc x y = true -> goes_before key desc x y)
  /\ (order_before key desc x y = false -> goes_before key desc y x).
Proof. unfold order_before, goes_before. destruct desc; lia. Qed.

Lemma insert_by_sorted (x : A) (l : list A) :
  StronglySorted (goes_before key desc) l ->
  StronglySorted (goes_before key desc) (db.insert_by (order_before key desc) x l).
Proof.
  induction l as [| y l IH]; simpl; intros Hs.
  - constructor; [constructor | constructor].
  - apply StronglySorted_inv in Hs as [Hl Hy].
    destruct (order_before key desc x y) eqn:E.
    + constructor; [constructor; assumption |].
      apply before_spec in E. constructor; [exact E |].
      rewrite Forall_forall in Hy. apply Forall_forall. intros z Hz.
      apply (goes_before_trans x y z E (Hy z Hz)).
    + constructor; [apply IH, Hl |].
      apply before_spec in E.
      rewrite Forall_forall in Hy. apply Forall_forall. intros z Hz.
      apply list_elem_of_In in Hz.
      apply (Permutation_in _ (insert_by_perm x l)) in Hz.
      destruct Hz as [<- | Hz]; [exact E |].
      apply Hy. apply list_elem_of_In. exact Hz.
Qed.

Lemma order_by_sorted (l : list A) :
  StronglySorted (goes_before key desc) (db.order_by key desc l).
Proof.
  unfold db.order_by. induction l as [| x l IH]; simpl; [constructor |].
  fold (order_before key desc). apply insert_by_sorted, IH.
Qed.

End OrderBy.

(** The priority list holds every work order exactly once, earliest
    expected delivery first; it is latest first when [sort_order] reads
    "desc" in any letter case, and for no other string.  The response
    counts all orders. *)
Theorem priority_list_sorted (st : Store.t) (sort_order : string) :
  let result := crud.get_priority_work_orders st sort_order in
  Permutation result (Store.work_orders st)
  /\ (py.lower sort_order = "desc" ->
      StronglySorted
        (fun a b => WorkOrder.expected_delivery_date b <= WorkOrder.expected_delivery_date a)
        result)
  /\ (py.lower sort_order <> "desc" ->
      StronglySorted
        (fun a b => WorkOrder.expected_delivery_date a <= WorkOrder.expected_delivery_date b)
        result)
  /\ PriorityOrderResponse.total_count
       (routers_work_orders.get_priority_work_orders st sort_order)
     = length (Store.work_orders st).
Proof.
  cbv zeta. unfold routers_work_orders.get_priority_work_orders.
  cbn [PriorityOrderResponse.total_count].
  unfold crud.get_priority_work_orders. cbv zeta.
  destruct (String.eqb (py.lower sort_order) "desc") eqn:E.
  - apply String.eqb_eq in E. split; [apply order_by_perm |]. split; [| split].
    + intros _. apply (order_by_sorted WorkOrder.expected_delivery_date true).
    + intros H. contradiction.
    + apply Permutation_length, order_by_perm.
  - apply String.eqb_neq in E. split; [apply order_by_perm |]. split; [| split].
    + intros H. contradiction.
    + intros _. apply (order_by_sorted WorkOrder.expected_delivery_date false).
    + apply Permutation_length, order_by_perm.
Qed.

Lemma priority_list_sorted_witness :
  StronglySorted
    (fun a b => WorkOrder.expected_delivery_date b <= WorkOrder.expected_delivery_date a)
    (crud.get_priority_work_orders store "DESC")
  /\ StronglySorted
       (fun a b => WorkOrder.expected_delivery_date a <= WorkOrder.expected_delivery_date b)
       (crud.get_priority_work_orders store "descending").
Proof.
  split.
  - apply (proj1 (proj2 (priority_list_sorted store "DESC"))). reflexivity.
  - apply (proj1 (proj2 (proj2 (priority_list_sorted store "descending")))). discriminate.
Defined.

(** ** Paging through the listings *)

Lemma limit_offset_split (A : Type) (l : list A) (skip n n' : Z) :
  0 <= skip -> 0 <= n -> 0 <= n' ->
  (db.limit n (db.offset skip l) ++ db.limit n' (db.offset (skip + n) l))%list
  = db.limit (n + n') (db.offset skip l).
Proof.
  intros Hs Hn Hn'. unfold db.limit, db.offset.
  destruct (n <? 0) eqn:E1; [lia |]. destruct (n' <? 0) eqn:E2; [lia |].
  destruct (n + n' <? 0) eqn:E3; [lia |].
  rewrite !Z2Nat.inj_add by lia.
  rewrite <- (drop_drop l (Z.to_nat n) (Z.to_nat skip)).
  apply take_take_drop.
Qed.

(** Pages fit together: the page of [n] rows from [skip] followed by the
    page of [n'] rows from [skip + n] is the page of [n + n'] rows from
    [skip], for work orders and for clients alike.  A page holds at most
    [n] rows and fewer only when the table runs out; a page that starts
    past the end is empty. *)
Theorem pages_compose (st : Store.t) (skip n n' : Z) :
  0 <= skip -> 0 <= n -> 0 <= n' ->
  (crud.get_work_orders st skip n ++ crud.get_work_orders st (skip + n) n')%list
  = crud.get_work_orders st skip (n + n')
  /\ (crud.get_clients st skip n ++ crud.get_clients st (skip + n) n')%list
     = crud.get_clients st skip (n + n')
  /\ length (crud.get_work_orders st skip n)
     = Nat.min (Z.to_nat n) (length (Store.work_orders st) - Z.to_nat skip)
  /\ length (crud.get_clients st skip n)
     = Nat.min (Z.to_nat n) (length (Store.clients st) - Z.to_nat skip)
  /\ (Z.of_nat (length (Store.work_orders st)) <= skip ->
      crud.get_work_orders st skip n = []).
Proof.
  intros Hs Hn Hn'. unfold crud.get_work_orders, crud.get_clients.
  split; [apply limit_offset_split; assumption |].
  split; [apply limit_offset_split; assumption |].
  unfold db.limit, db.offset. destruct (n <? 0) eqn:E; [lia |].
  split; [rewrite length_take, length_drop; reflexivity |].
  split; [rewrite length_take, length_drop; reflexivity |].
  intros Hpast. rewrite drop_ge by lia. apply take_nil.
Qed.

Lemma pages_compose_witness :
  (crud.get_work_orders store 0 1 ++ crud.get_work_orders store 1 1)%list
  = crud.get_work_orders store 0 2
  /\ crud.get_work_orders store 2 5 = [].
Proof.
  destruct (pages_compose store 0 1 1 ltac:(lia) ltac:(lia) ltac:(lia)) as [H _].
  split; [exact H |].
  apply (pages_compose store 2 5 0 ltac:(lia) ltac:(lia) ltac:(lia)).
  vm_compute. discriminate.
Defined.

(** ** The filter, when the client id is absent or not 0 *)

Lemma filter_sublist (A : Type) (p : A -> bool) (l : list A) :
  List.filter p l `sublist_of` l.
Proof.
  induction l as [| x l IH]; simpl; [constructor |].
  destruct (p x); [apply sublist_skip, IH | apply sublist_cons, IH].
Qed.

Lemma if_filter_sublist (A : Type) (p : A -> bool) (b : bool) (l : list A) :
  (if b then List.filter p l else l) `sublist_of` l.
Proof. destruct b; [apply filter_sublist | reflexivity]. Qed.

Lemma get_filtered_sublist (now : Z) (st : Store.t) (f : WorkOrderFilter.t) :
  crud.get_filtered_work_orders now st f `sublist_of` Store.work_orders st.
Proof.
  unfold crud.get_filtered_work_orders. cbv zeta.
  etransitivity; [apply if_filter_sublist |].
  etransitivity.
  { destruct (WorkOrderFilter.client_id f) as [cid |]; [| reflexivity].
    destruct (cid =? 0); [reflexivity | apply filter_sublist]. }
  etransitivity.
  { destruct (WorkOrderFilter.status f); [apply filter_sublist | reflexivity]. }
  etransitivity.
  { destruct (WorkOrderFilter.delivery_window_end f); [apply filter_sublist | reflexivity]. }
  etransitivity.
  { destruct (WorkOrderFilter.delivery_window_start f);
      [apply filter_sublist | reflexivity]. }
  destruct (WorkOrderFilter.delivery_date f); [apply filter_sublist | reflexivity].
Qed.

(** Unless the client id 0 is supplied, the filter returns exactly the
    stored orders that meet every supplied criterion, omitted criteria
    imposing nothing, and returns them in storage order; an order expected
    at the very instant given as [delivery_date] meets the day criterion.
    The filter route hands its parameters on unchanged. *)
Theorem filter_returns_exactly_the_matches (now : Z) (st : Store.t)
    (f : WorkOrderFilter.t) :
  WorkOrderFilter.client_id f <> Some 0 ->
  (forall o, In o (crud.get_filtered_work_orders now st f)
             <-> In o (Store.work_orders st) /\ satisfies now f o)
  /\ crud.get_filtered_work_orders now st f `sublist_of` Store.work_orders st
  /\ (forall d, crud.start_of_day d <= d < crud.start_of_day d + py.timedelta_days 1)
  /\ (forall b,
        WorkOrderFilter.overdue_only f = Some b ->
        routers_work_orders.filter_work_orders now st
          (WorkOrderFilter.delivery_date f) (WorkOrderFilter.delivery_window_start f)
          (WorkOrderFilter.delivery_window_end f) b (WorkOrderFilter.status f)
          (WorkOrderFilter.client_id f)
        = crud.get_filtered_work_orders now st f).
Proof.
  intros Hcid. split; [| split; [| split]].
  - intros o. apply get_filtered_work_orders_spec. exact Hcid.
  - apply get_filtered_sublist.
  - intros d. apply start_of_day_window.
  - intros b Hb. unfold routers_work_orders.filter_work_orders. cbv zeta.
    rewrite <- Hb. destruct f. reflexivity.
Qed.

Lemma filter_returns_exactly_the_matches_witness :
  In order_blouse (crud.get_filtered_work_orders 2000 store filter_client_2_started)
  /\ ~ In order_delivered (crud.get_filtered_work_orders 2000 store filter_client_2_started).
Proof.
  destruct (filter_returns_exactly_the_matches 2000 store filter_client_2_started
              ltac:(discriminate)) as (Hspec & _).
  split.
  - apply Hspec. split; [right; left; reflexivity |].
    unfold satisfies. cbn.
    repeat split; intros; try discriminate;
      repeat match goal with H : Some _ = Some _ |- _ => injection H as <- end;
      vm_compute; try reflexivity; discriminate.
  - intros H. apply Hspec in H as [_ (_ & _ & _ & Hs & _)].
    specialize (Hs STARTED eq_refl). discriminate Hs.
Defined.

(** ** The client summary *)

Lemma Qsum_nonneg (xs : list Q) : (forall x, In x xs -> (0 <= x)%Q) -> (0 <= Qsum xs)%Q.
Proof.
  induction xs as [| x xs IH]; simpl; intros H; [apply Qle_refl |].
  rewrite <- (Qplus_0_l 0). apply Qplus_le_compat.
  - apply H. left. reflexivity.
  - apply IH. intros y Hy. apply H. right. exact Hy.
Qed.





(** ** How the dashboard counts relate *)

Lemma filter_length_le (A : Type) (p : A -> bool) (l : list A) :
  (length (List.filter p l) <= length l)%nat.
Proof.
  induction l as [| x l IH]; simpl; [lia |]. destruct (p x); simpl; lia.
Qed.

Lemma filter_length_mono (A : Type) (p q : A -> bool) (l : list A) :
  (forall x, p x = true -> q x = true) ->
  (length (List.filter p l) <= length (List.filter q l))%nat.
Proof.
  intros H. induction l as [| x l IH]; simpl; [lia |].
  destruct (p x) eqn:E.
  - rewrite (H x E). simpl. lia.
  - destruct (q x); simpl; lia.
Qed.

Lemma filter_length_disjoint (A : Type) (p q r : A -> bool) (l : list A) :
  (forall x, p x = true -> r x = true) ->
  (forall x, q x = true -> r x = true) ->
  (forall x, p x = true -> q x = false) ->
  (length (List.filter p l) + length (List.filter q l) <= length (List.filter r l))%nat.
Proof.
  intros Hp Hq Hpq. induction l as [| x l IH]; simpl; [lia |].
  destruct (p x) eqn:Ep.
  - rewrite (Hpq x Ep), (Hp x Ep). simpl. lia.
  - destruct (q x) eqn:Eq.
    + rewrite (Hq x Eq). simpl. lia.
    + destruct (r x); simpl; lia.
Qed.

(** The dashboard counts fit together: overdue orders and orders due
    within a day are active orders, active and completed orders are among
    all orders, and pending payments are never negative.  When the clock
    has not gone back between the two queries no order is both overdue and
    due within a day, so the two counts together stay within the active
    orders.  Revenue is not negative when no advance is. *)
Theorem dashboard_counts_consistent (now1 now2 : Z) (st : Store.t) :
  let d := crud.get_dashboard_stats now1 now2 st in
  (DashboardSummary.overdue_work_orders d <= DashboardSummary.active_work_orders d)%nat
  /\ (DashboardSummary.orders_due_in_one_day d
      <= DashboardSummary.active_work_orders d)%nat
  /\ (DashboardSummary.active_work_orders d <= DashboardSummary.total_work_orders d)%nat
  /\ (DashboardSummary.completed_orders d <= DashboardSummary.total_work_orders d)%nat
  /\ (0 <= DashboardSummary.pending_payments d)%Q
  /\ (now1 <= now2 ->
      (DashboardSummary.overdue_work_orders d + DashboardSummary.orders_due_in_one_day d
       <= DashboardSummary.active_work_orders d)%nat)
  /\ ((forall o, In o (Store.work_orders st) -> (0 <= WorkOrder.advance_paid o)%Q) ->
      (0 <= DashboardSummary.total_revenue d)%Q).
Proof.
  cbv zeta. unfold crud.get_dashboard_stats. cbv zeta.
  cbn [DashboardSummary.overdue_work_orders DashboardSummary.active_work_orders
       DashboardSummary.orders_due_in_one_day DashboardSummary.total_work_orders
       DashboardSummary.completed_orders DashboardSummary.pending_payments
       DashboardSummary.total_revenue].
  unfold crud.get_overdue_work_orders, crud.get_orders_due_in_one_day,
    crud.overdue_condition.
  split; [| split; [| split; [| split; [| split; [| split]]]]].
  - apply filter_length_mono. intros o H. apply andb_true_iff in H as [_ H]. exact H.
  - apply filter_length_mono. intros o H. apply andb_true_iff in H as [_ H]. exact H.
  - apply filter_length_le.
  - apply filter_length_le.
  - rewrite (fold_left_Qplus _
      (fun order =>
         py.max0 ((if py.Qgtb (WorkOrder.actual_amount order) 0
                   then WorkOrder.actual_amount order
                   else WorkOrder.total_estimate order) - WorkOrder.advance_paid order))).
    rewrite Qplus_0_l. apply Qsum_nonneg. intros x Hx.
    apply in_map_iff in Hx as (o & <- & _). apply max0_nonneg.
  - intros Hclock. apply filter_length_disjoint.
    + intros o H. apply andb_true_iff in H as [_ H]. exact H.
    + intros o H. apply andb_true_iff in H as [_ H]. exact H.
    + intros o H. apply andb_true_iff in H as [H _]. apply Z.ltb_lt in H.
      apply andb_false_iff. left. apply andb_false_iff. left.
      rewrite Z.geb_leb. apply Z.leb_gt. lia.
  - intros Hadv. rewrite or_0_sql_sum. apply Qsum_nonneg. intros x Hx.
    apply in_map_iff in Hx as (o & <- & Ho). apply Hadv, Ho.
Qed.

Lemma dashboard_counts_consistent_witness :
  let d := crud.get_dashboard_stats 6000 6000 store in
  (DashboardSummary.overdue_work_orders d + DashboardSummary.orders_due_in_one_day d
   <= DashboardSummary.active_work_orders d)%nat
  /\ (0 <= DashboardSummary.total_revenue d)%Q.
Proof.
  cbv zeta.
  destruct (dashboard_counts_consistent 6000 6000 store) as (_ & _ & _ & _ & _ & H1 & H2).
  split; [apply H1; lia |].
  apply H2. intros o [<- | [<- | []]]; vm_compute; discriminate.
Defined.

(** ** Dashboard alerts *)

(** There is always at least one alert and never more than two.  A critical
    alert is raised exactly when some order is overdue and carries the
    number of overdue orders that the dashboard summary shows; a warning is
    raised exactly when some order is due within a day; the single
    informational alert appears exactly when there is neither.  The total
    is the number of critical and warning alerts. *)
Theorem dashboard_alerts_spec (now1 now2 : Z) (st : Store.t) :
  let r := routers_dashboard.get_dashboard_alerts now1 now2 st in
  let d := crud.get_dashboard_stats now1 now2 st in
  (1 <= length (routers_dashboard.alerts r) <= 2)%nat
  /\ routers_dashboard.total_alerts r
     = (routers_dashboard.critical_count r + routers_dashboard.warning_count r)%nat
  /\ routers_dashboard.critical_count r
     = (if (0 <? DashboardSummary.overdue_work_orders d)%nat then 1 else 0)%nat
  /\ routers_dashboard.warning_count r
     = (if (0 <? DashboardSummary.orders_due_in_one_day d)%nat then 1 else 0)%nat
  /\ (forall a, In a (routers_dashboard.alerts r) ->
        (routers_dashboard.alert_type a = "critical"
         /\ routers_dashboard.alert_count a = DashboardSummary.overdue_work_orders d)
        \/ (routers_dashboard.alert_type a = "warning"
            /\ routers_dashboard.alert_count a = DashboardSummary.orders_due_in_one_day d)
        \/ (routers_dashboard.alert_type a = "info"
            /\ DashboardSummary.overdue_work_orders d = 0%nat
            /\ DashboardSummary.orders_due_in_one_day d = 0%nat)).
Proof.
  cbv zeta. unfold routers_dashboard.get_dashboard_alerts, crud.get_dashboard_stats.
  cbv zeta.
  cbn [DashboardSummary.overdue_work_orders DashboardSummary.orders_due_in_one_day].
  destruct (crud.get_overdue_work_orders now1 st) as [| o1 l1];
    destruct (crud.get_orders_due_in_one_day now2 st) as [| o2 l2];
    cbn -[py.str_nat String.append Nat.ltb];
    (split; [lia |]); (split; [reflexivity |]); (split; [reflexivity |]);
    (split; [reflexivity |]); intros a Ha;
    repeat (destruct Ha as [<- | Ha]; [cbn; tauto |]); destruct Ha.
Qed.

(** ** Database statistics *)

Lemma count_by_status_total (l : list WorkOrder.t) :
  fold_right Nat.add 0%nat
    (map (fun s => length (List.filter (fun o => bool_decide (WorkOrder.status o = s)) l))
       all_statuses)
  = length l.
Proof.
  induction l as [| o l IH]; [reflexivity |].
  cbn [all_statuses map fold_right] in *. cbn [List.filter].
  destruct (WorkOrder.status o);
    repeat first [ rewrite bool_decide_eq_true_2 by reflexivity
                 | rewrite bool_decide_eq_false_2 by discriminate ];
    cbn [length]; lia.
Qed.

(** The status breakdown has one entry for each of the five status values
    and no other; each entry is the number of orders in that status; and
    the entries add up to the total number of work orders. *)
Theorem database_stats_breakdown (st : Store.t) :
  let d := routers_admin.get_database_stats st in
  let orders_in s :=
    length (List.filter (fun o => bool_decide (WorkOrder.status o = s))
              (Store.work_orders st)) in
  (forall s : OrderStatus, routers_admin.status_breakdown d !! value s = Some (orders_in s))
  /\ (forall k : string,
        k ∉ map value all_statuses -> routers_admin.status_breakdown d !! k = None)
  /\ fold_right Nat.add 0%nat (map orders_in all_statuses)
     = routers_admin.total_work_orders d
  /\ routers_admin.total_clients d = length (Store.clients st).
Proof.
  cbv zeta. unfold routers_admin.get_database_stats. cbv zeta.
  cbn [routers_admin.status_breakdown routers_admin.total_work_orders
       routers_admin.total_clients].
  cbn [all_statuses fold_left].
  split; [| split; [| split]].
  - intros s.
    destruct s;
      repeat first [ rewrite lookup_insert_eq; reflexivity
                   | rewrite lookup_insert_ne by discriminate ].
  - intros k Hk.
    assert (Hne : forall s, value s <> k).
    { intros s <-. apply Hk. apply list_elem_of_In, in_map.
      destruct s; cbn; tauto. }
    repeat rewrite lookup_insert_ne by apply Hne. apply lookup_empty.
  - apply count_by_status_total.
  - reflexivity.
Qed.

Lemma database_stats_breakdown_witness :
  routers_admin.status_breakdown (routers_admin.get_database_stats store) !! "Cancelled"
  = None.
Proof.
  apply (proj1 (proj2 (database_stats_breakdown store)) "Cancelled").
  vm_compute. intros H.
  repeat (apply elem_of_cons in H as [H | H]; [discriminate H |]). inversion H.
Defined.

(** ** Search: what is found, in which order, and when it fails *)


Lemma lower_length (s : string) : String.length (sqlite.lower s) = String.length s.
Proof. induction s as [| c s IH]; [reflexivity |]. cbn. rewrite IH. reflexivity. Qed.

Lemma append_length (s t : string) :
  String.length (s ++ t) = (String.length s + String.length t)%nat.
Proof.
  induction s as [| c s IH]; [reflexivity |].
  change (String c s ++ t) with (String c (s ++ t)).
  cbn [String.length]. rewrite IH. reflexivity.
Qed.

Lemma search_term_len (q : string) : len ("%" ++ sqlite.lower q ++ "%") = len q + 2.
Proof.
  unfold len. rewrite !append_length, lower_length. cbn [String.length]. lia.
Qed.

Lemma like_star_end (k : string -> bool) (s : string) (skipping : bool) :
  k EmptyString = true -> sqlite.like_star k skipping s = true.
Proof.
  intros Hk. revert skipping.
  induction s as [| c s IH]; intros skipping; cbn [sqlite.like_star]; [exact Hk |].
  destruct (skipping && sqlite.is_cont c); [apply IH |].
  rewrite IH. apply orb_true_r.
Qed.

Lemma like_percent (s : string) : sqlite.patternCompare "%" s = true.
Proof.
  cbn [sqlite.patternCompare]. rewrite Ascii.eqb_refl. apply like_star_end. reflexivity.
Qed.

Lemma c_string_nul_free (s : string) : nul_free s = true -> sqlite.c_string s = s.
Proof.
  induction s as [| c s IH]; intros H; [reflexivity |].
  cbn [nul_free] in H. apply andb_true_iff in H as [Hc Hs].
  apply negb_true_iff in Hc. cbn [sqlite.c_string]. rewrite Hc, (IH Hs). reflexivity.
Qed.

Lemma lower_ascii_plain (c : ascii) :
  (nat_of_ascii c <? 128)%nat = true -> sqlite.is_cont (sqlite.lower_ascii c) = false.
Proof.
  destruct c as [[] [] [] [] [] [] [] []]; intros H;
    first [reflexivity | discriminate H].
Qed.

(** A wildcard-free pattern followed by [%] matches every subject that
    starts with it. *)
Lemma like_prefix_complete (q suf : string) :
  plain_term q = true ->
  prefix_of (sqlite.lower q) (sqlite.lower suf) = true ->
  sqlite.patternCompare (sqlite.lower q ++ "%") (sqlite.lower suf) = true.
Proof.
  revert suf. induction q as [| a q IH]; intros suf Hplain Hpre.
  - apply like_percent.
  - cbn [plain_term] in Hplain.
    repeat rewrite andb_true_iff in Hplain. destruct Hplain as [[[[_ _] Hp] Hu] Hq].
    apply negb_true_iff in Hp. apply negb_true_iff in Hu.
    destruct (lower_ascii_not_wildcard a Hp Hu) as [Hp' Hu'].
    cbn [sqlite.lower].
    change (String (sqlite.lower_ascii a) (sqlite.lower q) ++ "%")
      with (String (sqlite.lower_ascii a) (sqlite.lower q ++ "%")).
    cbn [sqlite.patternCompare]. rewrite Hp', Hu'.
    destruct suf as [| b suf]; cbn [sqlite.lower prefix_of] in *; [discriminate Hpre |].
    apply andb_true_iff in Hpre as [Hc Hrest].
    rewrite eq_nocase_lower, Hc. cbn [andb]. apply IH; assumption.
Qed.

(** [%] finds a match that starts at a character boundary. *)
Lemma like_star_complete (k : string -> bool) (t s : string) (skipping : bool) :
  (forall suf, prefix_of t (sqlite.lower suf) = true -> k (sqlite.lower suf) = true) ->
  (forall c suf, prefix_of t (String c suf) = true -> sqlite.is_cont c = false) ->
  contains t (sqlite.lower s) = true ->
  sqlite.like_star k skipping (sqlite.lower s) = true.
Proof.
  intros Hk Hstart. revert skipping.
  induction s as [| c s IH]; intros skipping Hc.
  - cbn [sqlite.lower contains] in *. rewrite orb_false_r in Hc.
    cbn [sqlite.like_star]. apply (Hk EmptyString Hc).
  - cbn [sqlite.lower contains] in Hc. cbn [sqlite.lower sqlite.like_star].
    apply orb_true_iff in Hc as [Hhere | Hlater].
    + rewrite (Hstart _ _ Hhere), andb_false_r.
      pose proof (Hk (String c s) Hhere) as Hk'. cbn [sqlite.lower] in Hk'.
      rewrite Hk'. reflexivity.
    + destruct (skipping && sqlite.is_cont (sqlite.lower_ascii c)); [apply IH, Hlater |].
      rewrite (IH _ Hlater). apply orb_true_r.
Qed.

(** A plain term is found in every text without a zero byte that contains
    it. *)
Lemma lower_like_complete (q : string) (column : option string) :
  plain_term q = true ->
  opt_nul_free column = true ->
  opt_ci_contains q column = true ->
  sqlite.lower_like ("%" ++ sqlite.lower q ++ "%") column = true.
Proof.
  intros Hplain. destruct column as [s |]; [| intros _ H; discriminate H].
  cbn [opt_nul_free]. intros Hnul.
  unfold sqlite.lower_like, sqlite.like, opt_ci_contains, ci_contains.
  rewrite (c_string_search_term q Hplain), c_string_lower, (c_string_nul_free s Hnul).
  change ("%" ++ sqlite.lower q ++ "%") with (String "%" (sqlite.lower q ++ "%")).
  cbn [sqlite.patternCompare]. rewrite Ascii.eqb_refl. intros Hc.
  destruct q as [| a q].
  - apply like_star_end. apply like_percent.
  - apply like_star_complete with (t := sqlite.lower (String a q)).
    + intros suf. apply like_prefix_complete. exact Hplain.
    + intros c suf Hpre. cbn [sqlite.lower prefix_of] in Hpre.
      apply andb_true_iff in Hpre as [Hac _]. apply Ascii.eqb_eq in Hac. subst c.
      apply lower_ascii_plain. cbn [plain_term] in Hplain.
      repeat rewrite andb_true_iff in Hplain. tauto.
    + exact Hc.
Qed.

Lemma order_by_created_at_desc_eq (l : list (WorkOrder.t * Client.t)) :
  routers_search.order_by_created_at_desc l
  = db.order_by (fun row => WorkOrder.created_at row.1) true l.
Proof.
  unfold routers_search.order_by_created_at_desc, db.order_by.
  induction l as [| x l IH]; [reflexivity |].
  cbn [fold_right]. rewrite IH.
  generalize (fold_right
                (db.insert_by (fun x0 y => WorkOrder.created_at y.1 <=? WorkOrder.created_at x0.1))
                [] l) as m.
  induction m as [| y m IHm]; [reflexivity |].
  cbn [routers_search.insert_desc db.insert_by].
  destruct (WorkOrder.created_at y.1 <=? WorkOrder.created_at x.1); [reflexivity |].
  rewrite IHm. reflexivity.
Qed.

Lemma order_by_created_at_desc_perm (l : list (WorkOrder.t * Client.t)) :
  Permutation (routers_search.order_by_created_at_desc l) l.
Proof. rewrite order_by_created_at_desc_eq. apply order_by_perm. Qed.

Lemma sql_limit_all (A : Type) (n : Z) (l : list A) :
  limit_covers n (length l) -> routers_search.sql_limit n l = l.
Proof.
  unfold limit_covers, routers_search.sql_limit. intros H.
  destruct (n <? 0) eqn:E; [reflexivity |].
  apply firstn_all2. apply Z.ltb_ge in E. lia.
Qed.


Lemma join_client_length (st : Store.t) :
  (length (routers_search.join_client st) <= length (Store.work_orders st))%nat.
Proof.
  unfold routers_search.join_client.
  induction (Store.work_orders st) as [| o l IH]; [reflexivity |].
  cbn [flat_map]. rewrite length_app. cbn [length].
  destruct (crud.get_client st (WorkOrder.client_id o)); cbn [length]; lia.
Qed.

Lemma join_client_In (st : Store.t) (o : WorkOrder.t) (c : Client.t) :
  In (o, c) (routers_search.join_client st)
  <-> In o (Store.work_orders st) /\ crud.get_client st (WorkOrder.client_id o) = Some c.
Proof.
  unfold routers_search.join_client. rewrite in_flat_map. split.
  - intros (o0 & Ho0 & Hin).
    destruct (crud.get_client st (WorkOrder.client_id o0)) as [c0 |] eqn:Hc0;
      [| destruct Hin].
    destruct Hin as [[= -> ->] | []]. auto.
  - intros [Ho Hc]. exists o. split; [exact Ho |]. rewrite Hc. left. reflexivity.
Qed.


Lemma format_results_null (now : Z) (rows : list (WorkOrder.t * Client.t))
    (row : WorkOrder.t * Client.t) :
  In row rows -> WorkOrder.description row.1 = None ->
  routers_search.format_results now rows = py.Raise py.TypeError.
Proof.
  intros Hin Hnull. induction rows as [| x rows IH]; [destruct Hin |].
  cbn [routers_search.format_results].
  unfold routers_search.format_result at 1.
  destruct (WorkOrder.description x.1) eqn:Ex.
  - destruct Hin as [-> | Hin]; [congruence |]. rewrite (IH Hin). reflexivity.
  - reflexivity.
Qed.

Lemma status_filter_In (status : option string) (rows : list (WorkOrder.t * Client.t))
    (row : WorkOrder.t * Client.t) :
  In row (routers_search.status_filter status rows)
  <-> In row rows /\ status_filter_admits status row.1 = true.
Proof.
  unfold routers_search.status_filter, status_filter_admits.
  destruct status as [s |]; [| tauto].
  destruct (String.eqb s ""); [cbn [orb]; tauto |].
  cbn [orb]. apply filter_In.
Qed.

Lemma status_filter_length (status : option string)
    (rows : list (WorkOrder.t * Client.t)) :
  (length (routers_search.status_filter status rows) <= length rows)%nat.
Proof.
  unfold routers_search.status_filter. destruct status as [s |]; [| lia].
  destruct (String.eqb s ""); [lia | apply filter_length_le].
Qed.

(** The rows the query selects when the term is plain, the pattern is
    within SQLite's limit, the row limit cannot cut the list short and the
    searched text of the order holds no zero byte. *)
Lemma search_rows_complete (st : Store.t) (q : string) (status : option string)
    (limit : Z) (o : WorkOrder.t) (c : Client.t) :
  plain_term q = true ->
  len q + 2 <= sqlite.max_like_pattern_length ->
  limit_covers limit (length (Store.work_orders st)) ->
  In o (Store.work_orders st) ->
  crud.get_client st (WorkOrder.client_id o) = Some c ->
  searched_text_nul_free o c = true ->
  search_match q o c = true ->
  status_filter_admits status o = true ->
  exists rows, routers_search.search_rows st q status limit = py.Ok rows
               /\ In (o, c) rows
               /\ forall row, In row rows -> In row.1 (Store.work_orders st).
Proof.
  intros Hplain Hlen Hlimit Ho Hc Hnul Hmatch Hstatus.
  assert (Hjoin : In (o, c) (routers_search.join_client st)) by (apply join_client_In; auto).
  pose proof (join_client_length st) as Hjl.
  assert (Hcond : routers_search.search_conditions ("%" ++ sqlite.lower q ++ "%") (o, c)
                  = true).
  { unfold routers_search.search_conditions. cbn [fst snd].
    unfold search_match in Hmatch. unfold searched_text_nul_free in Hnul.
    repeat rewrite andb_true_iff in Hnul. destruct Hnul as [[[N1 N2] N3] N4].
    repeat rewrite orb_true_iff in Hmatch. repeat rewrite orb_true_iff.
    destruct Hmatch as [[[H | H] | H] | H];
      [ left; left; left; apply (lower_like_complete q (Some _) Hplain N1 H)
      | left; left; right; apply (lower_like_complete q (Some _) Hplain N2 H)
      | left; right; apply (lower_like_complete q _ Hplain N3 H)
      | right; apply (lower_like_complete q _ Hplain N4 H) ]. }
  assert (Hl0 : (limit =? 0) = false).
  { apply Z.eqb_neq. intros ->. destruct Hlimit as [Hl | Hl]; [lia |].
    destruct (Store.work_orders st); [destruct Ho | cbn [length] in Hl; lia]. }
  assert (Hsel : In (o, c)
                   (routers_search.status_filter status
                      (List.filter
                         (routers_search.search_conditions ("%" ++ sqlite.lower q ++ "%"))
                         (routers_search.join_client st)))).
  { apply status_filter_In. split; [| exact Hstatus].
    apply filter_In. split; [exact Hjoin | exact Hcond]. }
  unfold routers_search.search_rows. cbv zeta.
  unfold routers_search.like_evaluated_on. rewrite Hl0.
  destruct (routers_search.status_filter status (routers_search.join_client st))
    as [| j js] eqn:Ej.
  - exfalso. assert (Hin : In (o, c) []); [| destruct Hin].
    rewrite <- Ej. apply status_filter_In. split; [exact Hjoin | exact Hstatus].
  - rewrite search_term_len.
    destruct (sqlite.max_like_pattern_length <? len q + 2) eqn:E;
      [apply Z.ltb_lt in E; lia |].
    eexists. split; [reflexivity |].
    rewrite sql_limit_all.
    + split.
      * apply (Permutation_in _ (Permutation_sym (order_by_created_at_desc_perm _))), Hsel.
      * intros [o' c'] Hr.
        apply (Permutation_in _ (order_by_created_at_desc_perm _)) in Hr.
        apply status_filter_In in Hr as [Hr _]. apply filter_In in Hr as [Hr _].
        apply join_client_In in Hr. cbn [fst]. tauto.
    + rewrite (Permutation_length (order_by_created_at_desc_perm _)).
      pose proof (status_filter_length status
                    (List.filter
                       (routers_search.search_conditions ("%" ++ sqlite.lower q ++ "%"))
                       (routers_search.join_client st))) as H1.
      pose proof (filter_length_le _
                    (routers_search.search_conditions ("%" ++ sqlite.lower q ++ "%"))
                    (routers_search.join_client st)) as H2.
      destruct Hlimit as [Hl | Hl]; [left; exact Hl | right; lia].
Qed.



(** An order stored without a description breaks the search.  When such an
    order contains the term in its client's name or mobile number or in its
    notes, none of which holds a zero byte, the status filter admits it and
    the limit cannot cut the list short, building the display summary raises
    [TypeError] and no answer is returned, whatever else was found. *)
Theorem search_work_orders_null_description (now : Z) (st : Store.t) (q : string)
    (status : option string) (limit : Z) (o : WorkOrder.t) (c : Client.t) :
  plain_term q = true ->
  len q + 2 <= sqlite.max_like_pattern_length ->
  limit_covers limit (length (Store.work_orders st)) ->
  In o (Store.work_orders st) ->
  crud.get_client st (WorkOrder.client_id o) = Some c ->
  WorkOrder.description o = None ->
  searched_text_nul_free o c = true ->
  search_match q o c = true ->
  status_filter_admits status o = true ->
  routers_search.search_work_orders now st q status limit = py.Raise py.TypeError.
Proof.
  intros Hplain Hlen Hlimit Ho Hc Hnull Hnul Hmatch Hstatus.
  destruct (search_rows_complete st q status limit o c
              Hplain Hlen Hlimit Ho Hc Hnul Hmatch Hstatus) as (rows & Hrows & Hin & _).
  unfold routers_search.search_work_orders. rewrite Hrows.
  rewrite (format_results_null now rows (o, c) Hin Hnull). reflexivity.
Qed.

Lemma search_work_orders_null_description_witness :
  routers_search.search_work_orders 2000 store_with_undescribed "priya" None 20
  = py.Raise py.TypeError.
Proof.
  apply (search_work_orders_null_description 2000 store_with_undescribed "priya" None 20
           order_undescribed client_priya).
  - reflexivity.
  - vm_compute. discriminate.
  - right. vm_compute. discriminate.
  - right. right. left. reflexivity.
  - reflexivity.
  - reflexivity.
  - reflexivity.
  - reflexivity.
  - reflexivity.
Defined.






(** ** Client search *)






(** ** Reading back what was written *)

Lemma find_by_mobile_unique (l : list Client.t) (c : Client.t) :
  NoDup (map Client.mobile_number l) -> In c l ->
  List.find (fun x => String.eqb (Client.mobile_number x) (Client.mobile_number c)) l
  = Some c.
Proof.
  induction l as [| x l IH]; intros Hnd Hin; [destruct Hin |].
  simpl in Hnd. inversion Hnd as [| ? ? Hx Hl]; subst.
  simpl. destruct Hin as [-> | Hin].
  - rewrite String.eqb_refl. reflexivity.
  - destruct (String.eqb (Client.mobile_number x) (Client.mobile_number c)) eqn:E.
    + apply String.eqb_eq in E. exfalso. apply Hx. rewrite E.
      apply list_elem_of_In, in_map. exact Hin.
    + apply IH; assumption.
Qed.

(** An order created for an existing client can be read back: the route
    that fetches an order by id returns it, the client's order list is the
    old list with the new order at its end, and every order that could be
    fetched before is fetched as before.  An id that matches no order is
    answered with not found.  In a store with its integrity the client's
    mobile number leads to the same list. *)
Theorem create_work_order_then_read (now : Z) (st : Store.t) (w : WorkOrderCreate.t)
    (cid : Z) (c : Client.t) :
  WorkOrderCreate.client_id w = Some cid ->
  cid <> 0 ->
  crud.get_client st cid = Some c ->
  let o := inserted_order now w st cid in
  let st' := Store.mk (Store.clients st) (Store.work_orders st ++ [o]) in
  routers_work_orders.create_work_order now w st = (st', py.Ok (Some o))
  /\ routers_work_orders.read_work_order (WorkOrder.id o) st' = (st', py.Ok o)
  /\ routers_clients.get_client_work_orders cid st'
     = (st', py.Ok (crud.get_work_orders_by_client st cid ++ [o])%list)
  /\ (forall oid o0,
        crud.get_work_order st oid = Some o0 ->
        routers_work_orders.read_work_order oid st' = (st', py.Ok o0))
  /\ (forall oid,
        crud.get_work_order st' oid = None ->
        routers_work_orders.read_work_order oid st' = (st', py.Raise NotFound))
  /\ (wf st ->
      crud.get_work_orders_by_mobile st' (Client.mobile_number c)
      = (crud.get_work_orders_by_client st cid ++ [o])%list).
Proof.
  intros Hcid Hnz Hc o st'.
  assert (Hlist : crud.get_work_orders_by_client st' cid
                  = (crud.get_work_orders_by_client st cid ++ [o])%list).
  { unfold crud.get_work_orders_by_client. subst st'. cbn [Store.work_orders].
    rewrite List.filter_app. cbn [List.filter]. subst o.
    cbn [inserted_order WorkOrder.client_id]. rewrite Z.eqb_refl. reflexivity. }
  split; [| split; [| split; [| split; [| split]]]].
  - unfold routers_work_orders.create_work_order, crud.create_work_order. cbv zeta.
    rewrite Hcid. apply Z.eqb_neq in Hnz. rewrite Hnz.
    unfold db.bind at 1. unfold db.bind at 1. unfold db.query at 1. rewrite Hc.
    unfold db.ret at 1. rewrite insert_then_get. reflexivity.
  - unfold routers_work_orders.read_work_order, db.bind, db.query, db.ret.
    unfold crud.get_work_order. subst st'. cbn [Store.work_orders].
    rewrite find_app_fresh; [reflexivity | | apply Z.eqb_refl].
    intros y Hy. apply Z.eqb_neq. subst o. cbn [inserted_order WorkOrder.id].
    pose proof (next_id_gt (map WorkOrder.id (Store.work_orders st)) (WorkOrder.id y)
                  (in_map _ _ _ Hy)). lia.
  - unfold routers_clients.get_client_work_orders, db.bind, db.query.
    change (crud.get_client st' cid) with (crud.get_client st cid).
    rewrite Hc, Hlist. reflexivity.
  - intros oid o0 H.
    unfold routers_work_orders.read_work_order, db.bind, db.query, db.ret.
    unfold crud.get_work_order in *. subst st'. cbn [Store.work_orders].
    rewrite (find_app_found _ _ _ _ _ H). reflexivity.
  - intros oid H.
    unfold routers_work_orders.read_work_order, db.bind, db.query, db.raise.
    rewrite H. reflexivity.
  - intros Hwf. unfold crud.get_work_orders_by_mobile.
    change (crud.get_client_by_mobile st' (Client.mobile_number c))
      with (crud.get_client_by_mobile st (Client.mobile_number c)).
    unfold crud.get_client_by_mobile.
    pose proof Hc as Hin. apply find_some in Hin as [Hin Hid]. apply Z.eqb_eq in Hid.
    rewrite (find_by_mobile_unique _ c (mobiles_distinct st Hwf) Hin).
    rewrite Hid. exact Hlist.
Qed.

Lemma create_work_order_then_read_witness :
  exists (st' : Store.t) (o : WorkOrder.t),
    routers_work_orders.create_work_order 7 order_for_client_1 store = (st', py.Ok (Some o))
    /\ routers_work_orders.read_work_order 3 st' = (st', py.Ok o)
    /\ crud.get_work_orders_by_mobile st' "9876543210" = [order_delivered; o].
Proof.
  destruct (create_work_order_then_read 7 store order_for_client_1 1 client_priya
              eq_refl ltac:(discriminate) eq_refl)
    as (Hrun & Hread & _ & _ & _ & Hmob).
  eexists _, _. split; [exact Hrun |]. split; [exact Hread |].
  apply Hmob. exact store_wf.
Defined.
